(** * dftflow: pipeline execution and scheduling engine

    A shallow embedding of the scheduling core of the repository
    (cli.py, pipelines/md.py, pipelines/batch.py, pipelines/utils.py)
    together with the properties its specification states about it.

    Conventions of the embedding:
    - a Python [dict] with string keys is a [gmap string value];
    - a Python float is a binary64 primitive float;
    - a [pathlib.Path] is the string of its POSIX form;
    - a computation that may raise and that performs observable calls is a
      value of the monad [M]: the list of calls it made, in order, and
      either the value it returned or the exception it raised;
    - collaborators that live outside the files above (pipeline classes,
      the file system, the queue backend, number formatting and parsing)
      are fields of a [world] record or section variables: every theorem
      quantifies over them. *)

From Stdlib Require Import ZArith String Ascii List.
From Stdlib Require Import Floats.PrimFloat Floats.SpecFloat Floats.FloatOps.
From stdpp Require Import base option list gmap strings sorting pretty.

Set Warnings "-inexact-float,-register-all".
Local Open Scope string_scope.
Local Open Scope list_scope.

(** ** Python values, exceptions and dictionaries *)

Module Py.

(** An instance of (a subclass of) Python's [Exception]: its class name
    and the text [str(exc)] gives.  [SystemExit] is not among them: the
    [sys.exit] of the commands is a [Cli.flow], and the collaborators of
    the embedding raise instances of [Exception] only. *)
Record exn := Exception { exn_class : string; exn_msg : string }.

Definition str_exc (e : exn) : string := exn_msg e.

Inductive outcome (A : Type) : Type :=
| Returned (a : A)
| Raised (e : exn).
Arguments Returned {A} a.
Arguments Raised {A} e.

Inductive value : Type :=
| VNone
| VBool (b : bool)
| VInt (z : Z)
| VFloat (x : float)
| VStr (s : string)
| VPath (p : string)
| VList (l : list value)
| VDict (d : gmap string value).

(** [bool(v)]. *)
Definition truthy (v : value) : bool :=
  match v with
  | VNone => false
  | VBool b => b
  | VInt z => negb (z =? 0)%Z
  | VFloat x => negb (PrimFloat.eqb x 0%float)
  | VStr s => negb (String.eqb s "")
  | VPath _ => true
  | VList l => match l with [] => false | _ => true end
  | VDict d => negb (Nat.eqb (size d) 0)
  end.

(** [d.get(k)] and [d.get(k, dflt)]. *)
Definition get (d : gmap string value) (k : string) : value :=
  default VNone (d !! k).

Definition get_default (d : gmap string value) (k : string) (dflt : value) : value :=
  default dflt (d !! k).

Definition KeyError (k : string) : exn :=
  Exception "KeyError" ("'" +:+ k +:+ "'").

Definition TypeError (msg : string) : exn := Exception "TypeError" msg.

(** [type(v).__name__] *)
Definition type_name (v : value) : string :=
  match v with
  | VNone => "NoneType"
  | VBool _ => "bool"
  | VInt _ => "int"
  | VFloat _ => "float"
  | VStr _ => "str"
  | VPath _ => "PosixPath"
  | VList _ => "list"
  | VDict _ => "dict"
  end.

(** [d[k]]. *)
Definition getitem (d : gmap string value) (k : string) : outcome value :=
  match d !! k with
  | Some v => Returned v
  | None => Raised (KeyError k)
  end.

(** [a or b]. *)
Definition or_ (a b : value) : value := if truthy a then a else b.

(** The dictionary display [{k1: v1, ..., kn: vn}]: later keys win. *)
Definition dict_of (kvs : list (string * value)) : gmap string value :=
  fold_left (fun d kv => <[kv.1 := kv.2]> d) kvs ∅.

End Py.

Export Py (outcome, Returned, Raised, value, VNone, VBool, VInt, VFloat, VStr,
           VPath, VList, VDict).

Abbreviation dict := (gmap string value).

(** ** Paths *)

Module PathLib.

(** Index of the last occurrence of [c] in [s]. *)
Fixpoint rfind (c : ascii) (s : string) : option nat :=
  match s with
  | EmptyString => None
  | String a s' =>
      match rfind c s' with
      | Some i => Some (S i)
      | None => if Ascii.eqb a c then Some 0 else None
      end
  end.

(** [p / q] for a relative [q]. *)
Definition joinpath (p q : string) : string := p +:+ "/" +:+ q.

(** [p.name]: the final component. *)
Definition name (p : string) : string :=
  match rfind "/"%char p with
  | Some i => substring (S i) (String.length p - S i) p
  | None => p
  end.

(** [p.stem]: the final component without its last suffix. *)
Definition stem (p : string) : string :=
  let n := name p in
  match rfind "."%char n with
  | Some i =>
      if ((0 <? i) && (i <? String.length n - 1))%nat
      then substring 0 i n else n
  | None => n
  end.

End PathLib.

Infix "</>" := PathLib.joinpath (at level 40, left associativity).

(** ** Observable calls and the monad of traced, fallible computations *)

Inductive event : Type :=
| EvMkdir (p : string)
| EvInit (cls : string) (kwargs : dict)
| EvRun (cls : string) (kwargs : dict)
| EvEnsurePoscar (src dest : string)
| EvWriteInput (file : string)
| EvPreparePotcar (poscar potcar : string)
| EvWriteJobScript (work_dir job_name : string)
| EvSubmitJob (script queue : string)
| EvWaitForJob (job_id work_dir queue : string)
| EvCheckJobCompleted (work_dir : string)
| EvExecuteStep (step : string)
| EvFileWrite (file : string) (chunk : string)
| EvBatchSummary (success_count total : nat).

Module Trace.

Definition M (A : Type) : Type := list event * outcome A.

Definition ret {A} (a : A) : M A := ([], Returned a).

Definition raise {A} (e : Py.exn) : M A := ([], Raised e).

Definition emit (e : event) : M unit := ([e], Returned tt).

Definition lift {A} (o : outcome A) : M A := ([], o).

Definition bind {A B} (m : M A) (f : A -> M B) : M B :=
  match m.2 with
  | Returned a => let r := f a in (m.1 ++ r.1, r.2)
  | Raised e => (m.1, Raised e)
  end.

(** [try: m  except Exception as exc: h exc]. *)
Definition try_except {A} (m : M A) (h : Py.exn -> M A) : M A :=
  match m.2 with
  | Returned a => m
  | Raised e => let r := h e in (m.1 ++ r.1, r.2)
  end.

Definition trace {A} (m : M A) : list event := m.1.
Definition result {A} (m : M A) : outcome A := m.2.

End Trace.

Export Trace (M, ret, raise, emit, lift, bind, try_except, trace, result).

Declare Scope py_scope.
Delimit Scope py_scope with py.
Notation "x <- m ;; k" := (bind m (fun x => k))
  (at level 100, m at next level, right associativity) : py_scope.
Notation "m ;;; k" := (bind m (fun _ => k))
  (at level 100, right associativity) : py_scope.
Local Open Scope py_scope.

(** ** concurrent.futures: a bounded pool and [as_completed] *)

Module Pool.

(** The order in which the work given to a pool of [W] workers
    completes.  [queue] holds the submitted work that has not started,
    in submission order; [running] the work in progress.  At every step
    the free workers take the head of the queue, and one running piece
    of work, chosen by the next number of [picks], completes. *)
Fixpoint completions {A} (fuel W : nat) (picks : list nat)
    (queue running : list A) : list A :=
  match fuel with
  | O => []
  | S fuel' =>
      let free := W - length running in
      let running' := running ++ take free queue in
      let queue' := drop free queue in
      let k := hd 0 picks `mod` length running' in
      match running' !! k with
      | Some x =>
          x :: completions fuel' W (tl picks) queue' (delete k running')
      | None => []
      end
  end.

(** A reordering of [l] chosen by [picks]: everything is in progress at
    once. *)
Definition shuffle {A} (picks : list nat) (l : list A) : list A :=
  completions (length l) (length l) picks l [].

(** The choices that are not the program's: which running work
    completes next, how many futures had completed when [as_completed]
    was called, and in which order those are handed out. *)
Record schedule := {
  finish : list nat;
  early : nat;
  early_order : list nat;
}.

(** [as_completed(futures)] on a pool of [W] workers: the futures that
    had completed when the call was made come first, in no particular
    order; the others follow as they complete. *)
Definition as_completed {A} (W : nat) (s : schedule) (futures : list A)
  : list A :=
  let done := completions (length futures) W (finish s) futures [] in
  shuffle (early_order s) (take (early s) done) ++ drop (early s) done.

(** Submit every thunk, then iterate [as_completed]: the calls of the
    workers (a worker's calls are kept together, workers in the order
    they start, which is the submission order) and the outcomes in the
    order [as_completed] hands them out. *)
Definition run_all {A} (W : nat) (s : schedule) (thunks : list (M A))
  : list event * list (outcome A) :=
  (concat (trace <$> thunks), as_completed W s (result <$> thunks)).

(** The whole block [with ThreadPoolExecutor(max_workers=W) as executor:].
    The constructor refuses a pool without workers.  [body] iterates
    over the completed futures; when it raises, leaving the block still
    waits for every worker, so the workers' calls are made whatever
    [body] does. *)
Definition with_executor {A B} (W : nat) (s : schedule)
    (thunks : list (M A)) (body : list (outcome A) -> M B) : M B :=
  if (W =? 0)%nat
  then raise (Py.Exception "ValueError"
                "max_workers must be greater than 0")
  else
    let r := run_all W s thunks in
    bind (r.1, Returned r.2) body.

End Pool.

(** ** Collaborators of the scheduler *)

(** A pipeline object as the scheduler sees it: what [run()] does and the
    [steps_data] the object holds afterwards. *)
Record instance := {
  inst_run : outcome bool;
  inst_steps_data : dict;
}.

(** A pipeline class: its [__name__] and its constructor, applied to the
    keyword arguments of the call. *)
Record pipeline_class := {
  pc_name : string;
  pc_new : dict -> outcome instance;
}.

Record world := {
  (** [Path.mkdir(parents=True, exist_ok=True)] *)
  fs_mkdir : string -> outcome unit;
  (** [Path.exists()] *)
  fs_exists : string -> bool;
  (** [Path.is_dir()] *)
  fs_is_dir : string -> bool;
  (** [list(Path.glob(pattern))] *)
  fs_glob : string -> string -> list string;
  (** [Path.cwd()] *)
  fs_cwd : string;
  (** [Path.read_text()], [open(p).readlines()] and [open(p, "w")] *)
  fs_read_text : string -> outcome string;
  fs_readlines : string -> outcome (list string);
  fs_open_write : string -> outcome unit;
  (** [json.load] of the file at a path; [None] when opening or parsing
      the file raises *)
  json_load : string -> option dict;
  (** Python's own string and number library: [f"{x:g}"], [f"{x:.6f}"],
      [float(s)] ([None] when it raises [ValueError]), [s.lower()],
      [s.strip()], [s.split()], [s.splitlines()] and
      [re.split(r"[ ,]+", s)] *)
  format_g : float -> string;
  format_6f : float -> string;
  float_of_str : string -> option float;
  str_lower : string -> string;
  str_strip : string -> string;
  str_split : string -> list string;
  str_splitlines : string -> list string;
  re_split_blank_comma : string -> list string;
  (** [str(v)] for the values whose text the embedding does not spell out
      (floats, lists, dictionaries) *)
  str_other : value -> string;
  RelaxPipeline : pipeline_class;
  PhononPropertiesPipeline : pipeline_class;
  PropertiesPipeline : pipeline_class;
  MdPipeline : pipeline_class;
  (** the scheduler's choices: which running task of the matrix completes
      next, and the same for the downstream groups of the unit that works
      in a given directory *)
  matrix_picks : Pool.schedule;
  combo_picks : string -> Pool.schedule;
  batch_picks : Pool.schedule;
  (** what can go wrong between a [ProcessPoolExecutor] and the worker
      process that runs the task of one structure file (a broken pool, a
      value that cannot be pickled): the exception [future.result()] then
      raises *)
  process_failure : string -> option Py.exn;
}.

(** The queue side of a pipeline: the job helpers of [vasp.utils.job] and
    the waiting and checking methods a pipeline inherits, none of which is
    among the files embedded here. *)
Record backend := {
  do_ensure_poscar : string -> string -> outcome unit;
  do_prepare_potcar : string -> string -> bool;
  do_write_job_script : string -> string -> string -> outcome string;
  do_submit_job : string -> string -> outcome string;
  do_wait_for_job : string -> string -> string -> outcome bool;
  do_check_job_completed : string -> outcome bool;
  do_load_job_config : option string -> outcome (option (option string));
}.

(** ** Calling a pipeline class, running the object, making a directory *)

Module Call.

Record obj := {
  obj_cls : string;
  obj_kwargs : dict;
  obj_inst : instance;
}.

(** [cls(k1=v1, ..., kn=vn, **spread)]: a keyword given twice is a
    [TypeError] raised by the call itself.  The text of the message
    depends on the interpreter, which names the callable with or
    without its module; the embedding writes the name of the class.
    The text is never empty. *)
Definition call_cls (cls : pipeline_class) (explicit : list (string * value))
    (spread : dict) : M obj :=
  match find (fun kv => bool_decide (is_Some (spread !! kv.1))) explicit with
  | Some kv =>
      raise (Py.TypeError (pc_name cls
               +:+ "() got multiple values for keyword argument '"
               +:+ kv.1 +:+ "'"))
  | None =>
      let kwargs := Py.dict_of explicit ∪ spread in
      emit (EvInit (pc_name cls) kwargs) ;;;
      inst <- lift (pc_new cls kwargs) ;;
      ret {| obj_cls := pc_name cls; obj_kwargs := kwargs; obj_inst := inst |}
  end.

(** [pipeline.run()] *)
Definition run (o : obj) : M bool :=
  emit (EvRun (obj_cls o) (obj_kwargs o)) ;;;
  lift (inst_run (obj_inst o)).

Definition mkdir (w : world) (p : string) : M unit :=
  emit (EvMkdir p) ;;; lift (fs_mkdir w p).

(** [Path(v)] *)
Definition Path (v : value) : M string :=
  match v with
  | VStr s => ret s
  | VPath p => ret p
  | _ => raise (Py.TypeError
                  "expected str, bytes or os.PathLike object")
  end.

(** [for x in l: ... f(x) ...], collecting what [f] returns. *)
Fixpoint submit_all {A B} (f : A -> M B) (l : list A) : M (list B) :=
  match l with
  | [] => ret []
  | x :: l' => y <- f x ;; ys <- submit_all f l' ;; ret (y :: ys)
  end.

End Call.

(** ** pipelines/utils.py *)

Module Utils.

Import Call.

Definition nl : string := String (ascii_of_nat 10) "".

(** [s * n] *)
Fixpoint repeat_str (s : string) (n : nat) : string :=
  match n with
  | O => ""
  | S n' => s +:+ repeat_str s n'
  end.

(** [needle in s] *)
Fixpoint contains (needle s : string) : bool :=
  String.prefix needle s
  || match s with
     | EmptyString => false
     | String _ s' => contains needle s'
     end.

(** What an f-string field prints for a value. *)
Definition str_value (w : world) (v : value) : string :=
  match v with
  | VStr s => s
  | VPath p => p
  | VNone => "None"
  | VBool true => "True"
  | VBool false => "False"
  | VInt z => pretty z
  | _ => str_other w v
  end.

Definition extract_final_energy (w : world) (work_dir : string) : value :=
  let outcar := work_dir </> "OUTCAR" in
  if negb (fs_exists w outcar) then VNone
  else
    match fs_readlines w outcar with
    | Raised _ => VNone
    | Returned lines =>
        match find (contains "energy  without entropy") (reverse lines) with
        | None => VNone
        | Some line =>
            match last (str_split w line) with
            | None => VNone
            | Some tok =>
                match float_of_str w tok with
                | Some x => VFloat x
                | None => VNone
                end
            end
        end
    end.

(** [f.write(chunk)] on the file opened at [file]. *)
Definition write (file chunk : string) : M unit :=
  emit (EvFileWrite file chunk).

(** [f"{v:.6f}"] *)
Definition format_energy (w : world) (v : value) : M string :=
  match v with
  | VFloat x => ret (format_6f w x)
  | VInt z =>
      let x := SF2Prim (binary_normalize prec emax z 0 false) in
      if PrimFloat.is_infinity x
      then raise (Py.Exception "OverflowError"
                    "int too large to convert to float")
      else ret (format_6f w x)
  | VBool b => ret (format_6f w (if b then 1%float else 0%float))
  | _ => raise (Py.Exception "ValueError" "Unknown format code 'f'")
  end.

(** One turn of [for i, result in enumerate(pipelines_results, 1):]. *)
Definition report_entry (w : world) (output_file : string) (i : nat)
    (result : dict) : M unit :=
  structure_name <- lift (Py.getitem result "structure_name") ;;
  write output_file
    (pretty i +:+ ". " +:+ str_value w structure_name +:+ nl) ;;;
  work_dir <- lift (Py.getitem result "work_dir") ;;
  write output_file ("   工作目录: " +:+ str_value w work_dir +:+ nl) ;;;
  write output_file
    ("   状态: "
     +:+ (if Py.truthy (Py.get result "success") then "成功" else "失败")
     +:+ nl) ;;;
  (if Py.truthy (Py.get result "energy")
   then energy <- lift (Py.getitem result "energy") ;;
        text <- format_energy w energy ;;
        write output_file ("   最终能量: " +:+ text +:+ " eV" +:+ nl)
   else ret tt) ;;;
  (if Py.truthy (Py.get result "error")
   then error <- lift (Py.getitem result "error") ;;
        write output_file ("   错误信息: " +:+ str_value w error +:+ nl)
   else ret tt) ;;;
  write output_file nl.

Fixpoint report_entries (w : world) (output_file : string) (i : nat)
    (results : list dict) : M unit :=
  match results with
  | [] => ret tt
  | result :: rest =>
      report_entry w output_file i result ;;;
      report_entries w output_file (S i) rest
  end.

Definition generate_summary_report (w : world)
    (pipelines_results : list dict) (output_file : string) : M unit :=
  lift (fs_open_write w output_file) ;;;
  write output_file (repeat_str "=" 80 +:+ nl) ;;;
  write output_file ("VASP Pipeline批量计算汇总报告" +:+ nl) ;;;
  write output_file (repeat_str "=" 80 +:+ nl +:+ nl) ;;;
  let total := length pipelines_results in
  let success :=
    length (filter (fun r => Is_true (Py.truthy (Py.get r "success")))
              pipelines_results) in
  let failed := total - success in
  write output_file ("总计算数: " +:+ pretty total +:+ nl) ;;;
  write output_file ("成功: " +:+ pretty success +:+ nl) ;;;
  write output_file ("失败: " +:+ pretty failed +:+ nl +:+ nl) ;;;
  write output_file (repeat_str "-" 80 +:+ nl) ;;;
  write output_file ("详细结果:" +:+ nl) ;;;
  write output_file (repeat_str "-" 80 +:+ nl +:+ nl) ;;;
  report_entries w output_file 1 pipelines_results.

Definition validate_structure_file (w : world) (structure_file : string)
  : bool :=
  fs_exists w structure_file.

(** *** kspacing_to_mesh *)

Definition IndexError : Py.exn :=
  Py.Exception "IndexError" "list index out of range".

Definition ValueError (msg : string) : Py.exn :=
  Py.Exception "ValueError" msg.

(** [l[i]] *)
Definition index {A} (l : list A) (i : nat) : M A :=
  match l !! i with
  | Some x => ret x
  | None => raise IndexError
  end.

(** [float(s)] for a string. *)
Definition float_ (w : world) (s : string) : M float :=
  match float_of_str w s with
  | Some x => ret x
  | None => raise (ValueError
                     ("could not convert string to float: '" +:+ s +:+ "'"))
  end.

(** [x / y] on floats. *)
Definition div (x y : float) : M float :=
  if PrimFloat.eqb y 0
  then raise (Py.Exception "ZeroDivisionError" "float division by zero")
  else ret (x / y)%float.

(** [math.sqrt] *)
Definition math_sqrt (x : float) : M float :=
  if PrimFloat.ltb x 0 then raise (ValueError "math domain error")
  else ret (PrimFloat.sqrt x).

(** [math.ceil] *)
Definition math_ceil (x : float) : M Z :=
  match Prim2SF x with
  | S754_zero _ => ret 0%Z
  | S754_infinity _ =>
      raise (Py.Exception "OverflowError"
               "cannot convert float infinity to integer")
  | S754_nan => raise (ValueError "cannot convert float NaN to integer")
  | S754_finite s m e =>
      let v := (if s then Z.neg m else Z.pos m) in
      ret (if 0 <=? e then v * 2 ^ e else - ((- v) / 2 ^ (- e)))%Z
  end.

Definition math_pi : float := 0x1.921fb54442d18p+1%float.

Definition cross (u v : list float) : M (list float) :=
  u0 <- index u 0 ;; u1 <- index u 1 ;; u2 <- index u 2 ;;
  v0 <- index v 0 ;; v1 <- index v 1 ;; v2 <- index v 2 ;;
  ret [u1 * v2 - u2 * v1; u2 * v0 - u0 * v2; u0 * v1 - u1 * v0]%float.

Definition dot (u v : list float) : M float :=
  u0 <- index u 0 ;; v0 <- index v 0 ;;
  u1 <- index u 1 ;; v1 <- index v 1 ;;
  u2 <- index u 2 ;; v2 <- index v 2 ;;
  ret (u0 * v0 + u1 * v1 + u2 * v2)%float.

Definition norm (u : list float) : M float :=
  d <- dot u u ;; math_sqrt d.

(** [[float(x) for x in line.split()[:3]]] *)
Definition vector_of_line (w : world) (line : string) : M (list float) :=
  submit_all (float_ w) (take 3 (str_split w line)).

(** The first half of the [try] block: the three scaled lattice vectors
    read from the file. *)
Definition read_lattice (w : world) (poscar_file : string)
  : M (list float * list float * list float) :=
  text <- lift (fs_read_text w poscar_file) ;;
  let lines := str_splitlines w text in
  if (length lines <? 5)%nat then raise (ValueError "POSCAR 行数不足")
  else
    line1 <- index lines 1 ;;
    token <- index (str_split w line1) 0 ;;
    scale <- float_ w token ;;
    line2 <- index lines 2 ;;
    a1 <- vector_of_line w line2 ;;
    line3 <- index lines 3 ;;
    a2 <- vector_of_line w line3 ;;
    line4 <- index lines 4 ;;
    a3 <- vector_of_line w line4 ;;
    let scaled := fun a => (fun v => v * scale)%float <$> a in
    ret (scaled a1, scaled a2, scaled a3).

(** [dot(a1, cross(a2, a3))] *)
Definition cell_volume (a1 a2 a3 : list float) : M float :=
  c <- cross a2 a3 ;; dot a1 c.

(** [max(1, math.ceil(norm(b) / kspacing))] *)
Definition mesh_count (b : list float) (kspacing : float) : M Z :=
  n <- norm b ;;
  q <- div n kspacing ;;
  c <- math_ceil q ;;
  ret (Z.max 1 c).

(** The second half of the [try] block. *)
Definition mesh_of_lattice (a1 a2 a3 : list float) (kspacing : float)
  : M (Z * Z * Z) :=
  vol <- cell_volume a1 a2 a3 ;;
  if PrimFloat.ltb (PrimFloat.abs vol) 1e-8
  then raise (ValueError "晶胞体积异常")
  else
    factor <- div (2 * math_pi)%float vol ;;
    let times_factor := fun c => (fun x => x * factor)%float <$> c in
    c1 <- cross a2 a3 ;;
    c2 <- cross a3 a1 ;;
    c3 <- cross a1 a2 ;;
    n1 <- mesh_count (times_factor c1) kspacing ;;
    n2 <- mesh_count (times_factor c2) kspacing ;;
    n3 <- mesh_count (times_factor c3) kspacing ;;
    ret (n1, n2, n3).

Definition kspacing_to_mesh (w : world) (poscar_file : string)
    (kspacing : float) : Z * Z * Z :=
  let attempt :=
    lattice <- read_lattice w poscar_file ;;
    mesh_of_lattice lattice.1.1 lattice.1.2 lattice.2 kspacing in
  match result attempt with
  | Returned mesh => mesh
  | Raised _ => (1, 1, 1)%Z
  end.

End Utils.

(** ** cli.py *)

Module Cli.

Import Call.

Definition format_pressure_dir (w : world) (pressure : float) : string :=
  format_g w pressure +:+ "_GPa".

Definition PROPERTY_MODULES : gset string :=
  {[ "scf"; "dos"; "band"; "elf"; "cohp"; "bader"; "fermisurface" ]}.

(** The dictionary both workers return from their [except] clause. *)
Definition failure_record (structure_file : string) (pressure : float)
    (exc : Py.exn) : dict :=
  Py.dict_of [("structure", VPath structure_file);
              ("pressure", VFloat pressure);
              ("success", VBool false);
              ("error", VStr (Py.str_exc exc))].

(** The [try] block of [_run_single_pipeline]. *)
Definition single_try (w : world) (pipeline_cls : pipeline_class)
    (structure_file work_dir : string) (pipeline_kwargs : dict)
    (pressure : float) : M dict :=
  mkdir w work_dir ;;;
  pipeline <- call_cls pipeline_cls
                [("structure_file", VPath structure_file);
                 ("work_dir", VPath work_dir);
                 ("pressure", VFloat pressure)]
                pipeline_kwargs ;;
  success <- run pipeline ;;
  ret (Py.dict_of [("structure", VPath structure_file);
                   ("pressure", VFloat pressure);
                   ("success", VBool success)]).

Definition _run_single_pipeline (w : world) (pipeline_cls : pipeline_class)
    (structure_file work_dir : string) (pipeline_kwargs : dict)
    (pressure : float) : M dict :=
  try_except
    (single_try w pipeline_cls structure_file work_dir pipeline_kwargs
       pressure)
    (fun exc => ret (failure_record structure_file pressure exc)).

(** [Path(d.get(k)) if d.get(k) else None] *)
Definition optional_path (d : dict) (k : string) : M value :=
  if Py.truthy (Py.get d k)
  then p <- Path (Py.get d k) ;; ret (VPath p)
  else ret VNone.

Definition _run_relax_pipeline (w : world) (structure_file work_dir : string)
    (cfg : dict) (pressure : float) : M dict :=
  pipeline <- call_cls (RelaxPipeline w)
                [("structure_file", VPath structure_file);
                 ("work_dir", VPath work_dir);
                 ("kspacing", Py.get_default cfg "kspacing" (VFloat 0.2));
                 ("encut", Py.get cfg "encut");
                 ("potcar_dir", Py.get cfg "potcar_dir");
                 ("potcar_type", Py.get_default cfg "potcar_type" (VStr "PBE"));
                 ("queue_system", Py.get_default cfg "job_system" (VStr "bash"));
                 ("mpi_procs", Py.get cfg "mpi_procs");
                 ("prepare_only", Py.get_default cfg "prepare_only" (VBool true));
                 ("pressure", VFloat pressure)] ∅ ;;
  ok <- run pipeline ;;
  let steps_data := inst_steps_data (obj_inst pipeline) in
  primitive <- optional_path steps_data "primitive_structure" ;;
  conventional <- optional_path steps_data "conventional_structure" ;;
  ret (Py.dict_of [("success", VBool ok);
                   ("relaxed", VPath (work_dir </> "POSCAR_relaxed"));
                   ("primitive", primitive);
                   ("conventional", conventional)]).

Definition _run_phonon_pipeline (w : world) (structure_file work_dir : string)
    (cfg : dict) (pressure : float) : M bool :=
  pipeline <- call_cls (PhononPropertiesPipeline w)
                [("structure_file", VPath structure_file);
                 ("work_dir", VPath work_dir);
                 ("supercell", Py.get_default cfg "supercell"
                                 (VList [VInt 2; VInt 2; VInt 2]));
                 ("method", Py.get_default cfg "method" (VStr "disp"));
                 ("kspacing", Py.get_default cfg "kspacing" (VFloat 0.3));
                 ("encut", Py.get cfg "encut");
                 ("queue_system", Py.get_default cfg "job_system" (VStr "bash"));
                 ("mpi_procs", Py.get cfg "mpi_procs");
                 ("potcar_dir", Py.get cfg "potcar_dir");
                 ("potcar_type", Py.get_default cfg "potcar_type" (VStr "PBE"));
                 ("prepare_only", Py.get_default cfg "prepare_only" (VBool true));
                 ("include_relax", VBool false);
                 ("pressure", VFloat pressure);
                 ("checkpoint_file", VPath (work_dir </> "phonon_checkpoint.json"));
                 ("report_file", VPath (work_dir </> "phonon_report.txt"))] ∅ ;;
  run pipeline.

Definition _run_properties_pipeline (w : world)
    (structure_file work_dir : string) (modules : list string) (cfg : dict)
    (pressure : float) : M bool :=
  let include_elf := bool_decide ("elf" ∈ modules) in
  let include_cohp := bool_decide ("cohp" ∈ modules) in
  let include_bader := bool_decide ("bader" ∈ modules) in
  let include_fermi := bool_decide ("fermisurface" ∈ modules) in
  pipeline <- call_cls (PropertiesPipeline w)
                [("structure_file", VPath structure_file);
                 ("work_dir", VPath work_dir);
                 ("kspacing", Py.get_default cfg "kspacing" (VFloat 0.2));
                 ("encut", Py.get cfg "encut");
                 ("include_elf", VBool include_elf);
                 ("include_cohp", VBool include_cohp);
                 ("include_bader", VBool include_bader);
                 ("include_fermi", VBool include_fermi);
                 ("plot_dos_type", Py.get_default cfg "dos_type" (VStr "element"));
                 ("queue_system", Py.get_default cfg "job_system" (VStr "bash"));
                 ("mpi_procs", Py.get cfg "mpi_procs");
                 ("potcar_dir", Py.get cfg "potcar_dir");
                 ("potcar_type", Py.get_default cfg "potcar_type" (VStr "PBE"));
                 ("prepare_only", Py.get_default cfg "prepare_only" (VBool true));
                 ("requested_steps", VList (VStr <$> modules));
                 ("run_relax", VBool false);
                 ("pressure", VFloat pressure);
                 ("checkpoint_file", VPath (work_dir </> "electronic_checkpoint.json"));
                 ("report_file", VPath (work_dir </> "electronic_report.txt"))] ∅ ;;
  run pipeline.

Definition _run_md_pipeline (w : world) (structure_file work_dir : string)
    (cfg : dict) (pressure : float) : M bool :=
  pipeline <- call_cls (MdPipeline w)
                [("structure_file", VPath structure_file);
                 ("work_dir", VPath work_dir);
                 ("potim", Py.get_default cfg "potim" (VFloat 1.0));
                 ("tebeg", Py.get_default cfg "tebeg" (VFloat 300.0));
                 ("teend", Py.get_default cfg "teend" (VFloat 300.0));
                 ("nsw", Py.get_default cfg "nsw" (VInt 200));
                 ("kspacing", Py.get_default cfg "kspacing" (VFloat 0.2));
                 ("encut", Py.get cfg "encut");
                 ("potcar_dir", Py.get cfg "potcar_dir");
                 ("potcar_type", Py.get_default cfg "potcar_type" (VStr "PBE"));
                 ("queue_system", Py.get_default cfg "job_system" (VStr "bash"));
                 ("mpi_procs", Py.get cfg "mpi_procs");
                 ("prepare_only", Py.get_default cfg "prepare_only" (VBool true));
                 ("include_relax", VBool false);
                 ("pressure", VFloat pressure);
                 ("checkpoint_file", VPath (work_dir </> "md_checkpoint.json"));
                 ("report_file", VPath (work_dir </> "md_report.txt"))] ∅ ;;
  run pipeline.

(** [for f in as_completed(futures): if not f.result(): success = False] *)
Fixpoint join_groups (completed : list (outcome bool)) (success : bool)
  : M bool :=
  match completed with
  | [] => ret success
  | f :: rest =>
      r <- lift f ;;
      join_groups rest (if negb r then false else success)
  end.

Definition make_cfg_common (config : dict) (potcar_dir : value) : dict :=
  Py.dict_of
    [("kspacing", Py.get_default config "kspacing" (VFloat 0.2));
     ("encut", Py.get config "encut");
     ("potcar_dir", potcar_dir);
     ("potcar_type", Py.get_default config "potcar_type" (VStr "PBE"));
     ("job_system", Py.get_default config "job_system" (VStr "bash"));
     ("mpi_procs", Py.get config "mpi_procs");
     ("prepare_only",
       VBool (negb (Py.truthy
                      (Py.get_default config "submit" (VBool false)))))].

(** The [try] block of [_run_combo_pipeline] up to and including the
    prerequisite: the common configuration and what the relax stage
    returned. *)
Definition prerequisite (w : world) (structure_file work_dir : string)
    (pressure : float) (config : dict) : M (dict * dict) :=
  mkdir w work_dir ;;;
  potcar_dir <- optional_path config "potcar_dir" ;;
  let cfg_common := make_cfg_common config potcar_dir in
  relax_res <- _run_relax_pipeline w structure_file work_dir cfg_common
                 pressure ;;
  ret (cfg_common, relax_res).

(** [relax_res.get("primitive") or relax_res.get("relaxed") or structure_file] *)
Definition relaxed_poscar (relax_res : dict) (structure_file : string)
  : value :=
  Py.or_ (Py.or_ (Py.get relax_res "primitive") (Py.get relax_res "relaxed"))
         (VPath structure_file).

(** The futures submitted to the pool of three workers, in order. *)
Definition downstream_groups (w : world) (modules : list string)
    (source_structure work_dir : string) (cfg_common : dict)
    (pressure : float) : list (M bool) :=
  let need_phonon := bool_decide ("phonon" ∈ modules) in
  let property_modules := filter (fun m => m ∈ PROPERTY_MODULES) modules in
  let need_md := bool_decide ("md" ∈ modules) in
  (if need_phonon
   then [_run_phonon_pipeline w source_structure work_dir cfg_common pressure]
   else [])
  ++ (match property_modules with
      | [] => []
      | _ => [_run_properties_pipeline w source_structure work_dir
                property_modules cfg_common pressure]
      end)
  ++ (if need_md
      then [_run_md_pipeline w source_structure work_dir cfg_common pressure]
      else []).

(** The [try] block of [_run_combo_pipeline]. *)
Definition combo_try (w : world) (modules : list string)
    (structure_file work_dir : string) (pressure : float) (config : dict)
  : M dict :=
  pre <- prerequisite w structure_file work_dir pressure config ;;
  let cfg_common := pre.1 in
  let relax_res := pre.2 in
  if negb (Py.truthy (Py.get relax_res "success")) then
    ret (Py.dict_of [("structure", VPath structure_file);
                     ("pressure", VFloat pressure);
                     ("success", VBool false);
                     ("error", VStr "relax failed")])
  else if Py.truthy (Py.get_default cfg_common "prepare_only" (VBool true))
  then
    ret (Py.dict_of [("structure", VPath structure_file);
                     ("pressure", VFloat pressure);
                     ("success", VBool true)])
  else
    relaxed_path <- Path (relaxed_poscar relax_res structure_file) ;;
    let source_structure :=
      if fs_exists w relaxed_path then relaxed_path else structure_file in
    success <- Pool.with_executor 3 (combo_picks w work_dir)
                 (downstream_groups w modules source_structure work_dir
                    cfg_common pressure)
                 (fun completed => join_groups completed true) ;;
    if negb success then
      ret (Py.dict_of [("structure", VPath structure_file);
                       ("pressure", VFloat pressure);
                       ("success", VBool false);
                       ("error", VStr "sub pipeline failed")])
    else
      ret (Py.dict_of [("structure", VPath structure_file);
                       ("pressure", VFloat pressure);
                       ("success", VBool true)]).

Definition _run_combo_pipeline (w : world) (modules : list string)
    (structure_file work_dir : string) (pressure : float) (config : dict)
  : M dict :=
  try_except
    (combo_try w modules structure_file work_dir pressure config)
    (fun exc => ret (failure_record structure_file pressure exc)).

(** The annotated types of the combo arguments ([List[str]] and
    [Dict[str, Any]]) read off the values stored in [pipeline_kwargs];
    the one call site stores values of these types: [command_combo]
    does not get as far as the task matrix with an item that is not a
    [str] (see [join_modules]).  The worker compares the items with
    the names of the stages, and an item that is neither a [str] nor a
    list or dictionary (which its membership test would refuse) names
    no stage. *)
Definition as_modules (v : value) : M (list string) :=
  match v with
  | VList l =>
      ret (omap (fun x => match x with VStr s => Some s | _ => None end) l)
  | _ => raise (Py.TypeError "modules: expected a list of str")
  end.

Definition as_config (v : value) : M dict :=
  match v with
  | VDict d => ret d
  | _ => raise (Py.TypeError "config: expected a dict")
  end.

(** [res.get('structure').name], evaluated for the log line. *)
Definition log_done (res : dict) : M unit :=
  match Py.get res "structure" with
  | VPath _ => ret tt
  | _ => raise (Py.Exception "AttributeError"
                  "object has no attribute 'name'")
  end.

(** [for fut in as_completed(future_map): results.append(fut.result())] *)
Fixpoint collect_results (completed : list (outcome dict))
    (results : list dict) : M (list dict) :=
  match completed with
  | [] => ret results
  | fut :: rest =>
      res <- lift fut ;;
      log_done res ;;;
      collect_results rest (results ++ [res])
  end.

(** What [executor.submit] is given for one task; the arguments are
    evaluated by the submitting thread. *)
Definition submit_task (w : world) (work_root : string)
    (pipeline_class : option pipeline_class) (pipeline_kwargs : dict)
    (combo_mode : bool) (task : string * float) : M (M dict) :=
  let structure_file := task.1 in
  let pressure := task.2 in
  let work_dir :=
    work_root </> PathLib.stem structure_file
              </> format_pressure_dir w pressure in
  if combo_mode then
    modules_v <- lift (Py.getitem pipeline_kwargs "modules") ;;
    config_v <- lift (Py.getitem pipeline_kwargs "config") ;;
    modules <- as_modules modules_v ;;
    config <- as_config config_v ;;
    ret (_run_combo_pipeline w modules structure_file work_dir pressure
           config)
  else
    match pipeline_class with
    | Some cls =>
        ret (_run_single_pipeline w cls structure_file work_dir
               pipeline_kwargs pressure)
    | None =>
        (* [None(...)] raises inside the worker's [try], and the handler
           raises again on [None.__name__] *)
        ret (try_except
               (mkdir w work_dir ;;;
                raise (Py.TypeError "'NoneType' object is not callable"))
               (fun _ =>
                  raise (Py.Exception "AttributeError"
                           "'NoneType' object has no attribute '__name__'")))
    end.

Definition _run_matrix_tasks (w : world) (structures : list string)
    (pressures : list float) (work_root : string)
    (pipeline_class : option pipeline_class) (pipeline_kwargs : dict)
    (tasks_limit : Z) (pressure_first : bool) (combo_mode : bool)
  : M (list dict) :=
  let tasks := list_prod structures pressures in
  let max_workers := Z.to_nat (Z.max tasks_limit 1) in
  futures <- submit_all
               (submit_task w work_root pipeline_class pipeline_kwargs
                  combo_mode) tasks ;;
  Pool.with_executor max_workers (matrix_picks w) futures
    (fun completed => collect_results completed []).

(** *** Commands *)

(** A command either runs to its end or leaves through [sys.exit]:
    [SystemExit] is not an [Exception], so no [except Exception] clause
    stops it. *)
Inductive flow (A : Type) : Type :=
| Go (a : A)
| SysExit (code : Z).
Arguments Go {A} a.
Arguments SysExit {A} code.

Definition bindF {A B} (m : M (flow A)) (f : A -> M (flow B)) : M (flow B) :=
  x <- m ;;
  match x with
  | Go a => f a
  | SysExit c => ret (SysExit c)
  end.

Definition liftF {A} (m : M A) : M (flow A) := a <- m ;; ret (Go a).

Definition sys_exit {A} (code : Z) : M (flow A) := ret (SysExit code).

Notation "x <~ m ;; k" := (bindF m (fun x => k))
  (at level 100, m at next level, right associativity) : py_scope.

(** The exit status of the process whose [main] ran the command: 0 at
    the end of [main], the argument of [sys.exit], 1 for an exception
    nobody caught. *)
Definition exit_code {A} (m : M (flow A)) : Z :=
  match result m with
  | Returned (Go _) => 0
  | Returned (SysExit c) => c
  | Raised _ => 1
  end.

Definition SUPPORTED_STRUCTURE_EXTS : list string :=
  ["vasp"; "poscar"; "cif"; "res"; "xsf"].

Definition parse_structure_exts (w : world) (ext_str : value)
  : M (list string) :=
  if negb (Py.truthy ext_str) then ret SUPPORTED_STRUCTURE_EXTS
  else
    match ext_str with
    | VStr s =>
        let parts :=
          (fun p => str_lower w (str_strip w p))
            <$> filter (fun p => str_strip w p ≠ "")
                  (re_split_blank_comma w s) in
        ret (match parts with [] => SUPPORTED_STRUCTURE_EXTS | _ => parts end)
    | _ => raise (Py.TypeError "expected string or bytes-like object")
    end.

(** [float(z)] for an [int]. *)
Definition float_of_int (z : Z) : M float :=
  let x := SF2Prim (binary_normalize prec emax z 0 false) in
  if PrimFloat.is_infinity x
  then raise (Py.Exception "OverflowError"
                "int too large to convert to float")
  else ret x.

(** [float(v)] *)
Definition py_float (w : world) (v : value) : M float :=
  match v with
  | VFloat x => ret x
  | VInt z => float_of_int z
  | VBool b => ret (if b then 1%float else 0%float)
  | VStr s =>
      match float_of_str w s with
      | Some x => ret x
      | None => raise (Py.Exception "ValueError"
                         ("could not convert string to float: '" +:+ s +:+ "'"))
      end
  | _ => raise (Py.TypeError
                  "float() argument must be a string or a real number")
  end.

(** The characters of a [str], each a [str] of length one. *)
Definition chars (s : string) : list string :=
  (fun c => String c "") <$> list_ascii_of_string s.

(** [None] and a number apart, [values] is iterated: a list gives its
    items, a [str] its characters and a [dict] its keys (the
    dictionaries of the embedding keep no insertion order: the keys
    come in the order of the map). *)
Definition parse_pressures (w : world) (values : value) : M (list float) :=
  match values with
  | VNone => ret [0%float]
  | VInt _ | VFloat _ | VBool _ => x <- py_float w values ;; ret [x]
  | VList l => submit_all (py_float w) l
  | VStr s => submit_all (py_float w) (VStr <$> chars s)
  | VDict d => submit_all (py_float w) (VStr <$> (map_to_list d).*1)
  | VPath _ => raise (Py.TypeError "'PosixPath' object is not iterable")
  end.

Definition derive_work_root (w : world) (input_path : string) : string :=
  if fs_is_dir w input_path then fs_cwd w
  else fs_cwd w </> PathLib.stem input_path.

Definition load_json_config (w : world) (json_file : string)
  : M (flow dict) :=
  match json_load w json_file with
  | Some config => ret (Go config)
  | None => sys_exit 1
  end.

Definition is_none (v : value) : bool :=
  match v with VNone => true | _ => false end.

Definition merge_configs (json_config cli_args : dict) : dict :=
  filter (fun kv => is_none kv.2 = false
                    ∧ kv.1 ∉ ["command"; "json"; "func"]) cli_args
  ∪ json_config.

(** The glob patterns both directory scans build from the suffixes. *)
Fixpoint structure_patterns (w : world) (structure_exts : list string)
  : list string :=
  match structure_exts with
  | [] => []
  | ext :: rest =>
      let e := str_lower w ext in
      (if bool_decide (e ∈ ["vasp"; "poscar"])
       then ["*.vasp"; "*.POSCAR"; "POSCAR*"]
       else if bool_decide (e = "cif") then ["*.cif"]
       else if bool_decide (e = "res") then ["*.res"]
       else if bool_decide (e = "xsf") then ["*.xsf"]
       else ["*." +:+ e])
      ++ structure_patterns w rest
  end.

(** [structure_exts or SUPPORTED_STRUCTURE_EXTS] *)
Definition exts_or_default (structure_exts : list string) : list string :=
  match structure_exts with
  | [] => SUPPORTED_STRUCTURE_EXTS
  | _ => structure_exts
  end.

Definition detect_batch_mode (w : world) (input_path : string)
    (structure_exts : list string) : bool :=
  if negb (fs_is_dir w input_path) then false
  else
    existsb (fun pattern => (1 <=? length (fs_glob w input_path pattern))%nat)
      (structure_patterns w (exts_or_default structure_exts)).

(** [sorted] on the paths of one directory. *)
Definition sorted_paths (files : list string) : list string :=
  merge_sort (fun s t => Is_true (String.leb s t)) files.

Definition scan_structure_files (w : world) (structures_dir : string)
    (structure_exts : list string) : list string :=
  let patterns := structure_patterns w (exts_or_default structure_exts) in
  let files :=
    fold_left
      (fun files pattern =>
         fold_left
           (fun files f =>
              if bool_decide (f ∈ files) then files
              else if Utils.validate_structure_file w f then files ++ [f]
              else files)
           (fs_glob w structures_dir pattern) files)
      patterns [] in
  sorted_paths files.

(** [tasks is not None and tasks > 1] *)
Definition tasks_gt_one (tasks : value) : M bool :=
  match tasks with
  | VNone => ret false
  | VInt z => ret (1 <? z)%Z
  | VBool _ => ret false
  | VFloat x => ret (PrimFloat.ltb 1 x)
  | _ => raise (Py.TypeError "'>' not supported between these instances")
  end.

(** [max_workers] is compared with 0 and with 1 and then bounds the
    threads of a pool, which starts a thread while fewer than
    [max_workers] are running.  The integer that compares and bounds
    alike: an [int] itself; for a [float] the least integer that is not
    below it, where a NaN, which no comparison accepts, counts as 0 and
    an infinity as a number beyond every finite [float].  Other values
    have no order with an [int]. *)
Definition as_int (v : value) : M Z :=
  match v with
  | VInt z => ret z
  | VBool b => ret (if b then 1 else 0)%Z
  | VFloat x =>
      match Prim2SF x with
      | S754_nan => ret 0%Z
      | S754_infinity negative => ret (if negative then -1 else 2 ^ 1024)%Z
      | _ => Utils.math_ceil x
      end
  | _ => raise (Py.TypeError
                  ("'>' not supported between instances of '"
                   +:+ Py.type_name v +:+ "' and 'int'"))
  end.

(** [sum(1 for r in results if r.get("success"))] *)
Definition success_count (results : list dict) : nat :=
  length (filter (fun r => Is_true (Py.truthy (Py.get r "success"))) results).

Definition failure_count (results : list dict) : nat :=
  length results - success_count results.

Definition relax_kwargs (final_config : dict) (p : float) : M dict :=
  potcar_dir <- optional_path final_config "potcar_dir" ;;
  ret (Py.dict_of
         [("kspacing", Py.get_default final_config "kspacing" (VFloat 0.2));
          ("encut", Py.get final_config "encut");
          ("potcar_dir", potcar_dir);
          ("potcar_type", Py.get_default final_config "potcar_type" (VStr "PBE"));
          ("queue_system", Py.get_default final_config "job_system" (VStr "bash"));
          ("mpi_procs", Py.get final_config "mpi_procs");
          ("prepare_only",
            VBool (negb (Py.truthy
                           (Py.get_default final_config "submit" (VBool false)))));
          ("pressure", VFloat p)]).

(** One turn of [for p in pressures:] in [command_relax]. *)
Definition relax_turn (w : world) (final_config : dict)
    (input_path : string) (structure_exts : list string)
    (pressures : list float) (base_root : string) (is_batch : bool)
    (max_workers : value) (p : float) : M (flow unit) :=
  let pressure_dirname := format_pressure_dir w p in
  pipeline_kwargs <~ liftF (relax_kwargs final_config p) ;;
  if is_batch then
    let structures := scan_structure_files w input_path structure_exts in
    match structures with
    | [] => sys_exit 1
    | _ =>
        mw <~ liftF (as_int max_workers) ;;
        let tasks_limit := (if 0 <? mw then mw else 1)%Z in
        results <~ liftF (_run_matrix_tasks w structures pressures base_root
                            (Some (RelaxPipeline w)) pipeline_kwargs
                            tasks_limit false false) ;;
        liftF (emit (EvBatchSummary (success_count results) (length results)))
    end
  else
    let pressure_dir := base_root </> pressure_dirname in
    _ <~ liftF (mkdir w pressure_dir) ;;
    pipeline <~ liftF (call_cls (RelaxPipeline w)
                         [("structure_file", VPath input_path);
                          ("work_dir", VPath pressure_dir)]
                         pipeline_kwargs) ;;
    success <~ liftF (run pipeline) ;;
    if success then ret (Go tt) else sys_exit 1.

Fixpoint for_each {A} (body : A -> M (flow unit)) (l : list A)
  : M (flow unit) :=
  match l with
  | [] => ret (Go tt)
  | x :: l' => _ <~ body x ;; for_each body l'
  end.

(** [vars(args)] is the dictionary [args]. *)
Definition load_final_config (w : world) (args : dict) : M (flow dict) :=
  config <~ (if Py.truthy (Py.get args "json")
             then json_file <~ liftF (Path (Py.get args "json")) ;;
                  load_json_config w json_file
             else ret (Go ∅)) ;;
  ret (Go (merge_configs config args)).

(** What a command has worked out before it schedules anything. *)
Record setup := {
  final_config : dict;
  input_path : string;
  structure_exts : list string;
  pressures : list float;
  base_root : string;
  is_batch : bool;
  tasks : value;
}.

Definition read_setup (w : world) (args : dict) : M (flow setup) :=
  final_config <~ load_final_config w args ;;
  input_v <~ liftF (lift (Py.getitem final_config "input")) ;;
  input_path <~ liftF (Path input_v) ;;
  structure_exts <~ liftF (parse_structure_exts w
                             (Py.get final_config "structure_ext")) ;;
  pressures <~ liftF (parse_pressures w (Py.get final_config "pressure")) ;;
  let base_root := derive_work_root w input_path in
  let is_batch := detect_batch_mode w input_path structure_exts in
  ret (Go {| final_config := final_config;
             input_path := input_path;
             structure_exts := structure_exts;
             pressures := pressures;
             base_root := base_root;
             is_batch := is_batch;
             tasks := Py.get final_config "tasks" |}).

Definition command_relax (w : world) (args : dict) : M (flow unit) :=
  s <~ read_setup w args ;;
  parallel_flag <~ liftF (tasks_gt_one (tasks s)) ;;
  let max_workers := Py.or_ (tasks s) (VInt 1) in
  try_except
    (for_each (relax_turn w (final_config s) (input_path s)
                 (structure_exts s) (pressures s) (base_root s) (is_batch s)
                 max_workers) (pressures s))
    (fun exc => sys_exit 1).

Definition combo_kwargs (modules : value) (module_names : list string)
    (final_config : dict) : dict :=
  let property_modules :=
    filter (fun m => m ∈ PROPERTY_MODULES) module_names in
  let need_phonon := bool_decide ("phonon" ∈ module_names) in
  let need_md := bool_decide ("md" ∈ module_names) in
  Py.dict_of [("modules", modules);
              ("need_phonon", VBool need_phonon);
              ("property_modules", VList (VStr <$> property_modules));
              ("need_md", VBool need_md);
              ("config", VDict final_config)].

(** The first item of a list that is not a [str], with its index. *)
Fixpoint first_non_str (i : nat) (l : list value) : option (nat * value) :=
  match l with
  | [] => None
  | VStr _ :: rest => first_non_str (S i) rest
  | v :: _ => Some (i, v)
  end.

(** [' '.join(modules)], evaluated for the first log line of
    [command_combo]: the items of a list, the characters of a [str] or
    the keys of a [dict] are joined, and every one of them must be a
    [str]. *)
Definition join_modules (modules : value) : M unit :=
  match modules with
  | VList l =>
      match first_non_str 0 l with
      | None => ret tt
      | Some (i, v) =>
          raise (Py.TypeError
                   ("sequence item " +:+ pretty i
                    +:+ ": expected str instance, " +:+ Py.type_name v
                    +:+ " found"))
      end
  | VStr _ | VDict _ => ret tt
  | _ => raise (Py.TypeError "can only join an iterable")
  end.

Definition command_combo (w : world) (args : dict) : M (flow unit) :=
  let modules := Py.get args "modules" in
  _ <~ liftF (join_modules modules) ;;
  s <~ read_setup w args ;;
  tasks0 <~ liftF (as_int (Py.or_ (tasks s) (VInt 1))) ;;
  let tasks := (if 0 <? tasks0 then tasks0 else 1)%Z in
  if negb (Py.truthy modules) then sys_exit 1
  else
    module_names <~ liftF (as_modules modules) ;;
    structures <~ (if is_batch s then
                     match scan_structure_files w (input_path s)
                             (structure_exts s) with
                     | [] => sys_exit 1
                     | l => ret (Go l)
                     end
                   else ret (Go [input_path s])) ;;
    try_except
      (let tasks_limit := (if 0 <? tasks then tasks else 1)%Z in
       results <~ liftF (_run_matrix_tasks w structures (pressures s)
                           (base_root s) None
                           (combo_kwargs modules module_names (final_config s))
                           tasks_limit false true) ;;
       liftF (emit (EvBatchSummary (success_count results) (length results))))
      (fun exc => sys_exit 1).

(** The failures a command reported: over its batch summaries, the
    results that are not successes. *)
Definition reported_failures (tr : list event) : nat :=
  sum_list
    ((fun ev => match ev with
                | EvBatchSummary ok total => total - ok
                | _ => 0
                end) <$> tr).

End Cli.

(** ** The step state machine every pipeline inherits *)

Module Base.

Inductive StepStatus : Type := PENDING | RUNNING | SUCCESS | FAILED | SKIPPED.

#[global] Instance StepStatus_eq_dec : EqDecision StepStatus.
Proof. solve_decision. Defined.

(** The durable checkpoint of one work unit and the statuses the running
    pipeline holds in memory. *)
Record pipeline_state := {
  checkpoint : gmap string StepStatus;
  statuses : gmap string StepStatus;
}.

Definition set_status (name : string) (s : StepStatus) (st : pipeline_state)
  : pipeline_state :=
  {| checkpoint := checkpoint st; statuses := <[name := s]> (statuses st) |}.

(** Modelled from the spec: the Checkpoint Store's [save] (pipelines/base.py
    is not among the source files): it updates the record of one step
    and leaves the others alone. *)
Definition save (name : string) (s : StepStatus) (st : pipeline_state)
  : pipeline_state :=
  {| checkpoint := <[name := s]> (checkpoint st); statuses := statuses st |}.

(** Modelled from the spec: the Checkpoint Store's [load] seeds the
    statuses once, at the start: a step recorded as [SUCCESS] is known
    as such, every other step starts from [PENDING]. *)
Definition seed (steps : list string) (stored : gmap string StepStatus)
  : pipeline_state :=
  {| checkpoint := stored;
     statuses :=
       list_to_map
         ((fun name =>
             (name, if bool_decide (stored !! name = Some SUCCESS)
                    then SUCCESS else PENDING)) <$> steps) |}.

(** Modelled from the spec: [BasePipeline.run] (pipelines/base.py is not
    among the source files).  For each step in order: a step the
    checkpoint records as [SUCCESS] is marked [SKIPPED]; any other step
    is set [RUNNING], its executor is invoked, and the step is set
    [SUCCESS] or [FAILED] by the executor's result and persisted; an
    executor that raises counts as [FAILED]; the first [FAILED] step
    stops the run, which then returns [false]. *)
Fixpoint run_steps (execute_step : string -> M bool) (steps : list string)
    (st : pipeline_state) : list event * (bool * pipeline_state) :=
  match steps with
  | [] => ([], (true, st))
  | name :: rest =>
      if bool_decide (checkpoint st !! name = Some SUCCESS) then
        run_steps execute_step rest (set_status name SKIPPED st)
      else
        let st1 := set_status name RUNNING st in
        let r := execute_step name in
        let ok := match result r with
                  | Returned b => b
                  | Raised _ => false
                  end in
        if ok then
          let k := run_steps execute_step rest
                     (save name SUCCESS (set_status name SUCCESS st1)) in
          (EvExecuteStep name :: trace r ++ k.1, k.2)
        else
          (EvExecuteStep name :: trace r,
           (false, save name FAILED (set_status name FAILED st1)))
  end.

Definition run (execute_step : string -> M bool) (steps : list string)
    (stored : gmap string StepStatus)
  : list event * (bool * pipeline_state) :=
  run_steps execute_step steps (seed steps stored).

End Base.

(** ** pipelines/md.py *)

Module Md.

Import Call.

Record MdPipeline := {
  structure_file : string;
  work_dir : string;
  prepare_only : bool;
  kspacing : float;
  queue_system : string;
  mpi_procs : value;
  potcar_map : gmap string string;
  custom_steps : option (list string);
  md_dir : string;
}.

Definition _normalize_steps (w : world) (custom_steps : option (list string))
  : option (list string) :=
  match custom_steps with
  | None | Some [] => None
  | Some steps =>
      let allowed := ["md"] in
      let normalized :=
        fold_left
          (fun normalized step =>
             let name := str_lower w (str_strip w step) in
             if bool_decide (name ∈ allowed) then
               if bool_decide (name ∈ normalized) then normalized
               else normalized ++ [name]
             else normalized)
          steps [] in
      match normalized with
      | [] => None
      | _ => Some normalized
      end
  end.

(** [x or None] for an optional string. *)
Definition nonempty (o : option string) : option string :=
  match o with
  | Some "" | None => None
  | Some s => Some s
  end.

(** [__init__]; [job_cfg] is [Some default_queue] for a job
    configuration and [None] for none, [prepare_only] is what the base
    class keeps of its keyword arguments. *)
Definition init (w : world) (b : backend) (structure_file work_dir : string)
    (kspacing : float) (queue_system : option string) (mpi_procs : value)
    (custom_steps : option (list string))
    (potcar_map : option (gmap string string))
    (job_cfg : option (option string)) (config_path : option string)
    (prepare_only : bool) : M MdPipeline :=
  job_cfg <- match job_cfg with
             | Some cfg => ret (Some cfg)
             | None => lift (do_load_job_config b config_path)
             end ;;
  let queue :=
    match nonempty queue_system with
    | Some q => Some q
    | None => match job_cfg with
              | Some default_queue => nonempty default_queue
              | None => None
              end
    end in
  match queue with
  | None =>
      raise (Utils.ValueError
               "未找到队列配置，请在 job_templates.local.toml 的 [templates] 中至少提供一个队列头")
  | Some q =>
      ret {| structure_file := structure_file;
             work_dir := work_dir;
             prepare_only := prepare_only;
             kspacing := kspacing;
             queue_system := q;
             mpi_procs := mpi_procs;
             potcar_map := default ∅ potcar_map;
             custom_steps := _normalize_steps w custom_steps;
             md_dir := work_dir </> "01_md" |}
  end.

Definition get_steps (self : MdPipeline) : list string :=
  match custom_steps self with
  | Some ((_ :: _) as steps) => steps
  | _ => ["md"]
  end.

Definition _write_md_incar (w : world) (incar_file : string) : M unit :=
  lift (fs_open_write w incar_file) ;;;
  emit (EvWriteInput incar_file).

Definition _write_kpoints (w : world) (kpoints_file poscar_file : string)
    (kspacing : float) : M unit :=
  let mesh := Utils.kspacing_to_mesh w poscar_file kspacing in
  lift (fs_open_write w kpoints_file) ;;;
  Utils.write kpoints_file ("Automatic mesh" +:+ Utils.nl) ;;;
  Utils.write kpoints_file ("0" +:+ Utils.nl) ;;;
  Utils.write kpoints_file ("Gamma" +:+ Utils.nl) ;;;
  Utils.write kpoints_file
    (pretty mesh.1.1 +:+ " " +:+ pretty mesh.1.2 +:+ " " +:+ pretty mesh.2
     +:+ Utils.nl) ;;;
  Utils.write kpoints_file ("0 0 0" +:+ Utils.nl).

Definition _write_job_script (b : backend) (self : MdPipeline)
    (work_dir job_name : string) : M string :=
  emit (EvWriteJobScript work_dir job_name) ;;;
  lift (do_write_job_script b work_dir job_name (queue_system self)).

Definition _submit_job (b : backend) (self : MdPipeline)
    (work_dir job_script : string) : M string :=
  if prepare_only self then ret "prepare_only"
  else
    emit (EvSubmitJob job_script (queue_system self)) ;;;
    lift (do_submit_job b job_script (queue_system self)).

Definition ensure_poscar (b : backend) (src dest : string) : M unit :=
  emit (EvEnsurePoscar src dest) ;;; lift (do_ensure_poscar b src dest).

Definition prepare_potcar (b : backend) (poscar potcar : string) : M bool :=
  emit (EvPreparePotcar poscar potcar) ;;;
  ret (do_prepare_potcar b poscar potcar).

Definition _wait_for_job (b : backend) (job_id work_dir queue : string)
  : M bool :=
  emit (EvWaitForJob job_id work_dir queue) ;;;
  lift (do_wait_for_job b job_id work_dir queue).

Definition _check_job_completed (b : backend) (work_dir : string) : M bool :=
  emit (EvCheckJobCompleted work_dir) ;;;
  lift (do_check_job_completed b work_dir).

Definition _run_md (w : world) (b : backend) (self : MdPipeline) : M bool :=
  mkdir w (md_dir self) ;;;
  ensure_poscar b (structure_file self) (md_dir self </> "POSCAR") ;;;
  _write_md_incar w (md_dir self </> "INCAR") ;;;
  _write_kpoints w (md_dir self </> "KPOINTS") (md_dir self </> "POSCAR")
    (kspacing self) ;;;
  if bool_decide (potcar_map self = ∅) then ret false
  else
    potcar_ok <- prepare_potcar b (md_dir self </> "POSCAR")
                   (md_dir self </> "POTCAR") ;;
    if negb potcar_ok then ret false
    else
      job_script <- _write_job_script b self (md_dir self) "md" ;;
      job_id <- _submit_job b self (md_dir self) job_script ;;
      if prepare_only self then ret true
      else
        waited <- _wait_for_job b job_id (md_dir self) (queue_system self) ;;
        if negb waited then ret false
        else
          completed <- _check_job_completed b (md_dir self) ;;
          if negb completed then ret false
          else ret true.

Definition execute_step (w : world) (b : backend) (self : MdPipeline)
    (step_name : string) : M bool :=
  if bool_decide (step_name = "md") then _run_md w b self
  else ret false.

(** [run()], inherited from the base class. *)
Definition run (w : world) (b : backend) (self : MdPipeline)
    (stored : gmap string Base.StepStatus)
  : list event * (bool * Base.pipeline_state) :=
  Base.run (execute_step w b self) (get_steps self) stored.

End Md.

(** ** pipelines/batch.py *)

Module Batch.

Import Call.

Record BatchPipeline := {
  pipeline_class_ : pipeline_class;
  structures_dir : string;
  work_root : string;
  pipeline_kwargs : dict;
  parallel : bool;
  max_workers : Z;
  structure_exts : list string;
  pressure_label : option string;
  structure_files : list string;
}.

Definition _scan_structure_files (w : world) (structures_dir : string)
    (structure_exts : list string) : M (list string) :=
  if negb (fs_exists w structures_dir)
  then raise (Py.Exception "FileNotFoundError"
                ("结构目录不存在: " +:+ structures_dir))
  else
    let patterns :=
      mbind (M := list)
        (fun ext =>
           let e := str_lower w ext in
           if bool_decide (e = "vasp") then ["*.vasp"; "*.POSCAR"; "POSCAR*"]
           else if bool_decide (e = "cif") then ["*.cif"]
           else if bool_decide (e = "res") then ["*.res"]
           else if bool_decide (e = "xsf") then ["*.xsf"]
           else ["*." +:+ e])
        structure_exts in
    let structure_files :=
      mbind (M := list) (fs_glob w structures_dir) patterns in
    let valid_files :=
      fold_left
        (fun valid_files f =>
           if bool_decide (f ∈ valid_files) then valid_files
           else if Utils.validate_structure_file w f then valid_files ++ [f]
           else valid_files)
        structure_files [] in
    ret (merge_sort (fun s t => Is_true (String.leb s t)) valid_files).

(** [__init__] *)
Definition init (w : world) (cls : pipeline_class)
    (structures_dir work_root : string) (pipeline_kwargs : option dict)
    (parallel : bool) (max_workers : Z)
    (structure_exts : option (list string)) (pressure_label : option string)
  : M BatchPipeline :=
  let exts := match structure_exts with
              | Some ((_ :: _) as l) => l
              | _ => ["vasp"]
              end in
  mkdir w work_root ;;;
  files <- _scan_structure_files w structures_dir exts ;;
  ret {| pipeline_class_ := cls;
         structures_dir := structures_dir;
         work_root := work_root;
         pipeline_kwargs := default ∅ pipeline_kwargs;
         parallel := parallel;
         max_workers := max_workers;
         structure_exts := exts;
         pressure_label := pressure_label;
         structure_files := files |}.

Definition _run_single_structure (w : world) (self : BatchPipeline)
    (structure_file : string) : M dict :=
  let result0 :=
    Py.dict_of [("structure_name", VStr (PathLib.stem structure_file));
                ("structure_file", VStr structure_file);
                ("success", VBool false)] in
  let work_dir :=
    match Md.nonempty (pressure_label self) with
    | Some label => work_root self </> PathLib.stem structure_file </> label
    | None => work_root self </> PathLib.stem structure_file
    end in
  let made := mkdir w work_dir in
  match result made with
  | Raised e =>
      (trace made, Returned (<["error" := VStr (Py.str_exc e)]> result0))
  | Returned _ =>
      let result1 := <["work_dir" := VStr work_dir]> result0 in
      let ran :=
        pipeline <- call_cls (pipeline_class_ self)
                      [("structure_file", VPath structure_file);
                       ("work_dir", VPath work_dir)]
                      (pipeline_kwargs self) ;;
        Call.run pipeline in
      match result ran with
      | Raised e =>
          (trace made ++ trace ran,
           Returned (<["error" := VStr (Py.str_exc e)]> result1))
      | Returned success =>
          let result2 := <["success" := VBool success]> result1 in
          let energy :=
            Utils.extract_final_energy w (work_dir </> "01_relax") in
          (trace made ++ trace ran,
           Returned (if success && Py.truthy energy
                     then <["energy" := energy]> result2
                     else result2))
      end
  end.

Fixpoint _run_serial_from (w : world) (self : BatchPipeline)
    (files : list string) (results : list dict) : M (list dict) :=
  match files with
  | [] => ret results
  | structure_file :: rest =>
      result <- _run_single_structure w self structure_file ;;
      _run_serial_from w self rest (results ++ [result])
  end.

Definition _run_serial (w : world) (self : BatchPipeline) : M (list dict) :=
  _run_serial_from w self (structure_files self) [].

(** What the worker process of one structure file hands back. *)
Definition process_task (w : world) (self : BatchPipeline)
    (structure_file : string) : M dict :=
  match process_failure w structure_file with
  | Some e => raise e
  | None => _run_single_structure w self structure_file
  end.

(** [for future in as_completed(futures): try: ... except Exception: ...] *)
Definition gather (completed : list (string * outcome dict)) : list dict :=
  (fun c =>
     match c.2 with
     | Returned result => result
     | Raised e =>
         Py.dict_of [("structure_name", VStr (PathLib.name c.1));
                     ("structure_file", VStr c.1);
                     ("success", VBool false);
                     ("error", VStr (Py.str_exc e))]
     end) <$> completed.

Definition _run_parallel (w : world) (self : BatchPipeline) : M (list dict) :=
  if (max_workers self <=? 0)%Z
  then raise (Utils.ValueError "max_workers must be greater than 0")
  else
    let tasks :=
      (fun f => (f, process_task w self f)) <$> structure_files self in
    let completed :=
      Pool.as_completed (Z.to_nat (max_workers self)) (batch_picks w)
        ((fun t => (t.1, result t.2)) <$> tasks) in
    (concat ((fun t => trace t.2) <$> tasks), Returned (gather completed)).

Definition run (w : world) (self : BatchPipeline) : M (list dict) :=
  results <- (if parallel self then _run_parallel w self
              else _run_serial w self) ;;
  let summary_file := work_root self </> "batch_summary.txt" in
  Utils.generate_summary_report w results summary_file ;;;
  ret results.

End Batch.

(** ** Concrete collaborators, for evaluating the embedding *)

Module Sample.

(** ASCII renderings of the string functions of the runtime. *)
Definition is_space (c : ascii) : bool :=
  let n := nat_of_ascii c in
  ((9 <=? n) && (n <=? 13) || (28 <=? n) && (n <=? 32))%nat.

Definition lower_char (c : ascii) : ascii :=
  let n := nat_of_ascii c in
  if ((65 <=? n) && (n <=? 90))%nat then ascii_of_nat (n + 32) else c.

Fixpoint lower (s : string) : string :=
  match s with
  | EmptyString => EmptyString
  | String c s' => String (lower_char c) (lower s')
  end.

Fixpoint lstrip (s : string) : string :=
  match s with
  | String c s' => if is_space c then lstrip s' else s
  | EmptyString => EmptyString
  end.

Fixpoint rstrip (s : string) : string :=
  match s with
  | EmptyString => EmptyString
  | String c s' =>
      let r := rstrip s' in
      if is_space c && String.eqb r "" then "" else String c r
  end.

Definition strip (s : string) : string := rstrip (lstrip s).

(** Split at the characters [sep] accepts; [keep_empty] keeps the empty
    pieces between, before and after separators. *)
Fixpoint split_at (sep : ascii -> bool) (s cur : string)
  : list string :=
  match s with
  | EmptyString => [cur]
  | String c s' =>
      if sep c then cur :: split_at sep s' ""
      else split_at sep s' (cur +:+ String c "")
  end.

Definition split (s : string) : list string :=
  filter (fun t => t ≠ "") (split_at is_space s "").

Definition splitlines (s : string) : list string :=
  match reverse (split_at (fun c => Ascii.eqb c (ascii_of_nat 10)) s "") with
  | "" :: rest => reverse rest
  | l => reverse l
  end.

(** [re.split(r"[ ,]+", s)]: a run of separators splits once. *)
Fixpoint split_runs (s cur : string) (after_sep : bool) : list string :=
  match s with
  | EmptyString => [cur]
  | String c s' =>
      if Ascii.eqb c " " || Ascii.eqb c ","
      then if after_sep then split_runs s' cur true
           else cur :: split_runs s' "" true
      else split_runs s' (cur +:+ String c "") false
  end.

(** The decimal numbers the examples read. *)
Definition float_table (s : string) : option float :=
  if String.eqb s "1.0" then Some 1%float
  else if String.eqb s "0.0" then Some 0%float
  else if String.eqb s "2.0" then Some 2%float
  else if String.eqb s "4.0" then Some 4%float
  else if String.eqb s "-42.5" then Some (-42.5)%float
  else None.

Definition instance_of (o : outcome bool) : instance :=
  {| inst_run := o; inst_steps_data := ∅ |}.

(** A class whose objects all behave alike. *)
Definition uniform (name : string) (o : outcome bool) : pipeline_class :=
  {| pc_name := name; pc_new := fun _ => Returned (instance_of o) |}.

(** A class whose constructor raises. *)
Definition broken (name : string) (e : Py.exn) : pipeline_class :=
  {| pc_name := name; pc_new := fun _ => Raised e |}.

(** A class whose objects fail on one structure file. *)
Definition failing_on (name bad : string) : pipeline_class :=
  {| pc_name := name;
     pc_new := fun kwargs =>
       match kwargs !! "structure_file" with
       | Some (VPath p) => Returned (instance_of (Returned (negb (String.eqb p bad))))
       | _ => Returned (instance_of (Returned true))
       end |}.

(** A world in which the directory scan finds [files] (under the
    pattern "*.vasp"), directories in [bad_dirs] cannot be made, and the
    four pipeline classes are the given ones. *)
Definition make_world (files bad_dirs : list string)
    (poscar : outcome string) (submit : bool)
    (relax phonon properties md : pipeline_class)
    (picks : list nat) : world :=
  let schedule :=
    {| Pool.finish := picks; Pool.early := 0; Pool.early_order := [] |} in
  {| fs_mkdir := fun p =>
       if bool_decide (p ∈ bad_dirs)
       then Raised (Py.Exception "FileExistsError"
                      ("[Errno 17] File exists: '" +:+ p +:+ "'"))
       else Returned tt;
     fs_exists := fun _ => true;
     fs_is_dir := fun p => bool_decide (p = "structs");
     fs_glob := fun _ pattern =>
       if String.eqb pattern "*.vasp" then files else [];
     fs_cwd := "/work";
     fs_read_text := fun _ => poscar;
     fs_readlines := fun _ => Returned [];
     fs_open_write := fun _ => Returned tt;
     json_load := fun _ => None;
     format_g := fun x => if PrimFloat.eqb x 0 then "0" else "10";
     format_6f := fun _ => "0.000000";
     float_of_str := float_table;
     str_lower := lower;
     str_strip := strip;
     str_split := split;
     str_splitlines := splitlines;
     re_split_blank_comma := fun s => split_runs s "" false;
     str_other := fun _ => "?";
     RelaxPipeline := relax;
     PhononPropertiesPipeline := phonon;
     PropertiesPipeline := properties;
     MdPipeline := md;
     matrix_picks := schedule;
     combo_picks := fun _ => schedule;
     batch_picks := schedule;
     process_failure := fun _ => None |}.

Definition ok_world (files : list string) : world :=
  make_world files [] (Raised (Py.Exception "FileNotFoundError" "POSCAR"))
    true
    (uniform "RelaxPipeline" (Returned true))
    (uniform "PhononPropertiesPipeline" (Returned true))
    (uniform "PropertiesPipeline" (Returned true))
    (uniform "MdPipeline" (Returned true))
    [].

Definition quiet_backend : backend :=
  {| do_ensure_poscar := fun _ _ => Returned tt;
     do_prepare_potcar := fun _ _ => true;
     do_write_job_script := fun work_dir _ _ => Returned (work_dir </> "run.sh");
     do_submit_job := fun _ _ => Returned "4242";
     do_wait_for_job := fun _ _ _ => Returned true;
     do_check_job_completed := fun _ => Returned true;
     do_load_job_config := fun _ => Returned (Some (Some "bash")) |}.

Definition md_pipeline (prepare_only : bool)
    (potcar_map : gmap string string) : Md.MdPipeline :=
  {| Md.structure_file := "structs/a.vasp";
     Md.work_dir := "/work/a/0_GPa";
     Md.prepare_only := prepare_only;
     Md.kspacing := 0.2%float;
     Md.queue_system := "bash";
     Md.mpi_procs := VNone;
     Md.potcar_map := potcar_map;
     Md.custom_steps := None;
     Md.md_dir := "/work/a/0_GPa/01_md" |}.

End Sample.


(** ** The vocabulary of the properties of the task matrix *)

Module Matrix.

(** The identity a result record carries. *)
Definition unit_of (r : dict) : option (string * float) :=
  match r !! "structure", r !! "pressure" with
  | Some (VPath s), Some (VFloat p) => Some (s, p)
  | _, _ => None
  end.

(** What a record says about its unit and its outcome. *)
Definition record_of (s : string) (p : float) (r : dict) : Prop :=
  r !! "structure" = Some (VPath s) /\ r !! "pressure" = Some (VFloat p)
  /\ exists b, r !! "success" = Some (VBool b).

(** The calls the commands make: a class when [combo_mode] is off, a
    list of modules and a configuration when it is on. *)
Definition call_ok (pipeline_class : option pipeline_class)
    (pipeline_kwargs : dict) (combo_mode : bool) : Prop :=
  if combo_mode then
    match pipeline_kwargs !! "modules", pipeline_kwargs !! "config" with
    | Some (VList _), Some (VDict _) => True
    | _, _ => False
    end
  else is_Some pipeline_class.

Definition work_dir_of (w : world) (work_root : string)
    (task : string * float) : string :=
  work_root </> PathLib.stem task.1 </> Cli.format_pressure_dir w task.2.

Definition module_names (v : value) : list string :=
  match v with
  | VList l => omap (fun x => match x with VStr s => Some s | _ => None end) l
  | _ => []
  end.

Definition config_of (v : value) : dict :=
  match v with
  | VDict d => d
  | _ => ∅
  end.

(** The [try] block the worker of one task runs. *)
Definition unit_try (w : world) (work_root : string)
    (pipeline_class : option pipeline_class) (pipeline_kwargs : dict)
    (combo_mode : bool) (task : string * float) : M dict :=
  if combo_mode then
    Cli.combo_try w (module_names (Py.get pipeline_kwargs "modules")) task.1
      (work_dir_of w work_root task) task.2
      (config_of (Py.get pipeline_kwargs "config"))
  else
    match pipeline_class with
    | Some cls =>
        Cli.single_try w cls task.1 (work_dir_of w work_root task)
          pipeline_kwargs task.2
    | None => raise (Py.TypeError "'NoneType' object is not callable")
    end.

(** The record of one unit, worked out from that unit alone: what its
    [try] block returns, or the failure record of what it raises. *)
Definition unit_record (w : world) (work_root : string)
    (pipeline_class : option pipeline_class) (pipeline_kwargs : dict)
    (combo_mode : bool) (task : string * float) : dict :=
  match result (unit_try w work_root pipeline_class pipeline_kwargs
                  combo_mode task) with
  | Returned r => r
  | Raised e => Cli.failure_record task.1 task.2 e
  end.

(** Two pipeline classes that behave alike on every unit but [task]:
    they have the same name, and their constructors agree on all
    keyword arguments that do not name the structure and the pressure of
    [task]. *)
Definition agree_off (cls cls' : pipeline_class) (task : string * float)
  : Prop :=
  pc_name cls = pc_name cls'
  /\ forall kwargs,
       kwargs !! "structure_file" ≠ Some (VPath task.1)
       \/ kwargs !! "pressure" ≠ Some (VFloat task.2) ->
       pc_new cls kwargs = pc_new cls' kwargs.

(** The order in which the units of a run complete. *)
Definition completion_order (w : world) (structures : list string)
    (pressures : list float) (tasks_limit : Z) : list (string * float) :=
  Pool.as_completed (Z.to_nat (Z.max tasks_limit 1)) (matrix_picks w)
    (list_prod structures pressures).

End Matrix.


(** ** Sample runs *)

Module Runs.

Import Sample.

Definition two_structures : list string := ["structs/a.vasp"; "structs/b.vasp"].
Definition two_pressures : list float := [0%float; 10%float].

(** A pipeline class that fails on the structure [structs/a.vasp]. *)
Definition picky : pipeline_class := failing_on "RelaxPipeline" "structs/a.vasp".

(** A pipeline class whose constructor raises an exception that carries
    no message, as [raise NotImplementedError] does. *)
Definition silent : pipeline_class :=
  broken "RelaxPipeline" (Py.Exception "NotImplementedError" "").

Definition plain_world : world := ok_world ["structs/a.vasp"].

Definition combo_modules : list string := ["relax"; "phonon"; "dos"; "md"].

Definition submit_config : dict := Py.dict_of [("submit", VBool true)].

Definition no_poscar : outcome string :=
  Raised (Py.Exception "FileNotFoundError" "POSCAR").

(** The relax stage reports failure. *)
Definition failing_relax_world : world :=
  make_world ["structs/a.vasp"] [] no_poscar true
    (uniform "RelaxPipeline" (Returned false))
    (uniform "PhononPropertiesPipeline" (Returned true))
    (uniform "PropertiesPipeline" (Returned true))
    (uniform "MdPipeline" (Returned true)) [].

(** The constructor of the relax pipeline raises an exception that
    carries no message. *)
Definition silent_relax_world : world :=
  make_world ["structs/a.vasp"] [] no_poscar true
    silent
    (uniform "PhononPropertiesPipeline" (Returned true))
    (uniform "PropertiesPipeline" (Returned true))
    (uniform "MdPipeline" (Returned true)) [].

(** The relax stage succeeds, and the constructor of the md pipeline
    raises the same exception. *)
Definition silent_md_world : world :=
  make_world ["structs/a.vasp"] [] no_poscar true
    (uniform "RelaxPipeline" (Returned true))
    (uniform "PhononPropertiesPipeline" (Returned true))
    (uniform "PropertiesPipeline" (Returned true))
    (broken "MdPipeline" (Py.Exception "NotImplementedError" "")) [].

(** The electronic-properties group fails, the other groups succeed;
    the groups complete in the order md, phonon, properties. *)
Definition failing_properties_world : world :=
  make_world ["structs/a.vasp"] [] no_poscar true
    (uniform "RelaxPipeline" (Returned true))
    (uniform "PhononPropertiesPipeline" (Returned true))
    (uniform "PropertiesPipeline" (Returned false))
    (uniform "MdPipeline" (Returned true)) [2; 0; 0].

(** [vasp relax -i structs --submit]: a directory of structures. *)
Definition relax_batch_args : dict :=
  Py.dict_of [("command", VStr "relax"); ("input", VStr "structs");
              ("submit", VBool true)].

(** [vasp relax -i a.vasp --submit]: one structure file. *)
Definition relax_single_args : dict :=
  Py.dict_of [("command", VStr "relax"); ("input", VStr "a.vasp");
              ("submit", VBool true)].

(** [vasp combo relax phonon -i structs --submit] *)
Definition combo_args : dict :=
  Py.dict_of [("command", VStr "combo"); ("input", VStr "structs");
              ("modules", VList [VStr "relax"; VStr "phonon"]);
              ("submit", VBool true)].

(** The work root holds a regular file named [a], so the directory of
    the unit of [structs/a.vasp] cannot be made. *)
Definition blocked_world : world :=
  make_world ["structs/a.vasp"] ["/work/a"] no_poscar true
    (uniform "RelaxPipeline" (Returned true))
    (uniform "PhononPropertiesPipeline" (Returned true))
    (uniform "PropertiesPipeline" (Returned true))
    (uniform "MdPipeline" (Returned true)) [].

(** The pool of worker processes breaks. *)
Definition broken_pool_world : world :=
  {| fs_mkdir := fs_mkdir plain_world;
     fs_exists := fs_exists plain_world;
     fs_is_dir := fs_is_dir plain_world;
     fs_glob := fs_glob plain_world;
     fs_cwd := fs_cwd plain_world;
     fs_read_text := fs_read_text plain_world;
     fs_readlines := fs_readlines plain_world;
     fs_open_write := fs_open_write plain_world;
     json_load := json_load plain_world;
     format_g := format_g plain_world;
     format_6f := format_6f plain_world;
     float_of_str := float_of_str plain_world;
     str_lower := str_lower plain_world;
     str_strip := str_strip plain_world;
     str_split := str_split plain_world;
     str_splitlines := str_splitlines plain_world;
     re_split_blank_comma := re_split_blank_comma plain_world;
     str_other := str_other plain_world;
     RelaxPipeline := RelaxPipeline plain_world;
     PhononPropertiesPipeline := PhononPropertiesPipeline plain_world;
     PropertiesPipeline := PropertiesPipeline plain_world;
     MdPipeline := MdPipeline plain_world;
     matrix_picks := matrix_picks plain_world;
     combo_picks := combo_picks plain_world;
     batch_picks := batch_picks plain_world;
     process_failure := fun _ =>
       Some (Py.Exception "BrokenProcessPool"
               "A process in the process pool was terminated abruptly") |}.

(** [BatchPipeline(MdPipeline, "structs", "/work", ...)] after its
    constructor has scanned the directory. *)
Definition md_batch (parallel : bool) : Batch.BatchPipeline :=
  {| Batch.pipeline_class_ := uniform "MdPipeline" (Returned true);
     Batch.structures_dir := "structs";
     Batch.work_root := "/work";
     Batch.pipeline_kwargs := ∅;
     Batch.parallel := parallel;
     Batch.max_workers := 2;
     Batch.structure_exts := ["vasp"];
     Batch.pressure_label := None;
     Batch.structure_files := ["structs/a.vasp"] |}.

(** The value a returning computation returns. *)
Definition returned {A} (dflt : A) (m : M A) : A :=
  match result m with
  | Returned a => a
  | Raised _ => dflt
  end.

End Runs.


(** ** The vocabulary of the properties of a combo unit *)

Module Combo.

(** The structure file the prerequisite names as its product: the
    primitive cell when it recorded one, its relaxed structure
    otherwise. *)
Definition refined_structure (relax_res : dict) (work_dir : string)
  : string :=
  match Py.get relax_res "primitive" with
  | VPath q => q
  | _ => work_dir </> "POSCAR_relaxed"
  end.

(** The input handed to the downstream groups: the refined structure
    when that file exists, the original input otherwise. *)
Definition source_structure (w : world) (relax_res : dict)
    (structure_file work_dir : string) : string :=
  if fs_exists w (refined_structure relax_res work_dir)
  then refined_structure relax_res work_dir
  else structure_file.

(** A group that is launched constructs its pipeline first, on the
    structure it was given. *)
Definition launched_with (source : string) (group : M bool) : Prop :=
  exists cls kwargs rest,
    trace group = EvInit cls kwargs :: rest
    /\ kwargs !! "structure_file" = Some (VPath source).

(** The event is the construction of a pipeline of the class [cls]. *)
Definition launches (cls : string) (ev : event) : bool :=
  match ev with
  | EvInit c _ => String.eqb c cls
  | _ => false
  end.

(** The outcome of a group that counts as a success. *)
Definition succeeded (o : outcome bool) : bool :=
  match o with
  | Returned true => true
  | _ => false
  end.

(** [--submit] was given: the pipelines are not in prepare-only mode. *)
Definition submit (config : dict) : bool :=
  Py.truthy (Py.get_default config "submit" (VBool false)).

End Combo.


(** ** The vocabulary of the properties of a pipeline run *)

Module Queue.

(** The calls that reach the queue backend: submitting a job, waiting
    for it, and checking that it completed. *)
Definition touches_queue (ev : event) : bool :=
  match ev with
  | EvSubmitJob _ _ | EvWaitForJob _ _ _ | EvCheckJobCompleted _ => true
  | _ => false
  end.

(** The executor of a step was invoked. *)
Definition is_execution (ev : event) : bool :=
  match ev with
  | EvExecuteStep _ => true
  | _ => false
  end.

(** The preparation of the MD inputs goes through: the directory and
    the input files can be written, the structure converts, there is a
    pseudopotential configuration and it yields a POTCAR, and the job
    script can be written. *)
Definition prepared (w : world) (b : backend) (self : Md.MdPipeline)
  : Prop :=
  fs_mkdir w (Md.md_dir self) = Returned tt
  /\ do_ensure_poscar b (Md.structure_file self) (Md.md_dir self </> "POSCAR")
     = Returned tt
  /\ fs_open_write w (Md.md_dir self </> "INCAR") = Returned tt
  /\ fs_open_write w (Md.md_dir self </> "KPOINTS") = Returned tt
  /\ Md.potcar_map self ≠ ∅
  /\ do_prepare_potcar b (Md.md_dir self </> "POSCAR")
       (Md.md_dir self </> "POTCAR") = true
  /\ exists script,
       do_write_job_script b (Md.md_dir self) "md" (Md.queue_system self)
       = Returned script.

End Queue.


(** ** The vocabulary of the properties of the commands *)

Module Exit.

(** The pipeline run of one pressure in a single-file [relax]
    invocation: what the command does between building the keyword
    arguments and looking at the outcome of [run()]. *)
Definition single_run (w : world) (s : Cli.setup) (p : float) : M bool :=
  pipeline_kwargs <- Cli.relax_kwargs (Cli.final_config s) p ;;
  Call.mkdir w (Cli.base_root s </> Cli.format_pressure_dir w p) ;;;
  pipeline <- Call.call_cls (RelaxPipeline w)
                [("structure_file", VPath (Cli.input_path s));
                 ("work_dir",
                   VPath (Cli.base_root s </> Cli.format_pressure_dir w p))]
                pipeline_kwargs ;;
  Call.run pipeline.

(** The options have the types the argument parser gives them: the
    number of tasks is an [int] (or absent) and the pseudopotential
    directory a path (or absent). *)
Definition well_typed (s : Cli.setup) : Prop :=
  (Cli.tasks s = VNone \/ exists n, Cli.tasks s = VInt n)
  /\ (exists potcar_dir,
        Cli.optional_path (Cli.final_config s) "potcar_dir" = ret potcar_dir).

(** The structure files a batch invocation finds. *)
Definition found (w : world) (s : Cli.setup) : list string :=
  Cli.scan_structure_files w (Cli.input_path s) (Cli.structure_exts s).

End Exit.


(** ** cli.py: several modules on one command line *)

Module Rewrite.

Definition MODULES : list string :=
  ["relax"; "phonon"; "md"; "scf"; "dos"; "band"; "elf"; "cohp"; "bader";
   "fermisurface"].

(** The loop over [argv[1:]]: the tokens it appends to [modules] before
    it breaks. *)
Fixpoint leading_modules (tokens : list string) : list string :=
  match tokens with
  | [] => []
  | token :: rest =>
      if String.prefix "-" token then []
      else if bool_decide (token ∈ MODULES)
           then token :: leading_modules rest
           else []
  end.

Definition _rewrite_modules (argv : list string) : list string :=
  let modules := leading_modules (drop 1 argv) in
  if (1 <? length modules)%nat then
    match argv with
    | prog :: _ =>
        [prog; "combo"] ++ modules ++ drop (1 + length modules) argv
    | [] => argv (* no module was read from an empty [argv] *)
    end
  else argv.

End Rewrite.


(** ** cli.py: the commands of the other modules *)

Module Commands.

Import Call Cli.

(** [for x in l: ...] with a body that may [break]: the body says
    whether it did. *)
Fixpoint for_each_until {A} (body : A -> M (flow bool)) (l : list A)
  : M (flow unit) :=
  match l with
  | [] => ret (Go tt)
  | x :: l' =>
      stop <~ body x ;;
      if stop then ret (Go tt) else for_each_until body l'
  end.

Definition properties_kwargs (final_config : dict) (modules : list string)
    (p : float) : M dict :=
  potcar_dir <- optional_path final_config "potcar_dir" ;;
  ret (Py.dict_of
         [("kspacing", Py.get_default final_config "kspacing" (VFloat 0.2));
          ("encut", Py.get final_config "encut");
          ("include_elf", VBool (bool_decide ("elf" ∈ modules)));
          ("include_cohp", VBool (bool_decide ("cohp" ∈ modules)));
          ("include_bader", VBool (bool_decide ("bader" ∈ modules)));
          ("include_fermi", VBool (bool_decide ("fermisurface" ∈ modules)));
          ("plot_dos_type",
            Py.get_default final_config "dos_type" (VStr "element"));
          ("queue_system",
            Py.get_default final_config "job_system" (VStr "bash"));
          ("mpi_procs", Py.get final_config "mpi_procs");
          ("potcar_dir", potcar_dir);
          ("potcar_type",
            Py.get_default final_config "potcar_type" (VStr "PBE"));
          ("prepare_only",
            VBool (negb (Py.truthy
                           (Py.get_default final_config "submit"
                              (VBool false)))));
          ("requested_steps", VList (VStr <$> modules));
          ("run_relax", VBool true);
          ("pressure", VFloat p)]).

(** One turn of [for p in pressures:] in [run_properties_command]; the
    batch branch ends with [break]. *)
Definition properties_turn (w : world) (s : setup) (max_workers : value)
    (modules : list string) (p : float) : M (flow bool) :=
  let pressure_dir := base_root s </> format_pressure_dir w p in
  pipeline_kwargs <~ liftF (properties_kwargs (final_config s) modules p) ;;
  if is_batch s then
    let structures :=
      scan_structure_files w (input_path s) (structure_exts s) in
    match structures with
    | [] => sys_exit 1
    | _ =>
        mw <~ liftF (as_int max_workers) ;;
        let tasks_limit := (if 0 <? mw then mw else 1)%Z in
        results <~ liftF (_run_matrix_tasks w structures (pressures s)
                            (base_root s) (Some (PropertiesPipeline w))
                            pipeline_kwargs tasks_limit false false) ;;
        _ <~ liftF (emit (EvBatchSummary (success_count results)
                            (length results))) ;;
        ret (Go true)
    end
  else
    _ <~ liftF (mkdir w pressure_dir) ;;
    pipeline <~ liftF (call_cls (PropertiesPipeline w)
                         [("structure_file", VPath (input_path s));
                          ("work_dir", VPath pressure_dir)]
                         pipeline_kwargs) ;;
    success <~ liftF (run pipeline) ;;
    if success then ret (Go false) else sys_exit 1.

(** [title] only reaches the log. *)
Definition run_properties_command (w : world) (args : dict)
    (title : string) (modules : list string) : M (flow unit) :=
  s <~ read_setup w args ;;
  parallel_flag <~ liftF (tasks_gt_one (tasks s)) ;;
  let max_workers := Py.or_ (tasks s) (VInt 1) in
  try_except
    (for_each_until (properties_turn w s max_workers modules) (pressures s))
    (fun exc => sys_exit 1).

Definition command_scf (w : world) (args : dict) : M (flow unit) :=
  run_properties_command w args "自洽计算" ["scf"].

Definition command_dos (w : world) (args : dict) : M (flow unit) :=
  run_properties_command w args "态密度" ["dos"].

Definition command_band (w : world) (args : dict) : M (flow unit) :=
  run_properties_command w args "能带" ["band"].

Definition command_elf (w : world) (args : dict) : M (flow unit) :=
  run_properties_command w args "ELF" ["relax"; "scf"; "elf"].

Definition command_cohp (w : world) (args : dict) : M (flow unit) :=
  run_properties_command w args "COHP" ["relax"; "scf"; "cohp"].

Definition command_bader (w : world) (args : dict) : M (flow unit) :=
  run_properties_command w args "Bader 电荷" ["relax"; "scf"; "bader"].

Definition command_fermi (w : world) (args : dict) : M (flow unit) :=
  run_properties_command w args "费米面" ["relax"; "scf"; "fermisurface"].

Definition phonon_kwargs (final_config : dict) : M dict :=
  potcar_dir <- optional_path final_config "potcar_dir" ;;
  ret (Py.dict_of
         [("supercell",
            Py.get_default final_config "supercell"
              (VList [VInt 2; VInt 2; VInt 2]));
          ("method", Py.get_default final_config "method" (VStr "disp"));
          ("kspacing", Py.get_default final_config "kspacing" (VFloat 0.3));
          ("encut", Py.get final_config "encut");
          ("queue_system",
            Py.get_default final_config "job_system" (VStr "bash"));
          ("mpi_procs", Py.get final_config "mpi_procs");
          ("potcar_dir", potcar_dir);
          ("potcar_type",
            Py.get_default final_config "potcar_type" (VStr "PBE"));
          ("prepare_only",
            VBool (negb (Py.truthy
                           (Py.get_default final_config "submit"
                              (VBool false)))));
          ("include_relax", VBool true)]).

(** One turn of [for p in pressures:] in the single-file branch of
    [command_phonon]. *)
Definition phonon_turn (w : world) (s : setup) (pipeline_kwargs : dict)
    (p : float) : M (flow unit) :=
  let pressure_dir := base_root s </> format_pressure_dir w p in
  _ <~ liftF (mkdir w pressure_dir) ;;
  pipeline <~ liftF (call_cls (PhononPropertiesPipeline w)
                       [("structure_file", VPath (input_path s));
                        ("work_dir", VPath pressure_dir);
                        ("pressure", VFloat p)]
                       pipeline_kwargs) ;;
  success <~ liftF (run pipeline) ;;
  if success then ret (Go tt) else sys_exit 1.

Definition command_phonon (w : world) (args : dict) : M (flow unit) :=
  s <~ read_setup w args ;;
  parallel_flag <~ liftF (tasks_gt_one (tasks s)) ;;
  let max_workers := Py.or_ (tasks s) (VInt 1) in
  try_except
    (pipeline_kwargs <~ liftF (phonon_kwargs (final_config s)) ;;
     if is_batch s then
       let structures :=
         scan_structure_files w (input_path s) (structure_exts s) in
       match structures with
       | [] => sys_exit 1
       | _ =>
           mw <~ liftF (as_int max_workers) ;;
           let tasks_limit := (if 0 <? mw then mw else 1)%Z in
           results <~ liftF (_run_matrix_tasks w structures (pressures s)
                               (base_root s)
                               (Some (PhononPropertiesPipeline w))
                               pipeline_kwargs tasks_limit false false) ;;
           liftF (emit (EvBatchSummary (success_count results)
                          (length results)))
       end
     else for_each (phonon_turn w s pipeline_kwargs) (pressures s))
    (fun exc => sys_exit 1).

Definition md_kwargs (final_config : dict) (p : float) : M dict :=
  potcar_dir <- optional_path final_config "potcar_dir" ;;
  ret (Py.dict_of
         [("potim", Py.get_default final_config "potim" (VFloat 1.0));
          ("tebeg", Py.get_default final_config "tebeg" (VFloat 300.0));
          ("teend", Py.get_default final_config "teend" (VFloat 300.0));
          ("nsw", Py.get_default final_config "nsw" (VInt 200));
          ("kspacing", Py.get_default final_config "kspacing" (VFloat 0.2));
          ("encut", Py.get final_config "encut");
          ("potcar_dir", potcar_dir);
          ("potcar_type",
            Py.get_default final_config "potcar_type" (VStr "PBE"));
          ("queue_system",
            Py.get_default final_config "job_system" (VStr "bash"));
          ("mpi_procs", Py.get final_config "mpi_procs");
          ("prepare_only",
            VBool (negb (Py.truthy
                           (Py.get_default final_config "submit"
                              (VBool false)))));
          ("include_relax", VBool true);
          ("pressure", VFloat p)]).

(** The [max_workers] a [BatchPipeline] keeps.  Only its process pool
    reads it, and only a parallel batch has one. *)
Definition pool_size (max_workers : value) : Z :=
  match max_workers with
  | VInt z => z
  | VBool b => if b then 1 else 0
  | _ => 1
  end%Z.

(** [ProcessPoolExecutor(max_workers=...)], the first thing a parallel
    [run()] does: the queue of a process pool takes an [int] and no
    other number (its semaphore refuses a [float]). *)
Definition pool_check (parallel : bool) (max_workers : value) : M unit :=
  if parallel then
    match max_workers with
    | VInt _ | VBool _ => ret tt
    | _ => raise (Py.TypeError
                    ("'" +:+ Py.type_name max_workers
                     +:+ "' object cannot be interpreted as an integer"))
    end
  else ret tt.

(** One turn of [for p in pressures:] in [command_md]. *)
Definition md_turn (w : world) (s : setup) (parallel_flag : bool)
    (max_workers : value) (p : float) : M (flow unit) :=
  let pressure_label := format_pressure_dir w p in
  let pressure_dir := base_root s </> pressure_label in
  pipeline_kwargs <~ liftF (md_kwargs (final_config s) p) ;;
  if is_batch s then
    batch <~ liftF (Batch.init w (MdPipeline w) (input_path s)
                      (base_root s) (Some pipeline_kwargs) parallel_flag
                      (pool_size max_workers) (Some (structure_exts s))
                      (Some pressure_label)) ;;
    _ <~ liftF (pool_check parallel_flag max_workers) ;;
    results <~ liftF (Batch.run w batch) ;;
    liftF (emit (EvBatchSummary (success_count results) (length results)))
  else
    _ <~ liftF (mkdir w pressure_dir) ;;
    pipeline <~ liftF (call_cls (MdPipeline w)
                         [("structure_file", VPath (input_path s));
                          ("work_dir", VPath pressure_dir)]
                         pipeline_kwargs) ;;
    success <~ liftF (run pipeline) ;;
    if success then ret (Go tt) else sys_exit 1.

Definition command_md (w : world) (args : dict) : M (flow unit) :=
  s <~ read_setup w args ;;
  parallel_flag <~ liftF (tasks_gt_one (tasks s)) ;;
  let max_workers := Py.or_ (tasks s) (VInt 1) in
  try_except
    (for_each (md_turn w s parallel_flag max_workers) (pressures s))
    (fun exc => sys_exit 1).

End Commands.


(** ** The vocabulary of the properties of a command's calls *)

Module Observe.

(** A pipeline class is entered: an object is constructed, or its
    [run()] is called. *)
Definition enters_class (ev : event) : bool :=
  match ev with
  | EvInit _ _ | EvRun _ _ => true
  | _ => false
  end.

(** The batch summaries a command logged: for each, the number of
    successes and the number of results. *)
Definition summaries (tr : list event) : list (nat * nat) :=
  omap (fun ev => match ev with
                  | EvBatchSummary ok total => Some (ok, total)
                  | _ => None
                  end) tr.

End Observe.


(** ** The vocabulary of the properties of a batch *)

Module Units.

(** The working directory of the unit of one structure file. *)
Definition unit_dir (self : Batch.BatchPipeline) (structure_file : string)
  : string :=
  match Md.nonempty (Batch.pressure_label self) with
  | Some label =>
      Batch.work_root self </> PathLib.stem structure_file </> label
  | None => Batch.work_root self </> PathLib.stem structure_file
  end.

(** The working directory of the unit can be made. *)
Definition dir_made (w : world) (self : Batch.BatchPipeline)
    (structure_file : string) : bool :=
  match fs_mkdir w (unit_dir self structure_file) with
  | Returned _ => true
  | Raised _ => false
  end.

(** The record of the unit of a structure file in a serial batch. *)
Definition record (w : world) (self : Batch.BatchPipeline)
    (structure_file : string) : dict :=
  match result (Batch._run_single_structure w self structure_file) with
  | Returned r => r
  | Raised _ => ∅
  end.

End Units.


(** ** pipelines/utils.py: the checks of a finished calculation *)

Module Outcar.

(** [open(outcar).read()] is the text [fs_read_text] gives. *)
Definition check_vasp_completion (w : world) (work_dir : string) : bool :=
  let outcar := work_dir </> "OUTCAR" in
  if negb (fs_exists w outcar) then false
  else
    match fs_read_text w outcar with
    | Raised _ => false
    | Returned content =>
        if Utils.contains "reached required accuracy" content then true
        else if Utils.contains "writing wavefunctions" content then true
        else false
    end.

(** [criterion] is not read; a line with [WARNING] only reaches the
    log. *)
Definition check_convergence (w : world) (work_dir : string)
    (criterion : string) : bool :=
  let outcar := work_dir </> "OUTCAR" in
  if negb (fs_exists w outcar) then false
  else
    match fs_readlines w outcar with
    | Raised _ => false
    | Returned lines =>
        existsb (Utils.contains "reached required accuracy") (reverse lines)
    end.

End Outcar.


(** ** The vocabulary of the properties of a single-file command *)

Module Single.

(** The pipeline of one pressure goes through: its directory can be
    made, the class constructs an object on the keyword arguments, and
    [run()] on that object returns [True]. *)
Definition succeeds (w : world) (cls : pipeline_class) (work_dir : string)
    (kwargs : dict) : Prop :=
  fs_mkdir w work_dir = Returned tt
  /\ exists inst,
       pc_new cls kwargs = Returned inst /\ inst_run inst = Returned true.

(** The keyword arguments of the phonon pipeline of one pressure. *)
Definition phonon_call (w : world) (s : Cli.setup) (pipeline_kwargs : dict)
    (p : float) : dict :=
  Py.dict_of
    [("structure_file", VPath (Cli.input_path s));
     ("work_dir",
       VPath (Cli.base_root s </> Cli.format_pressure_dir w p));
     ("pressure", VFloat p)]
  ∪ pipeline_kwargs.

(** The setup a command reads, or an empty one when reading it does
    not go through. *)
Definition setup_of (w : world) (args : dict) : Cli.setup :=
  match result (Cli.read_setup w args) with
  | Returned (Cli.Go s) => s
  | _ => {| Cli.final_config := ∅; Cli.input_path := "";
            Cli.structure_exts := []; Cli.pressures := [];
            Cli.base_root := ""; Cli.is_batch := false;
            Cli.tasks := VNone |}
  end.

End Single.


(** ** pipelines/utils.py: preparing a POTCAR *)

(** [prepare_potcar] reads and changes the file system and asks the user:
    the files and the pending answers are an explicit state, which the
    operations of a [shell] read and change. *)
Module Potcar.

Record shell (T : Type) := {
  (** [Path.exists()], [Path.is_dir()], [list(Path.iterdir())] and
      [Path.read_text()] *)
  sh_exists : T -> string -> bool;
  sh_is_dir : T -> string -> bool;
  sh_iterdir : T -> string -> outcome (list string);
  sh_read_text : T -> string -> outcome string;
  (** [Path.mkdir(parents=True, exist_ok=True)], [shutil.copy] and
      [Path.write_text] *)
  sh_mkdir : T -> string -> T * outcome unit;
  sh_copy : T -> string -> string -> T * outcome unit;
  sh_write_text : T -> string -> string -> T * outcome unit;
  (** [input(prompt)] *)
  sh_input : T -> T * outcome string;
  (** [str.isdigit()] and [int(s)] ([None] when it raises) *)
  sh_isdigit : string -> bool;
  sh_int : string -> option Z;
}.
Arguments sh_exists {T}.
Arguments sh_is_dir {T}.
Arguments sh_iterdir {T}.
Arguments sh_read_text {T}.
Arguments sh_mkdir {T}.
Arguments sh_copy {T}.
Arguments sh_write_text {T}.
Arguments sh_input {T}.
Arguments sh_isdigit {T}.
Arguments sh_int {T}.

(** Computations on the state that may raise. *)
Definition St (T A : Type) : Type := T -> T * outcome A.

Definition sret {T A} (a : A) : St T A := fun t => (t, Returned a).

Definition sread {T A} (f : T -> outcome A) : St T A := fun t => (t, f t).

Definition sbind {T A B} (m : St T A) (f : A -> St T B) : St T B :=
  fun t =>
    let r := m t in
    match r.2 with
    | Returned a => f a r.1
    | Raised e => (r.1, Raised e)
    end.

(** [try: m  except Exception: h]: what [m] changed stays changed. *)
Definition stry {T A} (m : St T A) (h : St T A) : St T A :=
  fun t =>
    let r := m t in
    match r.2 with
    | Returned _ => r
    | Raised _ => h r.1
    end.

Notation "x <<- m ;; k" := (sbind m (fun x => k))
  (at level 100, m at next level, right associativity) : py_scope.

(** [p.parent] *)
Definition parent (p : string) : string :=
  match PathLib.rfind "/"%char p with
  | Some 0 => "/"
  | Some i => substring 0 i p
  | None => "."
  end.

(** [s.replace('.', '', 1)] *)
Fixpoint remove_first_dot (s : string) : string :=
  match s with
  | EmptyString => EmptyString
  | String c s' =>
      if Ascii.eqb c "."%char then s' else String c (remove_first_dot s')
  end.

Section WithShell.
Context {T : Type}.
Variables (w : world) (sh : shell T).

Definition _parse_poscar_elements (t : T) (poscar_file : string)
  : list string :=
  match sh_read_text sh t poscar_file with
  | Raised _ => []
  | Returned text =>
      let lines := str_splitlines w text in
      if (length lines <? 6)%nat then []
      else
        match lines !! 5 with
        | None => []
        | Some line =>
            let candidates := str_split w line in
            if forallb (fun item => sh_isdigit sh (remove_first_dot item))
                 candidates
            then []
            else candidates
        end
  end.

Definition _locate_potcar_in_lib (t : T) (potcar_lib element : string)
  : option string :=
  let file_candidate := potcar_lib </> element in
  let dir_candidate := potcar_lib </> element </> "POTCAR" in
  if sh_exists sh t dir_candidate then Some dir_candidate
  else if sh_exists sh t file_candidate then Some file_candidate
  else None.

(** The candidates one search root adds. *)
Definition candidates_under (t : T) (element : string)
    (children : list string) : list string :=
  mbind (M := list)
    (fun child =>
       if sh_is_dir sh t child
          && String.prefix (str_lower w element)
               (str_lower w (PathLib.name child))
       then if sh_exists sh t (child </> "POTCAR")
            then [child </> "POTCAR"] else []
       else [])
    children.

Fixpoint search_roots (t : T) (element : string) (roots : list string)
    (candidates : list string) : outcome (list string) :=
  match roots with
  | [] => Returned candidates
  | root :: rest =>
      if negb (sh_exists sh t root)
      then search_roots t element rest candidates
      else
        match sh_iterdir sh t root with
        | Raised e => Raised e
        | Returned children =>
            search_roots t element rest
              (candidates ++ candidates_under t element children)
        end
  end.

Definition _search_potcar_candidates (t : T) (potcar_dir : value)
    (element potcar_type : string) : outcome (list string) :=
  match result (Call.Path potcar_dir) with
  | Raised e => Raised e
  | Returned base_dir =>
      let roots :=
        if String.eqb potcar_type "" then [base_dir]
        else [base_dir; base_dir </> potcar_type] in
      search_roots t element roots []
  end.

(** The lines printed before the question are not modelled. *)
Definition _prompt_choose_potcar (element : string)
    (candidates : list string) : St T (option string) :=
  if (length candidates =? 1)%nat then
    sread (fun _ => result (c <- Utils.index candidates 0 ;; ret (Some c)))
  else
    line <<- sh_input sh ;;
    let choice := str_strip w line in
    if String.eqb choice "" then
      sread (fun _ =>
               result (c <- Utils.index candidates 0 ;; ret (Some c)))
    else
      match sh_int sh choice with
      | Some num =>
          if ((1 <=? num) && (num <=? Z.of_nat (length candidates)))%Z
          then sret (candidates !! Z.to_nat (num - 1))
          else sret None
      | None => sret None
      end.

(** What the loop does for an element that is not in [potcar_lib]
    yet; [None] stands for the [return False] inside the loop. *)
Definition fetch (potcar_lib : string) (potcar_dir : value)
    (potcar_type element : string) : St T (option string) :=
  if negb (Py.truthy potcar_dir) then sret None
  else
    candidates <<- sread (fun t => _search_potcar_candidates t potcar_dir
                                     element potcar_type) ;;
    if (length candidates =? 0)%nat then sret None
    else
      chosen <<- _prompt_choose_potcar element candidates ;;
      match chosen with
      | None => sret None
      | Some chosen =>
          let dest := potcar_lib </> element in
          _ <<- (fun t => sh_mkdir sh t (parent dest)) ;;
          _ <<- (fun t => sh_copy sh t chosen dest) ;;
          text <<- sread (fun t => sh_read_text sh t dest) ;;
          sret (Some text)
      end.

(** [for element in elements:] *)
Fixpoint collect (potcar_lib : string) (potcar_dir : value)
    (potcar_type : string) (elements : list string)
    (potcar_content : list string) : St T (option (list string)) :=
  match elements with
  | [] => sret (Some potcar_content)
  | element :: rest =>
      existing <<- sread (fun t => Returned (_locate_potcar_in_lib t
                                               potcar_lib element)) ;;
      match existing with
      | Some existing =>
          text <<- sread (fun t => sh_read_text sh t existing) ;;
          collect potcar_lib potcar_dir potcar_type rest
            (potcar_content ++ [text])
      | None =>
          fetched <<- fetch potcar_lib potcar_dir potcar_type element ;;
          match fetched with
          | None => sret None
          | Some text =>
              collect potcar_lib potcar_dir potcar_type rest
                (potcar_content ++ [text])
          end
      end
  end.

Definition prepare_potcar (poscar_file : string) (potcar_dir : value)
    (output_file : string) (potcar_type : string)
    (potcar_lib_root : option string) : St T bool :=
  stry
    (elements <<- sread (fun t => Returned (_parse_poscar_elements t
                                              poscar_file)) ;;
     match elements with
     | [] => sret false
     | _ =>
         let potcar_lib :=
           default (fs_cwd w </> "potcar_lib") potcar_lib_root in
         _ <<- (fun t => sh_mkdir sh t potcar_lib) ;;
         potcar_content <<- collect potcar_lib potcar_dir potcar_type
                              elements [] ;;
         match potcar_content with
         | None => sret false
         | Some potcar_content =>
             _ <<- (fun t => sh_mkdir sh t (parent output_file)) ;;
             _ <<- (fun t => sh_write_text sh t output_file
                               (String.concat "" potcar_content)) ;;
             sret true
         end
     end)
    (sret false).

End WithShell.

End Potcar.


(** ** Further sample inputs *)

Module Cases.

Import Sample.

(** [w] with an OUTCAR of the given lines in every directory. *)
Definition with_outcar (w : world) (lines : list string) : world :=
  {| fs_mkdir := fs_mkdir w;
     fs_exists := fs_exists w;
     fs_is_dir := fs_is_dir w;
     fs_glob := fs_glob w;
     fs_cwd := fs_cwd w;
     fs_read_text := fun _ => Returned (String.concat "" lines);
     fs_readlines := fun _ => Returned lines;
     fs_open_write := fs_open_write w;
     json_load := json_load w;
     format_g := format_g w;
     format_6f := format_6f w;
     float_of_str := float_of_str w;
     str_lower := str_lower w;
     str_strip := str_strip w;
     str_split := str_split w;
     str_splitlines := str_splitlines w;
     re_split_blank_comma := re_split_blank_comma w;
     str_other := str_other w;
     RelaxPipeline := RelaxPipeline w;
     PhononPropertiesPipeline := PhononPropertiesPipeline w;
     PropertiesPipeline := PropertiesPipeline w;
     MdPipeline := MdPipeline w;
     matrix_picks := matrix_picks w;
     combo_picks := combo_picks w;
     batch_picks := batch_picks w;
     process_failure := process_failure w |}.

(** The end of an OUTCAR with two ionic steps. *)
Definition outcar_lines : list string :=
  ["  energy  without entropy=  -40.1  energy(sigma->0) =  1.0"
     +:+ Utils.nl;
   " reached required accuracy - stopping" +:+ Utils.nl;
   "  energy  without entropy=  -42.4  energy(sigma->0) =  -42.5"
     +:+ Utils.nl;
   " writing wavefunctions" +:+ Utils.nl].

Definition finished_world : world :=
  with_outcar (ok_world ["structs/a.vasp"]) outcar_lines.

(** Keyword arguments that already hold the pressure. *)
Definition pressure_kwargs : dict := Py.dict_of [("pressure", VFloat 0)].

(** The MD pipeline [MdPipeline(structure_file, work_dir,
    custom_steps=["MD ", "relax", "md"], ...)] constructs. *)
Definition md_built : Md.MdPipeline :=
  match result (Md.init (ok_world []) quiet_backend "structs/a.vasp"
                  "/work/a/0_GPa" 0.2%float None VNone
                  (Some ["MD "; "relax"; "md"]) None None None true) with
  | Returned self => self
  | Raised _ => md_pipeline true ∅
  end.

(** A library of pseudopotentials with the directories [Ca], [C_h] and
    [O]; the file system is not changed by the sample operations. *)
Definition potcar_shell : Potcar.shell unit :=
  {| Potcar.sh_exists := fun _ p =>
       negb (String.prefix "/lib" p);
     Potcar.sh_is_dir := fun _ _ => true;
     Potcar.sh_iterdir := fun _ root =>
       if String.eqb root "/pot"
       then Returned ["/pot/Ca"; "/pot/C_h"; "/pot/O"]
       else Returned [];
     Potcar.sh_read_text := fun _ p =>
       Raised (Py.Exception "FileNotFoundError" p);
     Potcar.sh_mkdir := fun t _ => (t, Returned tt);
     Potcar.sh_copy := fun t _ _ => (t, Returned tt);
     Potcar.sh_write_text := fun t _ _ => (t, Returned tt);
     Potcar.sh_input := fun t => (t, Returned "");
     Potcar.sh_isdigit := fun _ => false;
     Potcar.sh_int := fun _ => None |}.

(** The keyword arguments [command_phonon] builds from the arguments
    of [vasp phonon -i a.vasp --submit]. *)
Definition phonon_kw : dict :=
  match result (Commands.phonon_kwargs
                  (Cli.final_config
                     (Single.setup_of Runs.plain_world
                        Runs.relax_single_args))) with
  | Returned kw => kw
  | Raised _ => ∅
  end.

(** A world whose MD pipelines all report failure. *)
Definition failing_md_world : world :=
  make_world ["structs/a.vasp"] [] Runs.no_poscar true
    (uniform "RelaxPipeline" (Returned true))
    (uniform "PhononPropertiesPipeline" (Returned true))
    (uniform "PropertiesPipeline" (Returned true))
    (uniform "MdPipeline" (Returned false)) [].

End Cases.

(** * Properties *)

(** ** The monad *)

Section MonadFacts.
Context {A B : Type}.
Implicit Types (m : M A) (f : A -> M B).

Lemma result_ret (a : A) : result (ret a) = Returned a.
Proof. reflexivity. Qed.

Lemma trace_ret (a : A) : trace (ret a) = [].
Proof. reflexivity. Qed.

Lemma result_bind_returned m f a :
  result m = Returned a -> result (bind m f) = result (f a).
Proof. destruct m as [t o]; simpl; intros ->; reflexivity. Qed.

Lemma trace_bind_returned m f a :
  result m = Returned a -> trace (bind m f) = trace m ++ trace (f a).
Proof. destruct m as [t o]; simpl; intros ->; reflexivity. Qed.

Lemma result_bind_raised m f e :
  result m = Raised e -> result (bind m f) = Raised e.
Proof. destruct m as [t o]; simpl; intros ->; reflexivity. Qed.

Lemma trace_bind_raised m f e :
  result m = Raised e -> trace (bind m f) = trace m.
Proof. destruct m as [t o]; simpl; intros ->; reflexivity. Qed.

(** A sequence that returns has returned at every step. *)
Lemma bind_returned_inv m f b :
  result (bind m f) = Returned b ->
  exists a, result m = Returned a /\ result (f a) = Returned b.
Proof.
  destruct m as [t [a|e]]; simpl; [eauto | discriminate].
Qed.

Lemma result_try_returned (m : M A) h a :
  result m = Returned a -> result (try_except m h) = Returned a.
Proof. destruct m as [t o]; simpl; intros ->; reflexivity. Qed.

Lemma trace_try_returned (m : M A) h a :
  result m = Returned a -> trace (try_except m h) = trace m.
Proof. destruct m as [t o]; simpl; intros ->; reflexivity. Qed.

Lemma result_try_raised (m : M A) h e :
  result m = Raised e -> result (try_except m h) = result (h e).
Proof. destruct m as [t o]; simpl; intros ->; reflexivity. Qed.

Lemma trace_try_raised (m : M A) h e :
  result m = Raised e -> trace (try_except m h) = trace m ++ trace (h e).
Proof. destruct m as [t o]; simpl; intros ->; reflexivity. Qed.

End MonadFacts.

(** ** The pool *)

Section PoolFacts.
Context {A : Type}.
Implicit Types (queue running futures : list A).

(** Whatever the scheduler picks, a pool with at least one worker
    completes every piece of work exactly once. *)
Lemma completions_Permutation fuel W picks queue running :
  0 < W ->
  length queue + length running <= fuel ->
  Pool.completions fuel W picks queue running ≡ₚ running ++ queue.
Proof.
  intros HW. revert picks queue running.
  induction fuel as [|fuel IH]; intros picks queue running Hfuel.
  - destruct queue, running; simpl in *; try lia. reflexivity.
  - cbn [Pool.completions].
    set (free := W - length running).
    set (running' := running ++ take free queue).
    destruct (running' !! (hd 0 picks `mod` length running')) as [x|] eqn:Hx.
    + rewrite (IH (tl picks) (drop free queue)).
      * replace (running ++ queue) with (running' ++ drop free queue)
          by (subst running'; rewrite <- (assoc_L (++));
              f_equal; apply take_drop).
        change (x :: delete (hd 0 picks `mod` length running') running'
                  ++ drop free queue)
          with ((x :: delete (hd 0 picks `mod` length running') running')
                  ++ drop free queue).
        apply Permutation_app; [|reflexivity].
        symmetry. by apply delete_Permutation.
      * apply lookup_lt_Some in Hx as Hlt.
        rewrite length_delete by eauto.
        subst running'. rewrite length_app in *.
        rewrite length_drop. rewrite length_take in *. lia.
    + (* nothing is running and nothing can start: all the work is done *)
      destruct running' as [|y l] eqn:Hr.
      * subst running'. apply app_eq_nil in Hr as [-> Htake].
        simpl in *. subst free. simpl in Htake.
        rewrite Nat.sub_0_r in Htake.
        destruct queue; [reflexivity|]. destruct W; [lia|]. discriminate.
      * apply lookup_ge_None in Hx.
        pose proof (Nat.mod_upper_bound (hd 0 picks) (length (y :: l))) as Hm.
        simpl in *. lia.
Qed.

(** The order depends on the picks only, not on the work. *)
Lemma completions_fmap {B} (f : A -> B) fuel W picks queue running :
  Pool.completions fuel W picks (f <$> queue) (f <$> running)
  = f <$> Pool.completions fuel W picks queue running.
Proof.
  revert picks queue running.
  induction fuel as [|fuel IH]; intros picks queue running; [reflexivity|].
  cbn [Pool.completions].
  rewrite !length_fmap, <- fmap_take, <- fmap_drop, <- fmap_app.
  rewrite length_fmap, list_lookup_fmap.
  destruct ((running ++ take _ queue) !! _) as [x|] eqn:Hx; simpl; [|done].
  f_equal. rewrite <- IH. f_equal.
  generalize (hd 0 picks `mod` length (running ++ take (W - length running) queue)).
  generalize (running ++ take (W - length running) queue).
  clear. intros l n. revert n. induction l; intros [|n]; simpl; f_equal; auto.
Qed.

(** One worker serves the queue in submission order. *)
Lemma completions_serial picks queue :
  Pool.completions (length queue) 1 picks queue [] = queue.
Proof.
  revert picks. induction queue as [|x queue IH]; intros picks; [reflexivity|].
  cbn [length Pool.completions].
  change (1 - 0) with 1.
  change ([] ++ take 1 (x :: queue)) with [x].
  change (length [x]) with 1. rewrite Nat.mod_1_r.
  cbn [lookup list_lookup]. cbn. f_equal. rewrite drop_0. apply IH.
Qed.

Lemma shuffle_Permutation picks (l : list A) : Pool.shuffle picks l ≡ₚ l.
Proof.
  unfold Pool.shuffle. destruct l as [|x l]; [reflexivity|].
  rewrite completions_Permutation; [reflexivity | simpl; lia | simpl; lia].
Qed.

Lemma shuffle_fmap {B} (f : A -> B) picks (l : list A) :
  Pool.shuffle picks (f <$> l) = f <$> Pool.shuffle picks l.
Proof.
  unfold Pool.shuffle. rewrite length_fmap.
  change (@nil B) with (f <$> @nil A). apply completions_fmap.
Qed.

(** [as_completed] hands out every future exactly once. *)
Lemma as_completed_Permutation W s futures :
  0 < W -> Pool.as_completed W s futures ≡ₚ futures.
Proof.
  intros HW. unfold Pool.as_completed.
  rewrite shuffle_Permutation, take_drop.
  rewrite completions_Permutation; [reflexivity | done | simpl; lia].
Qed.

(** The order in which the futures are handed out depends on the
    schedule only, not on what the futures hold. *)
Lemma as_completed_fmap {B} (f : A -> B) W s futures :
  Pool.as_completed W s (f <$> futures)
  = f <$> Pool.as_completed W s futures.
Proof.
  unfold Pool.as_completed. rewrite length_fmap.
  change (@nil B) with (f <$> @nil A).
  rewrite completions_fmap, <- fmap_take, <- fmap_drop, shuffle_fmap.
  by rewrite fmap_app.
Qed.

End PoolFacts.


(** ** Result records *)

Section Records.
Implicit Types (s : string) (p : float) (e : Py.exn) (r : dict).

Lemma failure_record_structure s p e :
  Cli.failure_record s p e !! "structure" = Some (VPath s).
Proof. reflexivity. Qed.

Lemma failure_record_pressure s p e :
  Cli.failure_record s p e !! "pressure" = Some (VFloat p).
Proof. reflexivity. Qed.

Lemma failure_record_success s p e :
  Cli.failure_record s p e !! "success" = Some (VBool false).
Proof. reflexivity. Qed.

Lemma failure_record_error s p e :
  Cli.failure_record s p e !! "error" = Some (VStr (Py.str_exc e)).
Proof. reflexivity. Qed.
End Records.


(** ** The two workers *)

(** Decompose a sequence that is known to return. *)
Ltac inv_bind H :=
  let a := fresh "a" in
  let Ha := fresh "Ha" in
  apply bind_returned_inv in H as (a & Ha & H).

Section Workers.
Variable w : world.
Implicit Types (s wd : string) (p : float) (e : Py.exn) (r : dict).

Lemma failure_record_of s p e : Matrix.record_of s p (Cli.failure_record s p e).
Proof. repeat split; try reflexivity. by exists false. Qed.

Lemma single_try_record cls s wd kw p r :
  result (Cli.single_try w cls s wd kw p) = Returned r -> Matrix.record_of s p r.
Proof.
  unfold Cli.single_try. intros H.
  inv_bind H. inv_bind H. inv_bind H.
  injection H as <-. repeat split; try reflexivity. by eexists.
Qed.

Lemma combo_try_record modules s wd p config r :
  result (Cli.combo_try w modules s wd p config) = Returned r ->
  Matrix.record_of s p r.
Proof.
  unfold Cli.combo_try. intros H. inv_bind H.
  destruct (negb _).
  { injection H as <-. repeat split; try reflexivity. by eexists. }
  destruct (Py.truthy (Py.get_default _ _ _)).
  { injection H as <-. repeat split; try reflexivity. by eexists. }
  inv_bind H. inv_bind H.
  destruct (negb _); injection H as <-;
    repeat split; try reflexivity; by eexists.
Qed.

(** Neither worker lets an exception out: whatever its [try] block
    does, the worker returns a record of its own unit. *)
Lemma worker_returns (body : M dict) s p :
  (forall r, result body = Returned r -> Matrix.record_of s p r) ->
  exists r,
    result (try_except body (fun exc => ret (Cli.failure_record s p exc)))
    = Returned r
    /\ Matrix.record_of s p r
    /\ r = match result body with
           | Returned r' => r'
           | Raised e => Cli.failure_record s p e
           end.
Proof.
  intros Hbody. destruct (result body) as [r|e] eqn:Hr.
  - exists r. erewrite result_try_returned by eassumption. auto.
  - exists (Cli.failure_record s p e).
    erewrite result_try_raised by eassumption.
    split; [reflexivity|]. split; [apply failure_record_of | reflexivity].
Qed.

Lemma _run_single_pipeline_returns cls s wd kw p :
  exists r, result (Cli._run_single_pipeline w cls s wd kw p) = Returned r
            /\ Matrix.record_of s p r
            /\ r = match result (Cli.single_try w cls s wd kw p) with
                   | Returned r' => r'
                   | Raised e => Cli.failure_record s p e
                   end.
Proof. apply worker_returns. apply single_try_record. Qed.

Lemma _run_combo_pipeline_returns modules s wd p config :
  exists r,
    result (Cli._run_combo_pipeline w modules s wd p config) = Returned r
    /\ Matrix.record_of s p r
    /\ r = match result (Cli.combo_try w modules s wd p config) with
           | Returned r' => r'
           | Raised e => Cli.failure_record s p e
           end.
Proof. apply worker_returns. apply combo_try_record. Qed.

End Workers.


(** ** The task matrix *)

Section MatrixFacts.
Variable w : world.
Variables (work_root : string) (pipeline_class : option pipeline_class)
          (pipeline_kwargs : dict) (combo_mode : bool).
Hypothesis call_ok : Matrix.call_ok pipeline_class pipeline_kwargs combo_mode.

Local Abbreviation unit_record :=
  (Matrix.unit_record w work_root pipeline_class pipeline_kwargs combo_mode).
Local Abbreviation unit_try :=
  (Matrix.unit_try w work_root pipeline_class pipeline_kwargs combo_mode).

Lemma bind_ret_l {A B} (a : A) (f : A -> M B) : bind (ret a) f = f a.
Proof. unfold bind, ret. simpl. by destruct (f a). Qed.

(** Under the calls the commands make, submitting a task raises
    nothing, and the worker it starts returns the record of its unit. *)
Lemma submit_task_spec (task : string * float) :
  exists worker,
    Cli.submit_task w work_root pipeline_class pipeline_kwargs combo_mode task
    = ret worker
    /\ result worker = Returned (unit_record task).
Proof.
  unfold Cli.submit_task, Matrix.unit_record, Matrix.unit_try,
    Matrix.call_ok in *.
  destruct combo_mode.
  - unfold Py.getitem, Py.get.
    destruct (pipeline_kwargs !! "modules") as [[]|]; try done.
    destruct (pipeline_kwargs !! "config") as [[]|]; try done.
    eexists. split; [reflexivity|]. simpl.
    destruct (_run_combo_pipeline_returns w
                (omap (fun x => match x with VStr s => Some s | _ => None end) l)
                task.1 (Matrix.work_dir_of w work_root task) task.2 d)
      as (r & Hr & _ & ->).
    exact Hr.
  - destruct call_ok as [cls ->].
    eexists. split; [reflexivity|].
    destruct (_run_single_pipeline_returns w cls task.1
                (Matrix.work_dir_of w work_root task) pipeline_kwargs task.2)
      as (r & Hr & _ & ->).
    exact Hr.
Qed.

Lemma unit_record_of (task : string * float) :
  Matrix.record_of task.1 task.2 (unit_record task).
Proof.
  unfold Matrix.unit_record.
  destruct (result (unit_try task)) as [r|e] eqn:Hr;
    [|apply failure_record_of].
  unfold Matrix.unit_try in Hr. destruct combo_mode.
  - by eapply combo_try_record.
  - destruct pipeline_class; [by eapply single_try_record | discriminate].
Qed.

Lemma unit_of_unit_record (task : string * float) :
  Matrix.unit_of (unit_record task) = Some task.
Proof.
  destruct (unit_record_of task) as (Hs & Hp & _).
  unfold Matrix.unit_of. rewrite Hs, Hp. by destruct task.
Qed.

Lemma submit_all_spec (tasks : list (string * float)) :
  exists workers,
    Call.submit_all
      (Cli.submit_task w work_root pipeline_class pipeline_kwargs combo_mode)
      tasks = ret workers
    /\ result <$> workers = (fun t => Returned (unit_record t)) <$> tasks.
Proof.
  induction tasks as [|t tasks (workers & Hw & Hres)].
  - by exists [].
  - destruct (submit_task_spec t) as (worker & Hs & Hr).
    exists (worker :: workers). simpl. rewrite Hs, bind_ret_l, Hw, bind_ret_l.
    split; [reflexivity|]. rewrite Hr. f_equal. exact Hres.
Qed.

Lemma log_done_ok (r : dict) (s : string) :
  r !! "structure" = Some (VPath s) -> Cli.log_done r = ret tt.
Proof. unfold Cli.log_done, Py.get. by intros ->. Qed.

Lemma collect_results_returned (order : list (string * float)) acc :
  result (Cli.collect_results
            ((fun t => Returned (unit_record t)) <$> order) acc)
  = Returned (acc ++ (unit_record <$> order)).
Proof.
  revert acc. induction order as [|t order IH]; intros acc.
  - simpl. by rewrite app_nil_r.
  - rewrite fmap_cons. cbn [Cli.collect_results].
    change (lift (Returned (unit_record t))) with (ret (unit_record t)).
    rewrite bind_ret_l.
    destruct (unit_record_of t) as (Hs & _).
    rewrite (log_done_ok _ _ Hs).
    rewrite bind_ret_l, IH. by rewrite <- (assoc_L (++)).
Qed.

(** The results of a run are the records of its units, each worked out
    from its own unit, in the order the units completed. *)
Lemma _run_matrix_tasks_results structures pressures tasks_limit pressure_first :
  result (Cli._run_matrix_tasks w structures pressures work_root
            pipeline_class pipeline_kwargs tasks_limit pressure_first
            combo_mode)
  = Returned (unit_record
                <$> Matrix.completion_order w structures pressures tasks_limit).
Proof.
  unfold Cli._run_matrix_tasks, Matrix.completion_order.
  destruct (submit_all_spec (list_prod structures pressures))
    as (workers & -> & Hres).
  rewrite bind_ret_l. unfold Pool.with_executor, Pool.run_all.
  replace (Z.to_nat (Z.max tasks_limit 1) =? 0)%nat with false
    by (symmetry; apply Nat.eqb_neq; lia).
  erewrite result_bind_returned by reflexivity.
  cbn [snd]. rewrite Hres, as_completed_fmap.
  apply collect_results_returned.
Qed.

Lemma completion_order_Permutation structures pressures tasks_limit :
  Matrix.completion_order w structures pressures tasks_limit
  ≡ₚ list_prod structures pressures.
Proof.
  unfold Matrix.completion_order. apply as_completed_Permutation. lia.
Qed.

End MatrixFacts.


(** ** C1 and C2: the task matrix *)

(** C1: for every list of N structure files and every list of M pressure
    values (in particular the non-empty ones) and for every concurrency
    limit (in particular every [tasks_limit >= 1]), [_run_matrix_tasks]
    returns exactly N * M result records, and the identities the records
    carry are the (structure, pressure) pairs of the product, each pair
    once. The hypothesis describes the calls the commands make. *)
Theorem C1_matrix_one_record_per_pair
    (w : world) (structures : list string) (pressures : list float)
    (work_root : string) (pipeline_class : option pipeline_class)
    (pipeline_kwargs : dict) (tasks_limit : Z)
    (pressure_first combo_mode : bool) :
  Matrix.call_ok pipeline_class pipeline_kwargs combo_mode ->
  exists results,
    result (Cli._run_matrix_tasks w structures pressures work_root
              pipeline_class pipeline_kwargs tasks_limit pressure_first
              combo_mode) = Returned results
    /\ length results = length structures * length pressures
    /\ Matrix.unit_of <$> results ≡ₚ Some <$> list_prod structures pressures.
Proof.
  intros Hok. eexists. split; [by apply _run_matrix_tasks_results|].
  pose proof (completion_order_Permutation w structures pressures tasks_limit)
    as Hperm.
  split.
  - rewrite length_fmap, Hperm. apply length_prod.
  - rewrite <- list_fmap_compose.
    rewrite (list_fmap_ext _ Some
               (Matrix.completion_order w structures pressures tasks_limit)).
    + by rewrite Hperm.
    + intros _ t _. by apply unit_of_unit_record.
Qed.

Lemma C1_witness :
  Matrix.call_ok (Some Runs.picky) ∅ false
  /\ exists results,
       result (Cli._run_matrix_tasks Runs.plain_world Runs.two_structures
                 Runs.two_pressures "/work" (Some Runs.picky) ∅ 2 false false)
       = Returned results
       /\ length results = 2 * 2
       /\ Matrix.unit_of <$> results
          ≡ₚ Some <$> list_prod Runs.two_structures Runs.two_pressures.
Proof.
  split.
  - by exists Runs.picky.
  - apply (C1_matrix_one_record_per_pair Runs.plain_world Runs.two_structures
             Runs.two_pressures "/work" (Some Runs.picky) ∅ 2 false false).
    by exists Runs.picky.
Defined.

Section Isolation.
Variable w : world.

Lemma dict_of_unit_keys (s wd : string) (p : float) (spread : dict) :
  (Py.dict_of [("structure_file", VPath s); ("work_dir", VPath wd);
               ("pressure", VFloat p)] ∪ spread) !! "structure_file"
  = Some (VPath s)
  /\ (Py.dict_of [("structure_file", VPath s); ("work_dir", VPath wd);
                  ("pressure", VFloat p)] ∪ spread) !! "pressure"
     = Some (VFloat p).
Proof. split; by apply lookup_union_Some_l. Qed.

(** The way a class treats one unit does not reach the [try] block of
    another unit. *)
Lemma single_try_agree_off cls cls' (task0 : string * float) s wd kw p :
  Matrix.agree_off cls cls' task0 ->
  (s, p) ≠ task0 ->
  Cli.single_try w cls s wd kw p = Cli.single_try w cls' s wd kw p.
Proof.
  intros [Hname Hnew] Hne. unfold Cli.single_try. f_equal.
  unfold Call.call_cls. rewrite <- Hname.
  destruct (find _ _); [done|].
  rewrite <- Hnew; [done|].
  destruct (dict_of_unit_keys s wd p kw) as [-> ->].
  destruct (decide (s = task0.1)) as [->|Hs]; [|left; congruence].
  right. intros [= ->]. apply Hne. by destruct task0.
Qed.
End Isolation.

(** C2, as the code has it: in a matrix run the result list is made of the
    records of the units, each worked out from its own unit alone, in
    the order the units are handed out; when the [try] block of a unit
    (making its directory, constructing its pipeline, running it) raises
    an exception, the record of that unit has [success = False] and
    carries the text [str(exc)] of the exception as its error, which is
    empty when the exception has no message; and replacing the pipeline
    class by one that behaves differently on a single unit (say, raises
    there) leaves the record of every other unit as it was. *)
Theorem C2_exception_becomes_failure_record
    (w : world) (structures : list string) (pressures : list float)
    (work_root : string) (pipeline_class : option pipeline_class)
    (pipeline_kwargs : dict) (tasks_limit : Z)
    (pressure_first combo_mode : bool) :
  Matrix.call_ok pipeline_class pipeline_kwargs combo_mode ->
  let record :=
    Matrix.unit_record w work_root pipeline_class pipeline_kwargs combo_mode in
  let order := Matrix.completion_order w structures pressures tasks_limit in
  result (Cli._run_matrix_tasks w structures pressures work_root
            pipeline_class pipeline_kwargs tasks_limit pressure_first
            combo_mode) = Returned (record <$> order)
  /\ order ≡ₚ list_prod structures pressures
  /\ (forall task e,
        result (Matrix.unit_try w work_root pipeline_class pipeline_kwargs
                  combo_mode task) = Raised e ->
        Matrix.unit_of (record task) = Some task
        /\ record task !! "success" = Some (VBool false)
        /\ record task !! "error" = Some (VStr (Py.str_exc e)))
  /\ (forall cls cls' failing task,
        pipeline_class = Some cls -> combo_mode = false ->
        Matrix.agree_off cls cls' failing ->
        task ≠ failing ->
        Matrix.unit_record w work_root (Some cls') pipeline_kwargs false task
        = record task).
Proof.
  intros Hok record order. split; [by apply _run_matrix_tasks_results|].
  split; [apply completion_order_Permutation|]. split.
  - intros task e Hraised. subst record. cbv beta.
    split; [by apply unit_of_unit_record|].
    unfold Matrix.unit_record. rewrite Hraised. split; reflexivity.
  - intros cls cls' failing task -> -> Hagree Hne. subst record.
    unfold Matrix.unit_record, Matrix.unit_try.
    rewrite (single_try_agree_off w cls cls' failing); [done|done|].
    by destruct task.
Qed.

Lemma C2_witness :
  Matrix.call_ok (Some Runs.silent) ∅ false
  /\ result (Cli._run_matrix_tasks Runs.plain_world Runs.two_structures
               Runs.two_pressures "/work" (Some Runs.silent) ∅ 2 false false)
     = Returned
         (Matrix.unit_record Runs.plain_world "/work" (Some Runs.silent) ∅ false
            <$> Matrix.completion_order Runs.plain_world Runs.two_structures
                  Runs.two_pressures 2).
Proof.
  split.
  - by exists Runs.silent.
  - exact (proj1 (C2_exception_becomes_failure_record Runs.plain_world
                    Runs.two_structures Runs.two_pressures "/work"
                    (Some Runs.silent) ∅ 2 false false
                    (ex_intro _ Runs.silent eq_refl))).
Defined.

(** C2 as stated fails: a pipeline whose constructor raises an exception
    without a message yields a record whose error message is empty. *)
Lemma C2_counterexample :
  exists r,
    result (Cli._run_matrix_tasks Runs.plain_world ["structs/a.vasp"]
              [0%float] "/work" (Some Runs.silent) ∅ 1 false false)
    = Returned [r]
    /\ r !! "success" = Some (VBool false)
    /\ r !! "error" = Some (VStr "").
Proof. eexists. split; [vm_compute; reflexivity|]. split; reflexivity. Qed.


(** ** C4, C5 and C6: a combo unit *)

Section MoreMonadFacts.
Context {A B : Type}.

Lemma trace_bind (m : M A) (f : A -> M B) :
  trace (bind m f)
  = trace m ++ match result m with
               | Returned a => trace (f a)
               | Raised _ => []
               end.
Proof. destruct m as [t [a|e]]; simpl; [done | by rewrite app_nil_r]. Qed.

Lemma trace_try_except (m : M A) (h : Py.exn -> M A) :
  trace (try_except m h)
  = trace m ++ match result m with
               | Returned _ => []
               | Raised e => trace (h e)
               end.
Proof. destruct m as [t [a|e]]; simpl; [by rewrite app_nil_r | done]. Qed.
End MoreMonadFacts.

Section ComboFacts.
Variable w : world.
Implicit Types (s wd : string) (p : float) (config cfg relax_res : dict).

Lemma optional_path_value (d : dict) (k : string) (v : value) :
  result (Cli.optional_path d k) = Returned v ->
  v = VNone \/ exists q, v = VPath q.
Proof.
  unfold Cli.optional_path.
  destruct (Py.truthy _); [|intros [= <-]; by left].
  intros H. inv_bind H. injection H as <-. right. by eexists.
Qed.

(** What the prerequisite hands over when it returns. *)
Lemma prerequisite_returned s wd p config cfg relax_res :
  result (Cli.prerequisite w s wd p config) = Returned (cfg, relax_res) ->
  (exists potcar_dir, cfg = Cli.make_cfg_common config potcar_dir)
  /\ Py.get relax_res "relaxed" = VPath (wd </> "POSCAR_relaxed")
  /\ (Py.get relax_res "primitive" = VNone
      \/ exists q, Py.get relax_res "primitive" = VPath q).
Proof.
  unfold Cli.prerequisite. intros H.
  inv_bind H. inv_bind H. inv_bind H. injection H as <- <-.
  split; [by eexists|].
  unfold Cli._run_relax_pipeline in Ha1.
  inv_bind Ha1. inv_bind Ha1. inv_bind Ha1. inv_bind Ha1.
  injection Ha1 as <-.
  split; [reflexivity|].
  apply optional_path_value in Ha4.
  destruct Ha4 as [-> | [q ->]]; [by left | right; by exists q].
Qed.

Lemma relaxed_poscar_refined relax_res s wd :
  Py.get relax_res "relaxed" = VPath (wd </> "POSCAR_relaxed") ->
  (Py.get relax_res "primitive" = VNone
   \/ exists q, Py.get relax_res "primitive" = VPath q) ->
  Cli.relaxed_poscar relax_res s
  = VPath (Combo.refined_structure relax_res wd).
Proof.
  unfold Cli.relaxed_poscar, Combo.refined_structure, Py.or_.
  intros -> [-> | [q ->]]; reflexivity.
Qed.

Lemma prepare_only_of_cfg config potcar_dir :
  Py.truthy (Py.get_default (Cli.make_cfg_common config potcar_dir)
               "prepare_only" (VBool true))
  = negb (Combo.submit config).
Proof. reflexivity. Qed.

Lemma trace_join_groups completed acc :
  trace (Cli.join_groups completed acc) = [].
Proof.
  revert acc. induction completed as [|[b|e] l IH]; intros acc;
    cbn [Cli.join_groups]; [done| |done].
  rewrite trace_bind. simpl. apply IH.
Qed.

Lemma join_groups_returned completed acc b :
  result (Cli.join_groups completed acc) = Returned b ->
  b = acc && forallb Combo.succeeded completed.
Proof.
  revert acc. induction completed as [|[x|e] l IH]; intros acc H;
    cbn [Cli.join_groups] in H.
  - injection H as <-. by rewrite andb_true_r.
  - erewrite result_bind_returned in H by reflexivity.
    apply IH in H. subst b. simpl. by destruct x, acc.
  - discriminate H.
Qed.

Lemma join_groups_raised completed acc e :
  result (Cli.join_groups completed acc) = Raised e ->
  forallb Combo.succeeded completed = false.
Proof.
  revert acc. induction completed as [|[b|e'] l IH]; intros acc H;
    cbn [Cli.join_groups] in H; [discriminate| |done].
  erewrite result_bind_returned in H by reflexivity.
  apply IH in H. simpl. rewrite H. by destruct b.
Qed.

Lemma forallb_Permutation {X} (f : X -> bool) (l1 l2 : list X) :
  l1 ≡ₚ l2 -> forallb f l1 = forallb f l2.
Proof.
  intros Hp. apply eq_true_iff_eq. rewrite !forallb_forall.
  split; intros H x Hx; apply H; revert Hx;
    rewrite <- !list_elem_of_In; by rewrite Hp.
Qed.

(** The pool of the downstream groups: every group runs, and the
    verdict is the conjunction of their outcomes, whatever the order in
    which they complete. *)
Lemma join_pool picks (groups : list (M bool)) :
  length groups <= 3 ->
  trace (Pool.with_executor 3 picks groups
           (fun completed => Cli.join_groups completed true))
  = concat (trace <$> groups)
  /\ match result (Pool.with_executor 3 picks groups
                     (fun completed => Cli.join_groups completed true)) with
     | Returned b => b = forallb Combo.succeeded (result <$> groups)
     | Raised _ => forallb Combo.succeeded (result <$> groups) = false
     end.
Proof.
  intros _. unfold Pool.with_executor, Pool.run_all. cbn [Nat.eqb].
  set (completed := Pool.as_completed _ _ _).
  assert (completed ≡ₚ result <$> groups) as Hperm
    by (apply as_completed_Permutation; lia).
  split.
  - rewrite trace_bind. simpl. by rewrite trace_join_groups, app_nil_r.
  - erewrite result_bind_returned by reflexivity.
    cbn [snd]. rewrite <- (forallb_Permutation _ _ _ Hperm).
    destruct (result (Cli.join_groups completed true)) as [b|e] eqn:Hj.
    + apply join_groups_returned in Hj. exact Hj.
    + by eapply join_groups_raised.
Qed.

Lemma length_downstream_groups modules src wd cfg p :
  length (Cli.downstream_groups w modules src wd cfg p) <= 3.
Proof.
  unfold Cli.downstream_groups. rewrite !length_app.
  destruct (bool_decide ("phonon" ∈ modules)),
    (filter _ modules), (bool_decide ("md" ∈ modules)); simpl; lia.
Qed.

(** The worker adds no call of its own to those of its [try] block. *)
Lemma trace_run_combo modules s wd p config :
  trace (Cli._run_combo_pipeline w modules s wd p config)
  = trace (Cli.combo_try w modules s wd p config).
Proof.
  unfold Cli._run_combo_pipeline. rewrite trace_try_except.
  destruct (result _); simpl; by rewrite app_nil_r.
Qed.

Lemma result_run_combo modules s wd p config :
  result (Cli._run_combo_pipeline w modules s wd p config)
  = Returned match result (Cli.combo_try w modules s wd p config) with
             | Returned r => r
             | Raised e => Cli.failure_record s p e
             end.
Proof.
  unfold Cli._run_combo_pipeline.
  destruct (result (Cli.combo_try w modules s wd p config)) eqn:Hr.
  - erewrite result_try_returned by eassumption; done.
  - erewrite result_try_raised by eassumption; done.
Qed.

(** A prerequisite that raises ends the unit on the spot as well. *)
Lemma combo_prerequisite_raises modules s wd p config e :
  result (Cli.prerequisite w s wd p config) = Raised e ->
  result (Cli._run_combo_pipeline w modules s wd p config)
  = Returned (Cli.failure_record s p e)
  /\ trace (Cli._run_combo_pipeline w modules s wd p config)
     = trace (Cli.prerequisite w s wd p config).
Proof.
  intros H. rewrite result_run_combo, trace_run_combo. unfold Cli.combo_try.
  erewrite result_bind_raised, trace_bind_raised by eassumption. done.
Qed.

End ComboFacts.

(** C4, as the code has it: when the prerequisite of a combo unit
    fails, the worker of the unit returns a failed record, and the calls
    the worker made are those of the prerequisite and no others: no
    downstream pipeline is constructed or run.  When the relax stage has
    run and reported failure, the error of the record names the relax
    stage; when the prerequisite raised an exception, the error is the
    text of that exception, whatever it says. *)
Theorem C4_failed_prerequisite_ends_unit
    (w : world) (modules : list string) (structure_file work_dir : string)
    (pressure : float) (config : dict) :
  (forall cfg_common relax_res,
     result (Cli.prerequisite w structure_file work_dir pressure config)
     = Returned (cfg_common, relax_res) ->
     Py.truthy (Py.get relax_res "success") = false ->
     result (Cli._run_combo_pipeline w modules structure_file work_dir
               pressure config)
     = Returned (Py.dict_of [("structure", VPath structure_file);
                             ("pressure", VFloat pressure);
                             ("success", VBool false);
                             ("error", VStr "relax failed")])
     /\ trace (Cli._run_combo_pipeline w modules structure_file work_dir
                 pressure config)
        = trace (Cli.prerequisite w structure_file work_dir pressure config))
  /\ (forall exc,
        result (Cli.prerequisite w structure_file work_dir pressure config)
        = Raised exc ->
        result (Cli._run_combo_pipeline w modules structure_file work_dir
                  pressure config)
        = Returned (Py.dict_of [("structure", VPath structure_file);
                                ("pressure", VFloat pressure);
                                ("success", VBool false);
                                ("error", VStr (Py.str_exc exc))])
        /\ trace (Cli._run_combo_pipeline w modules structure_file work_dir
                    pressure config)
           = trace (Cli.prerequisite w structure_file work_dir pressure
                      config)).
Proof.
  split.
  - intros cfg_common relax_res Hpre Hfail.
    rewrite result_run_combo, trace_run_combo. unfold Cli.combo_try.
    erewrite result_bind_returned, trace_bind_returned by eassumption.
    cbn [fst snd]. rewrite Hfail. simpl. by rewrite app_nil_r.
  - intros exc Hpre.
    destruct (combo_prerequisite_raises w modules structure_file work_dir
                pressure config exc Hpre) as [Hres Htrace].
    split; [exact Hres | exact Htrace].
Qed.



Section ComboLaunch.
Variable w : world.
Implicit Types (s src wd : string) (p : float) (config cfg relax_res : dict).

(** Calling a class with no [**kwargs] constructs the object on the
    keywords given. *)
Lemma call_cls_plain (cls : pipeline_class) (explicit : list (string * value)) :
  Call.call_cls cls explicit ∅
  = (emit (EvInit (pc_name cls) (Py.dict_of explicit ∪ ∅)) ;;;
     inst <- lift (pc_new cls (Py.dict_of explicit ∪ ∅)) ;;
     ret {| Call.obj_cls := pc_name cls;
            Call.obj_kwargs := Py.dict_of explicit ∪ ∅;
            Call.obj_inst := inst |}).
Proof.
  unfold Call.call_cls.
  replace (find _ explicit) with (@None (string * value)); [done|].
  symmetry. induction explicit as [|kv l IH]; [done|]. simpl.
  rewrite lookup_empty. simpl. exact IH.
Qed.

Lemma launched_call (cls : pipeline_class) (explicit : list (string * value))
    (src : string) :
  (Py.dict_of explicit ∪ ∅) !! "structure_file" = Some (VPath src) ->
  Combo.launched_with src (pipeline <- Call.call_cls cls explicit ∅ ;;
                           Call.run pipeline).
Proof.
  intros Hsrc. rewrite call_cls_plain.
  exists (pc_name cls), (Py.dict_of explicit ∪ ∅).
  eexists. split; [|exact Hsrc].
  rewrite !trace_bind. reflexivity.
Qed.

Lemma launched_phonon src wd cfg p :
  Combo.launched_with src (Cli._run_phonon_pipeline w src wd cfg p).
Proof. apply launched_call. reflexivity. Qed.

Lemma launched_properties src wd mods cfg p :
  Combo.launched_with src (Cli._run_properties_pipeline w src wd mods cfg p).
Proof. apply launched_call. reflexivity. Qed.

Lemma launched_md src wd cfg p :
  Combo.launched_with src (Cli._run_md_pipeline w src wd cfg p).
Proof. apply launched_call. reflexivity. Qed.

Lemma downstream_groups_launched modules src wd cfg p :
  Forall (Combo.launched_with src)
    (Cli.downstream_groups w modules src wd cfg p).
Proof.
  unfold Cli.downstream_groups. rewrite !Forall_app. repeat split.
  - destruct (bool_decide _); repeat constructor. apply launched_phonon.
  - destruct (filter _ modules); repeat constructor.
    apply launched_properties.
  - destruct (bool_decide _); repeat constructor. apply launched_md.
Qed.

(** The run of a unit whose prerequisite succeeded, with [--submit]. *)
Lemma combo_submitted modules s wd p config cfg relax_res :
  result (Cli.prerequisite w s wd p config) = Returned (cfg, relax_res) ->
  Py.truthy (Py.get relax_res "success") = true ->
  Combo.submit config = true ->
  let groups :=
    Cli.downstream_groups w modules
      (Combo.source_structure w relax_res s wd) wd cfg p in
  trace (Cli._run_combo_pipeline w modules s wd p config)
  = trace (Cli.prerequisite w s wd p config) ++ concat (trace <$> groups)
  /\ exists r,
       result (Cli._run_combo_pipeline w modules s wd p config) = Returned r
       /\ r !! "success"
          = Some (VBool (forallb Combo.succeeded (result <$> groups))).
Proof.
  intros Hpre Hok Hsubmit groups.
  destruct (prerequisite_returned w _ _ _ _ _ _ Hpre)
    as ([potcar_dir ->] & Hrelaxed & Hprimitive).
  rewrite result_run_combo, trace_run_combo. unfold Cli.combo_try.
  erewrite result_bind_returned, trace_bind_returned by eassumption.
  cbn [fst snd]. rewrite Hok. cbn [negb].
  rewrite prepare_only_of_cfg, Hsubmit. cbn [negb].
  rewrite (relaxed_poscar_refined _ _ wd Hrelaxed Hprimitive).
  change (Call.Path (VPath ?q)) with (@ret string q).
  rewrite bind_ret_l.
  fold (Combo.source_structure w relax_res s wd). fold groups.
  destruct (join_pool (combo_picks w wd) groups
              (length_downstream_groups w _ _ _ _ _)) as [Htrace Hres].
  rewrite trace_bind, Htrace. split.
  - f_equal.
    destruct (result (Pool.with_executor _ _ _ _)) as [b|e];
      [|by rewrite app_nil_r].
    destruct (negb b); simpl; by rewrite app_nil_r.
  - destruct (result (Pool.with_executor _ _ _ _)) as [b|e] eqn:Hpool.
    + erewrite result_bind_returned by eassumption. rewrite <- Hres.
      destruct b; simpl; eexists; split; reflexivity.
    + erewrite result_bind_raised by eassumption. rewrite Hres.
      eexists. split; reflexivity.
Qed.

(** The same unit without [--submit]: the relax inputs are prepared and
    nothing else is done. *)
Lemma combo_prepared modules s wd p config cfg relax_res :
  result (Cli.prerequisite w s wd p config) = Returned (cfg, relax_res) ->
  Py.truthy (Py.get relax_res "success") = true ->
  Combo.submit config = false ->
  trace (Cli._run_combo_pipeline w modules s wd p config)
  = trace (Cli.prerequisite w s wd p config)
  /\ result (Cli._run_combo_pipeline w modules s wd p config)
     = Returned (Py.dict_of [("structure", VPath s);
                             ("pressure", VFloat p);
                             ("success", VBool true)]).
Proof.
  intros Hpre Hok Hsubmit.
  destruct (prerequisite_returned w _ _ _ _ _ _ Hpre) as ([potcar_dir ->] & _).
  rewrite result_run_combo, trace_run_combo. unfold Cli.combo_try.
  erewrite result_bind_returned, trace_bind_returned by eassumption.
  cbn [fst snd]. rewrite Hok. cbn [negb].
  rewrite prepare_only_of_cfg, Hsubmit. simpl. by rewrite app_nil_r.
Qed.

End ComboLaunch.


(** The two ways a prerequisite fails: the relax stage reports failure,
    and the constructor of the relax pipeline raises. *)
Lemma C4_witness :
  result (Cli._run_combo_pipeline Runs.failing_relax_world Runs.combo_modules
            "structs/a.vasp" "/work/a/0_GPa" 0%float Runs.submit_config)
  = Returned (Py.dict_of [("structure", VPath "structs/a.vasp");
                          ("pressure", VFloat 0%float);
                          ("success", VBool false);
                          ("error", VStr "relax failed")])
  /\ trace (Cli._run_combo_pipeline Runs.silent_relax_world Runs.combo_modules
              "structs/a.vasp" "/work/a/0_GPa" 0%float Runs.submit_config)
     = trace (Cli.prerequisite Runs.silent_relax_world "structs/a.vasp"
                "/work/a/0_GPa" 0%float Runs.submit_config).
Proof.
  split.
  - refine (proj1 (proj1
      (C4_failed_prerequisite_ends_unit Runs.failing_relax_world
         Runs.combo_modules "structs/a.vasp" "/work/a/0_GPa" 0%float
         Runs.submit_config)
      (Runs.returned (∅, ∅)
         (Cli.prerequisite Runs.failing_relax_world "structs/a.vasp"
            "/work/a/0_GPa" 0%float Runs.submit_config)).1
      (Runs.returned (∅, ∅)
         (Cli.prerequisite Runs.failing_relax_world "structs/a.vasp"
            "/work/a/0_GPa" 0%float Runs.submit_config)).2 _ _)).
    + vm_compute. reflexivity.
    + vm_compute. reflexivity.
  - refine (proj2 (proj2
      (C4_failed_prerequisite_ends_unit Runs.silent_relax_world
         Runs.combo_modules "structs/a.vasp" "/work/a/0_GPa" 0%float
         Runs.submit_config)
      (Py.Exception "NotImplementedError" "") _)).
    vm_compute. reflexivity.
Defined.

(** C4 as stated fails: when the constructor of the relax pipeline
    raises an exception without a message, the prerequisite has failed
    and the record of the unit carries an empty error.  A unit whose
    prerequisite succeeded and whose md group raised the same exception
    returns the very same record: the error does not tell the
    prerequisite from another cause. *)
Lemma C4_counterexample :
  result (Cli.prerequisite Runs.silent_relax_world "structs/a.vasp"
            "/work/a/0_GPa" 0%float Runs.submit_config)
  = Raised (Py.Exception "NotImplementedError" "")
  /\ result (Cli._run_combo_pipeline Runs.silent_relax_world
               Runs.combo_modules "structs/a.vasp" "/work/a/0_GPa" 0%float
               Runs.submit_config)
     = Returned (Py.dict_of [("structure", VPath "structs/a.vasp");
                             ("pressure", VFloat 0%float);
                             ("success", VBool false);
                             ("error", VStr "")])
  /\ Py.get (Runs.returned (∅, ∅)
               (Cli.prerequisite Runs.silent_md_world "structs/a.vasp"
                  "/work/a/0_GPa" 0%float Runs.submit_config)).2 "success"
     = VBool true
  /\ result (Cli._run_combo_pipeline Runs.silent_md_world
               Runs.combo_modules "structs/a.vasp" "/work/a/0_GPa" 0%float
               Runs.submit_config)
     = result (Cli._run_combo_pipeline Runs.silent_relax_world
                 Runs.combo_modules "structs/a.vasp" "/work/a/0_GPa" 0%float
                 Runs.submit_config).
Proof. repeat split; vm_compute; reflexivity. Qed.

(** C5, as the code has it: when the prerequisite of a combo unit has
    succeeded and [--submit] was given, the calls of the worker are those
    of the prerequisite followed by those of the downstream groups; every
    requested group (phonon, electronic properties, md) is among them; and
    every group constructs its pipeline on the refined structure the
    prerequisite names (its primitive cell when recorded, its relaxed
    structure otherwise) when that file exists, and on the original input
    structure when it does not. *)
Theorem C5_submitted_groups_get_refined_structure
    (w : world) (modules : list string) (structure_file work_dir : string)
    (pressure : float) (config cfg_common relax_res : dict) :
  result (Cli.prerequisite w structure_file work_dir pressure config)
  = Returned (cfg_common, relax_res) ->
  Py.truthy (Py.get relax_res "success") = true ->
  Combo.submit config = true ->
  let source := Combo.source_structure w relax_res structure_file work_dir in
  let groups :=
    Cli.downstream_groups w modules source work_dir cfg_common pressure in
  trace (Cli._run_combo_pipeline w modules structure_file work_dir pressure
           config)
  = trace (Cli.prerequisite w structure_file work_dir pressure config)
    ++ concat (trace <$> groups)
  /\ Forall (Combo.launched_with source) groups
  /\ ("phonon" ∈ modules ->
      Cli._run_phonon_pipeline w source work_dir cfg_common pressure ∈ groups)
  /\ (forall m, m ∈ modules -> m ∈ Cli.PROPERTY_MODULES ->
      Cli._run_properties_pipeline w source work_dir
        (filter (fun m => m ∈ Cli.PROPERTY_MODULES) modules) cfg_common pressure
      ∈ groups)
  /\ ("md" ∈ modules ->
      Cli._run_md_pipeline w source work_dir cfg_common pressure ∈ groups).
Proof.
  intros Hpre Hok Hsubmit source groups.
  split; [by apply (combo_submitted w modules _ _ _ _ _ _ Hpre Hok Hsubmit)|].
  split; [apply downstream_groups_launched|].
  subst groups. unfold Cli.downstream_groups. repeat split.
  - intros Hin. rewrite bool_decide_eq_true_2 by done.
    apply elem_of_app. left. constructor.
  - intros m Hm Hprop.
    assert (m ∈ filter (fun m => m ∈ Cli.PROPERTY_MODULES) modules) as Hf
      by (by apply list_elem_of_filter).
    destruct (filter _ modules) as [|m' l] eqn:Hl; [by inversion Hf|].
    apply elem_of_app. right. apply elem_of_app. left. constructor.
  - intros Hin. rewrite (bool_decide_eq_true_2 ("md" ∈ modules)) by done.
    apply elem_of_app. right. apply elem_of_app. right. constructor.
Qed.

Lemma C5_witness :
  Forall (Combo.launched_with "/work/a/0_GPa/POSCAR_relaxed")
    (Cli.downstream_groups Runs.plain_world Runs.combo_modules
       "/work/a/0_GPa/POSCAR_relaxed" "/work/a/0_GPa"
       (Cli.make_cfg_common Runs.submit_config VNone) 0%float).
Proof.
  refine (proj1 (proj2
    (C5_submitted_groups_get_refined_structure Runs.plain_world
       Runs.combo_modules "structs/a.vasp" "/work/a/0_GPa" 0%float
       Runs.submit_config
       (Cli.make_cfg_common Runs.submit_config VNone)
       (Runs.returned (∅, ∅)
          (Cli.prerequisite Runs.plain_world "structs/a.vasp"
             "/work/a/0_GPa" 0%float Runs.submit_config)).2
       _ _ _))).
  - vm_compute. reflexivity.
  - vm_compute. reflexivity.
  - vm_compute. reflexivity.
Defined.

(** C5 as stated fails: without [--submit] the unit stops after a
    successful prerequisite; the requested phonon group is not launched,
    and the unit is reported as a success. *)
Lemma C5_counterexample :
  "phonon" ∈ Runs.combo_modules
  /\ Py.get (Runs.returned (∅, ∅)
               (Cli.prerequisite Runs.plain_world "structs/a.vasp"
                  "/work/a/0_GPa" 0%float ∅)).2 "success" = VBool true
  /\ existsb (Combo.launches "PhononPropertiesPipeline")
       (trace (Cli._run_combo_pipeline Runs.plain_world Runs.combo_modules
                 "structs/a.vasp" "/work/a/0_GPa" 0%float ∅)) = false
  /\ Py.get (Runs.returned ∅
               (Cli._run_combo_pipeline Runs.plain_world Runs.combo_modules
                  "structs/a.vasp" "/work/a/0_GPa" 0%float ∅)) "success"
     = VBool true.
Proof.
  split; [unfold Runs.combo_modules; repeat constructor|].
  repeat split; vm_compute; reflexivity.
Qed.

(** C6: when the prerequisite of a combo unit has succeeded, the success
    of the unit is the conjunction of the prerequisite's outcome (true)
    and the outcomes of all the downstream groups that were launched (all
    the requested groups with [--submit], none without), a group that
    raises counting as failed; and the calls of the worker contain the
    calls of every launched group in full, whatever the outcome of the
    other groups and whatever the order in which they complete. *)
Theorem C6_unit_success_is_conjunction
    (w : world) (modules : list string) (structure_file work_dir : string)
    (pressure : float) (config cfg_common relax_res : dict) :
  result (Cli.prerequisite w structure_file work_dir pressure config)
  = Returned (cfg_common, relax_res) ->
  Py.truthy (Py.get relax_res "success") = true ->
  let launched :=
    if Combo.submit config
    then Cli.downstream_groups w modules
           (Combo.source_structure w relax_res structure_file work_dir)
           work_dir cfg_common pressure
    else [] in
  (exists r,
     result (Cli._run_combo_pipeline w modules structure_file work_dir
               pressure config) = Returned r
     /\ r !! "success"
        = Some (VBool (Py.truthy (Py.get relax_res "success")
                       && forallb Combo.succeeded (result <$> launched))))
  /\ trace (Cli._run_combo_pipeline w modules structure_file work_dir pressure
              config)
     = trace (Cli.prerequisite w structure_file work_dir pressure config)
       ++ concat (trace <$> launched).
Proof.
  intros Hpre Hok launched. rewrite Hok. cbn [andb]. subst launched.
  destruct (Combo.submit config) eqn:Hsubmit.
  - destruct (combo_submitted w modules _ _ _ _ _ _ Hpre Hok Hsubmit)
      as [Htrace Hres]. by split.
  - destruct (combo_prepared w modules _ _ _ _ _ _ Hpre Hok Hsubmit)
      as [Htrace Hres]. split.
    + eexists. split; [exact Hres | reflexivity].
    + rewrite Htrace. simpl. by rewrite app_nil_r.
Qed.

Lemma C6_witness :
  exists r,
    result (Cli._run_combo_pipeline Runs.failing_properties_world
              Runs.combo_modules "structs/a.vasp" "/work/a/0_GPa" 0%float
              Runs.submit_config) = Returned r
    /\ r !! "success" = Some (VBool false).
Proof.
  destruct (C6_unit_success_is_conjunction Runs.failing_properties_world
              Runs.combo_modules "structs/a.vasp" "/work/a/0_GPa" 0%float
              Runs.submit_config
              (Cli.make_cfg_common Runs.submit_config VNone)
              (Runs.returned (∅, ∅)
                 (Cli.prerequisite Runs.failing_properties_world
                    "structs/a.vasp" "/work/a/0_GPa" 0%float
                    Runs.submit_config)).2
              ltac:(vm_compute; reflexivity) ltac:(vm_compute; reflexivity))
    as [(r & Hr & Hs) _].
  exists r. split; [exact Hr|]. rewrite Hs. vm_compute. reflexivity.
Defined.


(** ** C3: prepare-only runs of the MD pipeline *)

Section PrepareOnly.
Variables (w : world) (b : backend) (self : Md.MdPipeline).

Local Abbreviation quiet :=
  (Forall (fun ev => Queue.touches_queue ev = false)).

Lemma quiet_bind {A B} (m : M A) (f : A -> M B) :
  quiet (trace m) ->
  (forall a, result m = Returned a -> quiet (trace (f a))) ->
  quiet (trace (bind m f)).
Proof.
  intros Hm Hf. rewrite trace_bind. apply Forall_app. split; [done|].
  destruct (result m); [by apply Hf | constructor].
Qed.

Lemma quiet_emit_lift {A} (ev : event) (o : outcome A) :
  Queue.touches_queue ev = false -> quiet (trace (emit ev ;;; lift o)).
Proof. intros Hev. unfold bind, emit, lift, trace. simpl. by repeat constructor. Qed.

Lemma quiet_write_kpoints kpoints poscar k :
  quiet (trace (Md._write_kpoints w kpoints poscar k)).
Proof.
  unfold Md._write_kpoints, Utils.write.
  repeat (apply quiet_bind; [|intros ? _]);
    try (unfold lift, emit, trace; simpl; by repeat constructor).
Qed.

Lemma quiet_submit_prepare_only dir script :
  Md.prepare_only self = true ->
  Md._submit_job b self dir script = ret "prepare_only".
Proof. unfold Md._submit_job. by intros ->. Qed.

(** With [prepare_only] the MD step makes no call to the queue. *)
Lemma quiet_run_md :
  Md.prepare_only self = true ->
  quiet (trace (Md._run_md w b self)).
Proof.
  intros Hprep. unfold Md._run_md.
  apply quiet_bind; [by apply quiet_emit_lift | intros ? _].
  apply quiet_bind; [by apply quiet_emit_lift | intros ? _].
  apply quiet_bind.
  { unfold Md._write_md_incar. apply quiet_bind; [constructor|intros ? _].
    by repeat constructor. }
  intros ? _. apply quiet_bind; [apply quiet_write_kpoints | intros ? _].
  destruct (bool_decide _); [constructor|].
  apply quiet_bind.
  { unfold Md.prepare_potcar, bind, emit, ret, trace. simpl.
    by repeat constructor. }
  intros potcar_ok _. destruct (negb potcar_ok); [constructor|].
  apply quiet_bind; [by apply quiet_emit_lift | intros script _].
  rewrite quiet_submit_prepare_only by done.
  rewrite bind_ret_l, Hprep. constructor.
Qed.

Lemma quiet_execute_step name :
  Md.prepare_only self = true ->
  quiet (trace (Md.execute_step w b self name)).
Proof.
  intros Hprep. unfold Md.execute_step.
  destruct (bool_decide _); [by apply quiet_run_md | constructor].
Qed.

Lemma quiet_run_steps execute steps st :
  (forall name, quiet (trace (execute name))) ->
  quiet (Base.run_steps execute steps st).1.
Proof.
  intros Hexec. revert st. induction steps as [|name steps IH]; intros st.
  - constructor.
  - cbn [Base.run_steps]. destruct (bool_decide _); [apply IH|].
    destruct (match result (execute name) with
              | Returned b0 => b0
              | Raised _ => false
              end); cbn [fst].
    + constructor; [done|]. apply Forall_app. split; [apply Hexec | apply IH].
    + constructor; [done|]. apply Hexec.
Qed.

(** When the preparation goes through, the prepare-only MD step
    reports success. *)
Lemma run_md_prepared :
  Md.prepare_only self = true ->
  Queue.prepared w b self ->
  result (Md._run_md w b self) = Returned true.
Proof.
  intros Hprep (Hdir & Hposcar & Hincar & Hkpoints & Hmap & Hpotcar
                & script & Hscript).
  unfold Md._run_md, Call.mkdir, Md.ensure_poscar, Md._write_md_incar,
    Md._write_kpoints, Md.prepare_potcar, Md._write_job_script,
    Md._submit_job.
  rewrite Hdir, Hposcar, Hincar, Hkpoints, Hpotcar, Hscript, Hprep.
  rewrite bool_decide_eq_false_2 by done. reflexivity.
Qed.

End PrepareOnly.

(** C3, as the code has it: for every MD pipeline with [prepare_only]
    set, from every checkpoint, [run()] makes no call that submits a job,
    waits for one or checks one; the submit operation returns the
    sentinel handle [prepare_only] without any call; and when the
    preparation of the inputs goes through (and the step list is the
    default one), [run()] returns true after its one pass. *)
Theorem C3_prepare_only_never_reaches_queue
    (w : world) (b : backend) (self : Md.MdPipeline)
    (stored : gmap string Base.StepStatus) :
  Md.prepare_only self = true ->
  Forall (fun ev => Queue.touches_queue ev = false) (Md.run w b self stored).1
  /\ (forall dir script,
        Md._submit_job b self dir script = ret "prepare_only")
  /\ (Queue.prepared w b self -> Md.get_steps self = ["md"] ->
      (Md.run w b self stored).2.1 = true).
Proof.
  intros Hprep. split; [|split].
  - apply quiet_run_steps. intros name. by apply quiet_execute_step.
  - intros dir script. by apply quiet_submit_prepare_only.
  - intros Hok Hsteps. unfold Md.run, Base.run. rewrite Hsteps.
    cbn [Base.run_steps]. destruct (bool_decide _); [reflexivity|].
    unfold Md.execute_step. rewrite bool_decide_eq_true_2 by done.
    rewrite (run_md_prepared w b self Hprep Hok). reflexivity.
Qed.

Lemma C3_witness :
  Md.prepare_only (Sample.md_pipeline true {["Si" := "PBE"]}) = true
  /\ Forall (fun ev => Queue.touches_queue ev = false)
       (Md.run Runs.plain_world Sample.quiet_backend
          (Sample.md_pipeline true {["Si" := "PBE"]}) ∅).1.
Proof.
  split; [reflexivity|].
  exact (proj1 (C3_prepare_only_never_reaches_queue Runs.plain_world
                  Sample.quiet_backend
                  (Sample.md_pipeline true {["Si" := "PBE"]}) ∅ eq_refl)).
Defined.

(** C3 as stated fails: a prepare-only MD pipeline without a
    pseudopotential configuration does not return true; its only step
    fails, and [run()] returns false. *)
Lemma C3_counterexample :
  Md.prepare_only (Sample.md_pipeline true ∅) = true
  /\ result (Md._run_md Runs.plain_world Sample.quiet_backend
               (Sample.md_pipeline true ∅)) = Returned false
  /\ (Md.run Runs.plain_world Sample.quiet_backend
        (Sample.md_pipeline true ∅) ∅).2.1 = false.
Proof. repeat split; vm_compute; reflexivity. Qed.


(** ** C9: a run after a full success *)

Section Resume.
Import Base.
Implicit Types (st : pipeline_state) (steps : list string).

(** A step known as [SUCCESS] is recorded as such in the checkpoint. *)
Local Abbreviation recorded st :=
  (forall name, statuses st !! name = Some SUCCESS ->
                checkpoint st !! name = Some SUCCESS).

Lemma seed_recorded steps stored : recorded (seed steps stored).
Proof.
  intros name H. cbn [seed statuses checkpoint] in *.
  apply elem_of_list_to_map_2 in H.
  apply list_elem_of_fmap in H as (n & [= -> Hs] & _).
  destruct (bool_decide (stored !! n = Some SUCCESS)) eqn:Hd; [|done].
  by apply bool_decide_eq_true in Hd.
Qed.

Lemma run_steps_recorded execute steps st :
  recorded st -> recorded (run_steps execute steps st).2.2.
Proof.
  revert st. induction steps as [|name steps IH]; intros st Hst; [done|].
  cbn [run_steps]. destruct (bool_decide _).
  { apply IH. intros n. cbn [set_status statuses checkpoint].
    destruct (decide (name = n)) as [->|Hne].
    - by rewrite lookup_insert_eq.
    - rewrite lookup_insert_ne by done. apply Hst. }
  destruct (match result (execute name) with
            | Returned b => b
            | Raised _ => false
            end); cbn [snd].
  - apply IH. intros n. cbn [save set_status statuses checkpoint].
    destruct (decide (name = n)) as [->|Hne].
    + by rewrite !lookup_insert_eq.
    + rewrite !lookup_insert_ne by done. apply Hst.
  - intros n. cbn [save set_status statuses checkpoint].
    destruct (decide (name = n)) as [->|Hne].
    + by rewrite !lookup_insert_eq.
    + rewrite !lookup_insert_ne by done. apply Hst.
Qed.

(** When the checkpoint records every step as [SUCCESS], a run invokes
    no executor, marks every step [SKIPPED] and returns true. *)
Lemma run_steps_all_recorded execute steps st :
  (forall name, name ∈ steps -> checkpoint st !! name = Some SUCCESS) ->
  (run_steps execute steps st).1 = []
  /\ (run_steps execute steps st).2.1 = true
  /\ (forall name, name ∈ steps ->
        statuses (run_steps execute steps st).2.2 !! name = Some SKIPPED)
  /\ (forall name, statuses st !! name = Some SKIPPED ->
        statuses (run_steps execute steps st).2.2 !! name = Some SKIPPED).
Proof.
  revert st. induction steps as [|name steps IH]; intros st Hall.
  - repeat split; [|done]. intros name H. by inversion H.
  - cbn [run_steps]. rewrite bool_decide_eq_true_2
      by (apply Hall; constructor).
    destruct (IH (set_status name SKIPPED st)) as (Ht & Hok & Hin & Hkeep).
    { intros n Hn. cbn [set_status checkpoint]. apply Hall.
      by constructor. }
    split; [done|]. split; [done|]. split.
    + intros n Hn. apply elem_of_cons in Hn as [->|Hn]; [|by apply Hin].
      apply Hkeep. cbn [set_status statuses]. by rewrite lookup_insert_eq.
    + intros n Hn. apply Hkeep. cbn [set_status statuses].
      destruct (decide (name = n)) as [->|Hne].
      * by rewrite lookup_insert_eq.
      * by rewrite lookup_insert_ne.
Qed.

End Resume.

(** C9: when the previous run of a pipeline left every step with the
    status [SUCCESS], invoking [run()] again on the checkpoint that run
    left behind invokes no step executor (whatever the executors would
    do), marks every step [SKIPPED] and returns true. *)
Theorem C9_rerun_after_success_skips_every_step
    (first_executor second_executor : string -> M bool) (steps : list string)
    (stored : gmap string Base.StepStatus) :
  (forall name, name ∈ steps ->
     Base.statuses (Base.run first_executor steps stored).2.2 !! name
     = Some Base.SUCCESS) ->
  let rerun :=
    Base.run second_executor steps
      (Base.checkpoint (Base.run first_executor steps stored).2.2) in
  rerun.1 = []
  /\ rerun.2.1 = true
  /\ forall name, name ∈ steps ->
       Base.statuses rerun.2.2 !! name = Some Base.SKIPPED.
Proof.
  intros Hall rerun. subst rerun. unfold Base.run at 1 3 5.
  destruct (run_steps_all_recorded second_executor steps
              (Base.seed steps
                 (Base.checkpoint (Base.run first_executor steps stored).2.2)))
    as (Ht & Hok & Hin & _); [|done].
  intros name Hname. cbn [Base.seed Base.checkpoint].
  apply (run_steps_recorded first_executor steps (Base.seed steps stored)
           (seed_recorded steps stored)).
  by apply Hall.
Qed.

Lemma C9_witness :
  (Base.run (fun _ => raise (Utils.ValueError "unused")) ["relax"; "scf"]
     (Base.checkpoint
        (Base.run (fun _ => ret true) ["relax"; "scf"] ∅).2.2)).1 = []
  /\ (Base.run (fun _ => raise (Utils.ValueError "unused")) ["relax"; "scf"]
        (Base.checkpoint
           (Base.run (fun _ => ret true) ["relax"; "scf"] ∅).2.2)).2.1 = true.
Proof.
  destruct (C9_rerun_after_success_skips_every_step (fun _ => ret true)
              (fun _ => raise (Utils.ValueError "unused")) ["relax"; "scf"] ∅)
    as (Ht & Hok & _); [|by split].
  intros name Hname.
  apply elem_of_cons in Hname as [->|Hname]; [vm_compute; reflexivity|].
  apply elem_of_cons in Hname as [->|Hname]; [vm_compute; reflexivity|].
  by inversion Hname.
Defined.


(** ** C10: the k-point mesh *)

Section Mesh.
Variable w : world.

Lemma mesh_count_ge_1 (b : list float) (kspacing : float) (n : Z) :
  result (Utils.mesh_count b kspacing) = Returned n -> (1 <= n)%Z.
Proof.
  unfold Utils.mesh_count. intros H.
  inv_bind H. inv_bind H. inv_bind H. injection H as <-. lia.
Qed.

Lemma mesh_of_lattice_ge_1 a1 a2 a3 kspacing (mesh : Z * Z * Z) :
  result (Utils.mesh_of_lattice a1 a2 a3 kspacing) = Returned mesh ->
  (1 <= mesh.1.1 /\ 1 <= mesh.1.2 /\ 1 <= mesh.2)%Z.
Proof.
  unfold Utils.mesh_of_lattice. intros H. inv_bind H.
  destruct (PrimFloat.ltb _ _); [discriminate H|].
  inv_bind H. inv_bind H. inv_bind H. inv_bind H.
  inv_bind H. inv_bind H. inv_bind H. injection H as <-. cbn [fst snd].
  repeat split; eapply mesh_count_ge_1; eassumption.
Qed.

(** A cell whose volume is below the threshold yields no mesh. *)
Lemma mesh_of_lattice_flat a1 a2 a3 kspacing vol :
  result (Utils.cell_volume a1 a2 a3) = Returned vol ->
  PrimFloat.ltb (PrimFloat.abs vol) 1e-8 = true ->
  exists e, result (Utils.mesh_of_lattice a1 a2 a3 kspacing) = Raised e.
Proof.
  intros Hvol Hflat. unfold Utils.mesh_of_lattice.
  erewrite result_bind_returned by eassumption. rewrite Hflat.
  by eexists.
Qed.

(** A lattice vector with fewer than three components has no volume. *)
Lemma cell_volume_short a1 a2 a3 :
  length a1 < 3 \/ length a2 < 3 \/ length a3 < 3 ->
  result (Utils.cell_volume a1 a2 a3) = Raised Utils.IndexError.
Proof.
  intros H. unfold Utils.cell_volume, Utils.cross, Utils.dot.
  destruct a2 as [|? [|? [|? ?]]]; try reflexivity.
  destruct a3 as [|? [|? [|? ?]]]; try reflexivity.
  destruct a1 as [|? [|? [|? ?]]]; try reflexivity.
  simpl in H. lia.
Qed.

End Mesh.

(** C10: for every world, every POSCAR path and every k-spacing (the
    positive ones among them), [kspacing_to_mesh] returns, without
    raising, three integers that are each at least 1; it returns (1, 1, 1)
    whenever reading and parsing the lattice from the file raises,
    whenever a lattice vector has fewer than three components, and
    whenever the magnitude of the cell volume is below 1e-8. *)
Theorem C10_mesh_is_positive_and_falls_back
    (w : world) (poscar_file : string) (kspacing : float) :
  ((1 <= (Utils.kspacing_to_mesh w poscar_file kspacing).1.1)%Z
   /\ (1 <= (Utils.kspacing_to_mesh w poscar_file kspacing).1.2)%Z
   /\ (1 <= (Utils.kspacing_to_mesh w poscar_file kspacing).2)%Z)
  /\ (forall e,
        result (Utils.read_lattice w poscar_file) = Raised e ->
        Utils.kspacing_to_mesh w poscar_file kspacing = (1, 1, 1)%Z)
  /\ (forall a1 a2 a3,
        result (Utils.read_lattice w poscar_file) = Returned (a1, a2, a3) ->
        length a1 < 3 \/ length a2 < 3 \/ length a3 < 3 ->
        Utils.kspacing_to_mesh w poscar_file kspacing = (1, 1, 1)%Z)
  /\ (forall a1 a2 a3 vol,
        result (Utils.read_lattice w poscar_file) = Returned (a1, a2, a3) ->
        result (Utils.cell_volume a1 a2 a3) = Returned vol ->
        PrimFloat.ltb (PrimFloat.abs vol) 1e-8 = true ->
        Utils.kspacing_to_mesh w poscar_file kspacing = (1, 1, 1)%Z).
Proof.
  unfold Utils.kspacing_to_mesh. split; [|split; [|split]].
  - destruct (result (_ <- Utils.read_lattice w poscar_file ;; _))
      as [mesh|e] eqn:H; [|simpl; lia].
    inv_bind H. by eapply mesh_of_lattice_ge_1.
  - intros e He. by erewrite result_bind_raised by eassumption.
  - intros a1 a2 a3 Hread Hshort.
    erewrite result_bind_returned by eassumption. cbn [fst snd].
    unfold Utils.mesh_of_lattice.
    erewrite result_bind_raised by (by apply cell_volume_short). reflexivity.
  - intros a1 a2 a3 vol Hread Hvol Hflat.
    erewrite result_bind_returned by eassumption. cbn [fst snd].
    destruct (mesh_of_lattice_flat a1 a2 a3 kspacing vol Hvol Hflat)
      as [e ->]. reflexivity.
Qed.


(** ** C7: exit codes *)

Section Flow.
Context {A B : Type}.
Implicit Types (m : M (Cli.flow A)) (f : A -> M (Cli.flow B)).

Lemma result_bindF_go m f a :
  result m = Returned (Cli.Go a) -> result (Cli.bindF m f) = result (f a).
Proof. intros H. unfold Cli.bindF. erewrite result_bind_returned by eassumption; done. Qed.

Lemma result_bindF_exit m f c :
  result m = Returned (Cli.SysExit c) ->
  result (Cli.bindF m f) = Returned (Cli.SysExit c).
Proof. intros H. unfold Cli.bindF. erewrite result_bind_returned by eassumption; done. Qed.

Lemma result_bindF_raised m f e :
  result m = Raised e -> result (Cli.bindF m f) = Raised e.
Proof. intros H. unfold Cli.bindF. erewrite result_bind_raised by eassumption; done. Qed.

Lemma result_liftF_returned (m : M A) a :
  result m = Returned a -> result (Cli.liftF m) = Returned (Cli.Go a).
Proof. intros H. unfold Cli.liftF. erewrite result_bind_returned by eassumption; done. Qed.

Lemma result_liftF_raised (m : M A) e :
  result m = Raised e -> result (Cli.liftF m) = Raised e.
Proof. intros H. unfold Cli.liftF. erewrite result_bind_raised by eassumption; done. Qed.

(** A step that goes on went on from a value. *)
Lemma bindF_go_inv m f b :
  result (Cli.bindF m f) = Returned (Cli.Go b) ->
  exists a, result m = Returned (Cli.Go a) /\ result (f a) = Returned (Cli.Go b).
Proof.
  unfold Cli.bindF. intros H. inv_bind H.
  destruct a as [a|c]; [eauto | discriminate H].
Qed.

Lemma liftF_go_inv (m : M A) a :
  result (Cli.liftF m) = Returned (Cli.Go a) -> result m = Returned a.
Proof.
  unfold Cli.liftF. intros H. inv_bind H. by injection H as <-.
Qed.

Lemma bindF_exit_inv m f c :
  result (Cli.bindF m f) = Returned (Cli.SysExit c) ->
  result m = Returned (Cli.SysExit c)
  \/ exists a, result m = Returned (Cli.Go a)
               /\ result (f a) = Returned (Cli.SysExit c).
Proof.
  unfold Cli.bindF. intros H. inv_bind H.
  destruct a as [a|c']; [right; eauto | left].
  by injection H as ->.
Qed.

Lemma liftF_exit_inv (m : M A) c :
  result (Cli.liftF m) = Returned (Cli.SysExit c) -> False.
Proof. unfold Cli.liftF. intros H. inv_bind H. discriminate H. Qed.

End Flow.

Section ExitCodes.
Variable w : world.
Implicit Types (s : Cli.setup) (args : dict) (p : float).

Lemma exit_code_of_result {A} (m m' : M (Cli.flow A)) :
  result m = result m' -> Cli.exit_code m = Cli.exit_code m'.
Proof. unfold Cli.exit_code. by intros ->. Qed.

Lemma for_each_go {X} (body : X -> M (Cli.flow unit)) (l : list X) :
  result (Cli.for_each body l) = Returned (Cli.Go tt) <->
  forall x, x ∈ l -> result (body x) = Returned (Cli.Go tt).
Proof.
  induction l as [|x l IH]; cbn [Cli.for_each].
  - split; [intros _ x Hx; by inversion Hx | done].
  - split.
    + intros H. apply bindF_go_inv in H as ([] & Hx & Hl).
      intros y Hy. apply elem_of_cons in Hy as [->|Hy]; [done|].
      by apply IH.
    + intros H. erewrite result_bindF_go by (apply H; constructor).
      apply IH. intros y Hy. apply H. by constructor.
Qed.

Lemma for_each_first_exit {X} (body : X -> M (Cli.flow unit)) x l c :
  result (body x) = Returned (Cli.SysExit c) ->
  result (Cli.for_each body (x :: l)) = Returned (Cli.SysExit c).
Proof. intros H. cbn [Cli.for_each]. erewrite result_bindF_exit by eassumption; done. Qed.

Lemma for_each_first_raised {X} (body : X -> M (Cli.flow unit)) x l e :
  result (body x) = Raised e ->
  result (Cli.for_each body (x :: l)) = Raised e.
Proof. intros H. cbn [Cli.for_each]. erewrite result_bindF_raised by eassumption; done. Qed.

Lemma for_each_exit {X} (body : X -> M (Cli.flow unit)) (l : list X) c :
  (forall x c', result (body x) = Returned (Cli.SysExit c') -> c' = 1%Z) ->
  result (Cli.for_each body l) = Returned (Cli.SysExit c) -> c = 1%Z.
Proof.
  intros Hbody. induction l as [|x l IH]; cbn [Cli.for_each]; [discriminate|].
  intros H. apply bindF_exit_inv in H as [H | (a & _ & H)]; eauto.
Qed.

(** The guarded part of a command: its exit code is 0 exactly when the
    body runs to its end, and 1 when the body raises. *)
Lemma exit_code_guarded (body : M (Cli.flow unit)) :
  Cli.exit_code (try_except body (fun _ => Cli.sys_exit 1))
  = match result body with
    | Returned (Cli.Go _) => 0
    | Returned (Cli.SysExit c) => c
    | Raised _ => 1
    end%Z.
Proof.
  unfold Cli.exit_code. destruct (result body) as [[|]|] eqn:H.
  - erewrite result_try_returned by eassumption; done.
  - erewrite result_try_returned by eassumption; done.
  - erewrite result_try_raised by eassumption; done.
Qed.

(** One turn of the loop of [command_relax] on a single file. *)
Lemma relax_turn_single s p max_workers :
  result (Cli.relax_turn w (Cli.final_config s) (Cli.input_path s)
            (Cli.structure_exts s) (Cli.pressures s) (Cli.base_root s)
            false max_workers p) = Returned (Cli.Go tt) ->
  result (Exit.single_run w s p) = Returned true.
Proof.
  unfold Cli.relax_turn, Exit.single_run. intros H.
  apply bindF_go_inv in H as (kw & Hkw & H). apply liftF_go_inv in Hkw.
  apply bindF_go_inv in H as ([] & Hdir & H). apply liftF_go_inv in Hdir.
  apply bindF_go_inv in H as (pipeline & Hcall & H).
  apply liftF_go_inv in Hcall.
  apply bindF_go_inv in H as (ok & Hrun & H). apply liftF_go_inv in Hrun.
  destruct ok; [|discriminate H].
  erewrite result_bind_returned by eassumption.
  erewrite result_bind_returned by eassumption.
  erewrite result_bind_returned by eassumption. exact Hrun.
Qed.

(** A turn leaves through [sys.exit(1)] or not at all. *)
Lemma relax_turn_exit final_config input exts ps root batch max_workers p c :
  result (Cli.relax_turn w final_config input exts ps root batch
            max_workers p) = Returned (Cli.SysExit c) -> c = 1%Z.
Proof.
  unfold Cli.relax_turn. intros H.
  apply bindF_exit_inv in H as [H | (kw & _ & H)];
    [by apply liftF_exit_inv in H|].
  destruct batch.
  - destruct (Cli.scan_structure_files _ _ _); [by injection H as <-|].
    apply bindF_exit_inv in H as [H | (mw & _ & H)];
      [by apply liftF_exit_inv in H|].
    apply bindF_exit_inv in H as [H | (results & _ & H)];
      by apply liftF_exit_inv in H.
  - apply bindF_exit_inv in H as [H | ([] & _ & H)];
      [by apply liftF_exit_inv in H|].
    apply bindF_exit_inv in H as [H | (pipeline & _ & H)];
      [by apply liftF_exit_inv in H|].
    apply bindF_exit_inv in H as [H | (ok & _ & H)];
      [by apply liftF_exit_inv in H|].
    destruct ok; [discriminate H | by injection H as <-].
Qed.

(** One turn of the loop on a directory in which no structure file is
    found: the turn does not go on. *)
Lemma relax_turn_nothing_found s p max_workers :
  Exit.found w s = [] ->
  result (Cli.relax_turn w (Cli.final_config s) (Cli.input_path s)
            (Cli.structure_exts s) (Cli.pressures s) (Cli.base_root s)
            true max_workers p) = Returned (Cli.SysExit 1)
  \/ exists e,
       result (Cli.relax_turn w (Cli.final_config s) (Cli.input_path s)
                 (Cli.structure_exts s) (Cli.pressures s) (Cli.base_root s)
                 true max_workers p) = Raised e.
Proof.
  unfold Exit.found, Cli.relax_turn. intros Hnone.
  destruct (result (Cli.relax_kwargs (Cli.final_config s) p)) as [kw|e] eqn:Hkw.
  - left. erewrite result_bindF_go by (by apply result_liftF_returned).
    by rewrite Hnone.
  - right. exists e.
    erewrite result_bindF_raised by (by apply result_liftF_raised). done.
Qed.

Lemma relax_kwargs_typed s p :
  Exit.well_typed s ->
  exists kw, Cli.relax_kwargs (Cli.final_config s) p = ret kw.
Proof.
  intros [_ [pd Hpd]]. unfold Cli.relax_kwargs. rewrite Hpd, bind_ret_l.
  by eexists.
Qed.

Lemma as_int_typed s :
  Exit.well_typed s ->
  exists n, Cli.as_int (Py.or_ (Cli.tasks s) (VInt 1)) = ret n.
Proof.
  intros [[-> | [n ->]] _]; [by eexists|].
  unfold Py.or_. destruct (Py.truthy _); by eexists.
Qed.

(** One turn of the loop on a directory with structure files: the
    matrix is scheduled and the turn goes on, whatever the results. *)
Lemma relax_turn_batch s p :
  Exit.well_typed s ->
  Exit.found w s ≠ [] ->
  result (Cli.relax_turn w (Cli.final_config s) (Cli.input_path s)
            (Cli.structure_exts s) (Cli.pressures s) (Cli.base_root s)
            true (Py.or_ (Cli.tasks s) (VInt 1)) p) = Returned (Cli.Go tt).
Proof.
  intros Htyped Hfound. destruct (relax_kwargs_typed s p Htyped) as [kw Hkw].
  destruct (as_int_typed s Htyped) as [n Hn].
  unfold Cli.relax_turn. rewrite Hkw.
  erewrite result_bindF_go by (by apply result_liftF_returned).
  unfold Exit.found in Hfound.
  destruct (Cli.scan_structure_files _ _ _) as [|f files] eqn:Hscan; [done|].
  rewrite Hn.
  erewrite result_bindF_go by (by apply result_liftF_returned).
  erewrite result_bindF_go.
  2:{ apply result_liftF_returned.
      apply (_run_matrix_tasks_results w). by eexists. }
  reflexivity.
Qed.

Lemma tasks_gt_one_typed s :
  Exit.well_typed s -> exists b, Cli.tasks_gt_one (Cli.tasks s) = ret b.
Proof. intros [[-> | [n ->]] _]; by eexists. Qed.

End ExitCodes.


Section Commands.
Variable w : world.
Implicit Types (s : Cli.setup) (args : dict) (p : float).

(** An unreadable JSON configuration ends the setup with [sys.exit(1)]. *)
Lemma read_setup_json_unreadable args json_file :
  Py.truthy (Py.get args "json") = true ->
  result (Call.Path (Py.get args "json")) = Returned json_file ->
  json_load w json_file = None ->
  result (Cli.read_setup w args) = Returned (Cli.SysExit 1).
Proof.
  intros Hjson Hpath Hload. unfold Cli.read_setup.
  apply result_bindF_exit. unfold Cli.load_final_config. rewrite Hjson.
  apply result_bindF_exit.
  erewrite result_bindF_go by (by apply result_liftF_returned).
  unfold Cli.load_json_config. by rewrite Hload.
Qed.

Lemma command_relax_after_setup args s :
  result (Cli.read_setup w args) = Returned (Cli.Go s) ->
  Cli.exit_code (Cli.command_relax w args)
  = match result (Cli.tasks_gt_one (Cli.tasks s)) with
    | Raised _ => 1
    | Returned _ =>
        match result (Cli.for_each
                        (Cli.relax_turn w (Cli.final_config s)
                           (Cli.input_path s) (Cli.structure_exts s)
                           (Cli.pressures s) (Cli.base_root s)
                           (Cli.is_batch s) (Py.or_ (Cli.tasks s) (VInt 1)))
                        (Cli.pressures s)) with
        | Returned (Cli.Go _) => 0
        | Returned (Cli.SysExit c) => c
        | Raised _ => 1
        end
    end%Z.
Proof.
  intros Hs. unfold Cli.command_relax.
  destruct (result (Cli.tasks_gt_one (Cli.tasks s))) as [b|e] eqn:Hb.
  - rewrite <- exit_code_guarded. apply exit_code_of_result.
    erewrite result_bindF_go by eassumption.
    erewrite result_bindF_go by (by apply result_liftF_returned). done.
  - unfold Cli.exit_code. erewrite result_bindF_go by eassumption.
    erewrite result_bindF_raised by (by apply result_liftF_raised). done.
Qed.

(** A single-file [relax] whose pipeline fails for some pressure does
    not exit with 0. *)
Lemma command_relax_single_failure args s p :
  result (Cli.read_setup w args) = Returned (Cli.Go s) ->
  Cli.is_batch s = false ->
  p ∈ Cli.pressures s ->
  result (Exit.single_run w s p) ≠ Returned true ->
  Cli.exit_code (Cli.command_relax w args) = 1%Z.
Proof.
  intros Hs Hsingle Hp Hfail. rewrite (command_relax_after_setup args s Hs).
  destruct (result (Cli.tasks_gt_one _)); [|done]. rewrite Hsingle.
  destruct (result (Cli.for_each _ _)) as [[[]|c]|e] eqn:Hloop; [|clear Hfail|done].
  - exfalso. apply Hfail. apply (relax_turn_single w s p (Py.or_ (Cli.tasks s) (VInt 1))).
    by eapply for_each_go.
  - eapply for_each_exit; [|exact Hloop].
    intros q c'. apply relax_turn_exit.
Qed.

(** A batch [relax] that finds no structure file exits with 1. *)
Lemma command_relax_nothing_found args s :
  result (Cli.read_setup w args) = Returned (Cli.Go s) ->
  Cli.is_batch s = true ->
  Cli.pressures s ≠ [] ->
  Exit.found w s = [] ->
  Cli.exit_code (Cli.command_relax w args) = 1%Z.
Proof.
  intros Hs Hbatch Hps Hnone. rewrite (command_relax_after_setup args s Hs).
  destruct (result (Cli.tasks_gt_one _)); [|done]. rewrite Hbatch.
  destruct (Cli.pressures s) as [|p l] eqn:Hl; [done|]. rewrite <- Hl at 1.
  destruct (relax_turn_nothing_found w s p (Py.or_ (Cli.tasks s) (VInt 1))
              Hnone) as [H | [e H]].
  - by erewrite for_each_first_exit.
  - by erewrite for_each_first_raised.
Qed.

(** A batch [relax] that schedules its matrix exits with 0, whatever
    the results of the units. *)
Lemma command_relax_batch_scheduled args s :
  result (Cli.read_setup w args) = Returned (Cli.Go s) ->
  Cli.is_batch s = true ->
  Exit.well_typed s ->
  Exit.found w s ≠ [] ->
  Cli.exit_code (Cli.command_relax w args) = 0%Z.
Proof.
  intros Hs Hbatch Htyped Hfound.
  rewrite (command_relax_after_setup args s Hs).
  destruct (tasks_gt_one_typed s Htyped) as [b ->]. cbn [result ret snd].
  rewrite Hbatch.
  replace (result (Cli.for_each _ _)) with (Returned (Cli.Go tt)); [done|].
  symmetry. apply for_each_go. intros p _. by apply relax_turn_batch.
Qed.

End Commands.


Section ComboCommand.
Variable w : world.
Implicit Types (s : Cli.setup) (args : dict).

Lemma exit_code_bindF_go {A B} (m : M (Cli.flow A)) (f : A -> M (Cli.flow B)) a :
  result m = Returned (Cli.Go a) ->
  Cli.exit_code (Cli.bindF m f) = Cli.exit_code (f a).
Proof. intros H. apply exit_code_of_result. by apply result_bindF_go. Qed.

Lemma exit_code_bindF_raised {A B} (m : M (Cli.flow A))
    (f : A -> M (Cli.flow B)) e :
  result m = Raised e -> Cli.exit_code (Cli.bindF m f) = 1%Z.
Proof.
  intros H. unfold Cli.exit_code.
  erewrite result_bindF_raised by eassumption. done.
Qed.

Lemma exit_code_bindF_exit {A B} (m : M (Cli.flow A))
    (f : A -> M (Cli.flow B)) c :
  result m = Returned (Cli.SysExit c) -> Cli.exit_code (Cli.bindF m f) = c.
Proof.
  intros H. unfold Cli.exit_code.
  erewrite result_bindF_exit by eassumption. done.
Qed.

(** [bindF] on a lifted computation: go on when it returns, exit code 1
    when it raises. *)
Lemma exit_code_bindF_liftF {A B} (m : M A) (f : A -> M (Cli.flow B)) :
  Cli.exit_code (Cli.bindF (Cli.liftF m) f)
  = match result m with
    | Returned a => Cli.exit_code (f a)
    | Raised _ => 1%Z
    end.
Proof.
  destruct (result m) as [a|e] eqn:H.
  - apply exit_code_bindF_go. by apply result_liftF_returned.
  - eapply exit_code_bindF_raised. by apply result_liftF_raised.
Qed.

(** A list of names is joined. *)
Lemma join_modules_names (names : list string) :
  Cli.join_modules (VList (VStr <$> names)) = ret tt.
Proof.
  unfold Cli.join_modules.
  assert (forall i, Cli.first_non_str i (VStr <$> names) = None) as ->; [|done].
  induction names as [|name names IH]; intros i; [done|]. apply IH.
Qed.

(** A [combo] without modules exits with 1. *)
Lemma command_combo_no_modules args s :
  result (Cli.read_setup w args) = Returned (Cli.Go s) ->
  Py.truthy (Py.get args "modules") = false ->
  Cli.exit_code (Cli.command_combo w args) = 1%Z.
Proof.
  intros Hs Hnone. unfold Cli.command_combo.
  rewrite exit_code_bindF_liftF.
  destruct (result (Cli.join_modules _)); [|done].
  erewrite exit_code_bindF_go by eassumption.
  rewrite exit_code_bindF_liftF. destruct (result (Cli.as_int _)); [|done].
  by rewrite Hnone.
Qed.

(** A batch [combo] that finds no structure file exits with 1. *)
Lemma command_combo_nothing_found args s :
  result (Cli.read_setup w args) = Returned (Cli.Go s) ->
  Cli.is_batch s = true ->
  Exit.found w s = [] ->
  Cli.exit_code (Cli.command_combo w args) = 1%Z.
Proof.
  intros Hs Hbatch Hnone. unfold Cli.command_combo.
  rewrite exit_code_bindF_liftF.
  destruct (result (Cli.join_modules _)); [|done].
  erewrite exit_code_bindF_go by eassumption.
  rewrite exit_code_bindF_liftF. destruct (result (Cli.as_int _)); [|done].
  destruct (negb _); [done|].
  rewrite exit_code_bindF_liftF.
  destruct (result (Cli.as_modules _)); [|done].
  rewrite Hbatch. unfold Exit.found in Hnone. rewrite Hnone.
  by erewrite exit_code_bindF_exit.
Qed.

(** A batch [combo] that schedules its matrix exits with 0, whatever
    the results of the units. *)
Lemma command_combo_batch_scheduled args s (names : list string) :
  result (Cli.read_setup w args) = Returned (Cli.Go s) ->
  Cli.is_batch s = true ->
  Exit.well_typed s ->
  Py.get args "modules" = VList (VStr <$> names) -> names ≠ [] ->
  Exit.found w s ≠ [] ->
  Cli.exit_code (Cli.command_combo w args) = 0%Z.
Proof.
  intros Hs Hbatch Htyped Hmods Hnames Hfound. unfold Cli.command_combo.
  rewrite Hmods, exit_code_bindF_liftF, join_modules_names.
  cbn [result ret snd].
  erewrite exit_code_bindF_go by eassumption.
  destruct (as_int_typed s Htyped) as [n ->].
  rewrite exit_code_bindF_liftF. cbn [result ret snd].
  destruct names as [|name names]; [done|]. cbn [fmap list_fmap Py.truthy negb].
  rewrite exit_code_bindF_liftF. cbn [Cli.as_modules result ret snd].
  rewrite Hbatch. unfold Exit.found in Hfound.
  destruct (Cli.scan_structure_files _ _ _) as [|f files]; [done|].
  erewrite exit_code_bindF_go by reflexivity.
  rewrite exit_code_guarded.
  erewrite result_bindF_go.
  2:{ apply result_liftF_returned. by apply (_run_matrix_tasks_results w). }
  reflexivity.
Qed.

End ComboCommand.

(** C7, as the code has it by design, for the [relax] and the [combo]
    command.  Either command exits with a non-zero code when a fatal
    configuration error occurs before scheduling: the JSON configuration
    cannot be read, a batch invocation finds no structure file, or a
    combo has no module.  A single-file [relax] exits with a non-zero
    code when the pipeline fails for some pressure.  A batch [relax] and
    a batch [combo] exit with 0 once the task matrix has been scheduled,
    whatever the number of failed units.  (The exit code of a
    single-file [combo] is not part of the statement.) *)
Theorem C7_exit_codes (w : world) (args : dict) :
  (forall json_file,
     Py.truthy (Py.get args "json") = true ->
     result (Call.Path (Py.get args "json")) = Returned json_file ->
     json_load w json_file = None ->
     Cli.exit_code (Cli.command_relax w args) = 1%Z
     /\ Cli.exit_code (Cli.command_combo w args) = 1%Z)
  /\ (forall s,
        result (Cli.read_setup w args) = Returned (Cli.Go s) ->
        (Cli.is_batch s = false ->
         forall p, p ∈ Cli.pressures s ->
                   result (Exit.single_run w s p) ≠ Returned true ->
                   Cli.exit_code (Cli.command_relax w args) = 1%Z)
        /\ (Cli.is_batch s = true -> Cli.pressures s ≠ [] ->
            Exit.found w s = [] ->
            Cli.exit_code (Cli.command_relax w args) = 1%Z)
        /\ (Cli.is_batch s = true -> Exit.well_typed s ->
            Exit.found w s ≠ [] ->
            Cli.exit_code (Cli.command_relax w args) = 0%Z)
        /\ (Py.truthy (Py.get args "modules") = false ->
            Cli.exit_code (Cli.command_combo w args) = 1%Z)
        /\ (Cli.is_batch s = true -> Exit.found w s = [] ->
            Cli.exit_code (Cli.command_combo w args) = 1%Z)
        /\ (forall names,
              Cli.is_batch s = true -> Exit.well_typed s ->
              Py.get args "modules" = VList (VStr <$> names) -> names ≠ [] ->
              Exit.found w s ≠ [] ->
              Cli.exit_code (Cli.command_combo w args) = 0%Z)).
Proof.
  split.
  - intros json_file Hjson Hpath Hload.
    pose proof (read_setup_json_unreadable w args json_file Hjson Hpath Hload)
      as Hexit.
    split.
    + unfold Cli.command_relax. by erewrite exit_code_bindF_exit.
    + unfold Cli.command_combo. rewrite exit_code_bindF_liftF.
      destruct (result (Cli.join_modules _)); [|done].
      by erewrite exit_code_bindF_exit.
  - intros s Hs. repeat split.
    + intros. by eapply command_relax_single_failure.
    + intros. by eapply command_relax_nothing_found.
    + intros. by eapply command_relax_batch_scheduled.
    + intros. by eapply command_combo_no_modules.
    + intros. by eapply command_combo_nothing_found.
    + intros. by eapply command_combo_batch_scheduled.
Qed.

(** C7 as stated fails: a batch [relax] whose only unit fails, and a
    [combo] whose only unit fails at the relax stage, both report one
    failure and exit with 0. *)
Lemma C7_counterexample :
  (Cli.reported_failures (trace (Cli.command_relax Runs.plain_world
                                   Runs.relax_batch_args)) = 1
   /\ Cli.exit_code (Cli.command_relax Runs.plain_world Runs.relax_batch_args)
      = 0%Z)
  /\ (Cli.reported_failures (trace (Cli.command_combo Runs.failing_relax_world
                                      Runs.combo_args)) = 1
      /\ Cli.exit_code (Cli.command_combo Runs.failing_relax_world
                          Runs.combo_args) = 0%Z).
Proof. repeat split; vm_compute; reflexivity. Qed.

(** The other side of C7, on one file: the pipeline fails and the
    command exits with 1. *)
Example command_relax_single_failure_example :
  Cli.exit_code (Cli.command_relax Runs.failing_relax_world
                   Runs.relax_single_args) = 1%Z.
Proof. vm_compute. reflexivity. Qed.


(** ** C8: the batch run and its summary report *)

(** The constructor of the sample batch finds the one structure file. *)
Example md_batch_init :
  result (Batch.init Runs.blocked_world
            (Sample.uniform "MdPipeline" (Returned true)) "structs" "/work"
            None false 2 None None)
  = Returned (Runs.md_batch false).
Proof. vm_compute. reflexivity. Qed.

(** C8 fails on the code.  When the working directory of a unit cannot be
    made, the serial batch records the unit as failed with an error but
    without its [work_dir]; when the pool of worker processes breaks, the
    parallel batch builds such a record in its own [except] clause.  In
    both cases the summary report stops at that record with a [KeyError]
    for the key [work_dir], and [BatchPipeline.run] raises instead of
    finishing. *)
Theorem C8_batch_run_raises_on_record_without_work_dir :
  (exists r,
     result (Batch._run_serial Runs.blocked_world (Runs.md_batch false))
     = Returned [r]
     /\ r !! "success" = Some (VBool false)
     /\ r !! "error" = Some (VStr "[Errno 17] File exists: '/work/a'")
     /\ r !! "work_dir" = None)
  /\ result (Batch.run Runs.blocked_world (Runs.md_batch false))
     = Raised (Py.KeyError "work_dir")
  /\ (exists r,
        result (Batch._run_parallel Runs.broken_pool_world (Runs.md_batch true))
        = Returned [r]
        /\ r !! "success" = Some (VBool false)
        /\ r !! "work_dir" = None)
  /\ result (Batch.run Runs.broken_pool_world (Runs.md_batch true))
     = Raised (Py.KeyError "work_dir").
Proof.
  split; [eexists; split; [vm_compute; reflexivity | repeat split]|].
  split; [vm_compute; reflexivity|].
  split; [eexists; split; [vm_compute; reflexivity | repeat split]|].
  vm_compute. reflexivity.
Qed.

(** What is on disk when the run raises: the header of the report and the
    first line of the record, nothing about its directory or status. *)
Example C8_partial_report :
  omap (fun ev => match ev with
                  | EvFileWrite "/work/batch_summary.txt" chunk => Some chunk
                  | _ => None
                  end)
    (drop 10 (trace (Batch.run Runs.blocked_world (Runs.md_batch false))))
  = ["1. a" +:+ Utils.nl].
Proof. vm_compute. reflexivity. Qed.


(** ** The commands and the mesh on concrete inputs *)

(** The exit codes on a directory of structures: the theorem on exit
    codes applies to the batch [relax] of the sample world. *)
Lemma C7_witness :
  Cli.exit_code (Cli.command_relax Runs.plain_world Runs.relax_batch_args)
  = 0%Z.
Proof.
  refine (proj1 (proj2 (proj2
    (proj2 (C7_exit_codes Runs.plain_world Runs.relax_batch_args)
       (match result (Cli.read_setup Runs.plain_world Runs.relax_batch_args) with
        | Returned (Cli.Go s) => s
        | _ => {| Cli.final_config := ∅; Cli.input_path := "";
                  Cli.structure_exts := []; Cli.pressures := [];
                  Cli.base_root := ""; Cli.is_batch := false;
                  Cli.tasks := VNone |}
        end) _))) _ _ _).
  - vm_compute. reflexivity.
  - vm_compute. reflexivity.
  - split; [left; vm_compute; reflexivity|].
    exists VNone. vm_compute. reflexivity.
  - vm_compute. discriminate.
Defined.

(** A tetragonal cell of 4 x 4 x 2 with a spacing of 0.2 gives the mesh
    8 x 8 x 16. *)
Example kspacing_to_mesh_tetragonal :
  Utils.kspacing_to_mesh
    (Sample.make_world [] []
       (Returned ("cell" +:+ Utils.nl +:+ "1.0" +:+ Utils.nl
                  +:+ "4.0 0.0 0.0" +:+ Utils.nl
                  +:+ "0.0 4.0 0.0" +:+ Utils.nl
                  +:+ "0.0 0.0 2.0" +:+ Utils.nl))
       true Runs.picky Runs.picky Runs.picky Runs.picky [])
    "POSCAR" 0.2%float
  = (8, 8, 16)%Z.
Proof. vm_compute. reflexivity. Qed.

(** A flat cell and a missing file both give the fallback mesh: the mesh
    theorem applies to them. *)
Lemma C10_witness :
  Utils.kspacing_to_mesh Runs.plain_world "POSCAR" 0.2%float = (1, 1, 1)%Z
  /\ Utils.kspacing_to_mesh
       (Sample.make_world [] []
          (Returned ("cell" +:+ Utils.nl +:+ "1.0" +:+ Utils.nl
                     +:+ "4.0 0.0 0.0" +:+ Utils.nl
                     +:+ "0.0 4.0 0.0" +:+ Utils.nl
                     +:+ "0.0 0.0 0.0" +:+ Utils.nl))
          true Runs.picky Runs.picky Runs.picky Runs.picky [])
       "POSCAR" 0.2%float
     = (1, 1, 1)%Z.
Proof.
  split.
  - refine (proj1 (proj2
      (C10_mesh_is_positive_and_falls_back Runs.plain_world "POSCAR" 0.2%float))
      (Py.Exception "FileNotFoundError" "POSCAR") _).
    vm_compute. reflexivity.
  - refine (proj2 (proj2 (proj2
      (C10_mesh_is_positive_and_falls_back _ "POSCAR" 0.2%float)))
      [4; 0; 0]%float [0; 4; 0]%float [0; 0; 0]%float 0%float _ _ _);
      vm_compute; reflexivity.
Defined.


(** ** Where the batch run does finish *)

Section BatchReport.
Variable w : world.
Implicit Types (r : dict) (results : list dict).

(** A record the report can print: it names its unit and its working
    directory, and its energy, when it has one, is a float. *)
Local Abbreviation printable r :=
  (is_Some (r !! "structure_name") /\ is_Some (r !! "work_dir")
   /\ (Py.truthy (Py.get r "energy") = true ->
       exists x, r !! "energy" = Some (VFloat x))).

Lemma report_entry_returns file i r :
  printable r -> result (Utils.report_entry w file i r) = Returned tt.
Proof.
  intros ([name Hname] & [wd Hwd] & Henergy).
  unfold Utils.report_entry, Py.getitem. rewrite Hname, Hwd.
  repeat (first [ rewrite bind_ret_l
                | erewrite result_bind_returned by reflexivity ]).
  destruct (Py.truthy (Py.get r "energy")) eqn:He.
  - destruct (Henergy eq_refl) as [x ->].
    repeat (first [ rewrite bind_ret_l
                  | erewrite result_bind_returned by reflexivity ]).
    destruct (Py.truthy (Py.get r "error")) eqn:Herr; [|reflexivity].
    unfold Py.get in Herr. destruct (r !! "error"); [|discriminate Herr].
    reflexivity.
  - repeat (first [ rewrite bind_ret_l
                  | erewrite result_bind_returned by reflexivity ]).
    destruct (Py.truthy (Py.get r "error")) eqn:Herr; [|reflexivity].
    unfold Py.get in Herr. destruct (r !! "error"); [|discriminate Herr].
    reflexivity.
Qed.

Lemma report_entries_return file i results :
  Forall (fun r => printable r) results ->
  result (Utils.report_entries w file i results) = Returned tt.
Proof.
  intros H. revert i. induction H as [|r results Hr _ IH]; intros i;
    [reflexivity|].
  cbn [Utils.report_entries].
  erewrite result_bind_returned by (by apply report_entry_returns).
  apply IH.
Qed.

(** The report is written in full for printable records. *)
Lemma generate_summary_report_returns results file :
  fs_open_write w file = Returned tt ->
  Forall (fun r => printable r) results ->
  result (Utils.generate_summary_report w results file) = Returned tt.
Proof.
  intros Hopen Hall. unfold Utils.generate_summary_report. rewrite Hopen.
  repeat (erewrite result_bind_returned by reflexivity).
  by apply report_entries_return.
Qed.

(** A unit whose directory can be made leaves a printable record. *)
Lemma _run_single_structure_printable (self : Batch.BatchPipeline) f :
  (forall dir, fs_mkdir w dir = Returned tt) ->
  exists r, result (Batch._run_single_structure w self f) = Returned r
            /\ printable r.
Proof.
  intros Hdir. unfold Batch._run_single_structure, Call.mkdir.
  rewrite Hdir. cbn [result bind emit lift fst snd].
  destruct (result (_ <- Call.call_cls _ _ _ ;; _)) as [ok|e].
  - eexists. split; [reflexivity|].
    unfold Utils.extract_final_energy.
    destruct ok; cbn [andb];
      repeat match goal with
             | |- context [if ?c then _ else _] => destruct c
             | |- context [match ?c with _ => _ end] => destruct c
             end;
      (split; [by eexists|]); (split; [by eexists|]);
      intros Ht; try discriminate Ht; by eexists.
  - eexists. split; [reflexivity|].
    split; [by eexists|]. split; [by eexists|]. intros Ht. discriminate Ht.
Qed.

Lemma _run_serial_from_printable (self : Batch.BatchPipeline) files acc :
  (forall dir, fs_mkdir w dir = Returned tt) ->
  Forall (fun r => printable r) acc ->
  exists results,
    result (Batch._run_serial_from w self files acc) = Returned results
    /\ Forall (fun r => printable r) results.
Proof.
  intros Hdir. revert acc. induction files as [|f files IH]; intros acc Hacc.
  - by exists acc.
  - cbn [Batch._run_serial_from].
    destruct (_run_single_structure_printable self f Hdir) as (r & Hr & Hp).
    erewrite result_bind_returned by eassumption.
    apply IH. apply Forall_app. split; [done | by constructor].
Qed.

(** The serial batch run finishes, and returns one record per structure
    file, when the directories and the report file can be written:
    failed units do not stop it. *)
Lemma batch_run_serial_returns (self : Batch.BatchPipeline) :
  Batch.parallel self = false ->
  (forall dir, fs_mkdir w dir = Returned tt) ->
  fs_open_write w (Batch.work_root self </> "batch_summary.txt")
  = Returned tt ->
  exists results, result (Batch.run w self) = Returned results.
Proof.
  intros Hserial Hdir Hopen. unfold Batch.run, Batch._run_serial.
  rewrite Hserial.
  destruct (_run_serial_from_printable self (Batch.structure_files self) []
              Hdir ltac:(constructor)) as (results & Hres & Hall).
  exists results.
  erewrite result_bind_returned by eassumption.
  erewrite result_bind_returned
    by (by apply generate_summary_report_returns).
  reflexivity.
Qed.

End BatchReport.


(** ** Several modules on one command line *)

Section RewriteFacts.
Implicit Types (argv tokens rest : list string) (m : string).

Lemma module_has_no_dash m :
  m ∈ Rewrite.MODULES -> String.prefix "-" m = false.
Proof.
  unfold Rewrite.MODULES. intros H.
  repeat (apply elem_of_cons in H as [->|H]; [by vm_compute|]).
  by apply elem_of_nil in H.
Qed.

Lemma leading_modules_cons m rest :
  Rewrite.leading_modules (m :: rest)
  = if bool_decide (m ∈ Rewrite.MODULES)
    then m :: Rewrite.leading_modules rest else [].
Proof.
  cbn [Rewrite.leading_modules]. case_bool_decide as Hm.
  - by rewrite (module_has_no_dash m Hm).
  - by destruct (String.prefix "-" m).
Qed.

(** The modules read are the first tokens of the list. *)
Lemma leading_modules_prefix tokens :
  Rewrite.leading_modules tokens
  ++ drop (length (Rewrite.leading_modules tokens)) tokens = tokens.
Proof.
  induction tokens as [|m rest IH]; [done|].
  rewrite leading_modules_cons. case_bool_decide; [|done].
  cbn [length drop app]. by rewrite IH.
Qed.

(** What the rewriting does, case by case: the test for a leading dash
    never decides anything, since no module name starts with one. *)
Lemma rewrite_modules_cases argv :
  Rewrite._rewrite_modules argv
  = match argv with
    | prog :: m1 :: m2 :: rest =>
        if bool_decide (m1 ∈ Rewrite.MODULES)
           && bool_decide (m2 ∈ Rewrite.MODULES)
        then prog :: "combo" :: m1 :: m2 :: rest
        else argv
    | _ => argv
    end.
Proof.
  unfold Rewrite._rewrite_modules.
  destruct argv as [|prog [|m1 [|m2 rest]]]; try done.
  - cbn [drop]. rewrite leading_modules_cons.
    by case_bool_decide.
  - cbn [drop]. rewrite !leading_modules_cons.
    do 2 (case_bool_decide; cbn [andb length Nat.ltb Nat.leb]; try done).
    cbn [Nat.add drop app]. do 4 f_equal. apply leading_modules_prefix.
Qed.

End RewriteFacts.

(** X1 ([_rewrite_modules]): the command line is rewritten exactly when
    the two tokens after the program name both name a module, and then
    the only change is the word [combo] put after the program name: the
    modules and everything after them stay as they were.  Every other
    command line (an empty one, one module, an option first) is
    returned as it is. *)
Theorem rewrite_modules_inserts_combo (argv : list string) :
  let several :=
    exists prog m1 m2 rest,
      argv = prog :: m1 :: m2 :: rest
      /\ m1 ∈ Rewrite.MODULES /\ m2 ∈ Rewrite.MODULES in
  (several
   /\ exists prog rest,
        argv = prog :: rest
        /\ Rewrite._rewrite_modules argv = prog :: "combo" :: rest)
  \/ (~ several /\ Rewrite._rewrite_modules argv = argv).
Proof.
  intros several. rewrite rewrite_modules_cases.
  destruct argv as [|prog [|m1 [|m2 rest]]];
    try (right; split; [by intros (? & ? & ? & ? & ? & _)|done]).
  destruct (decide (m1 ∈ Rewrite.MODULES)) as [H1|H1];
    [destruct (decide (m2 ∈ Rewrite.MODULES)) as [H2|H2]|].
  - left. split; [by exists prog, m1, m2, rest|].
    exists prog, (m1 :: m2 :: rest).
    by rewrite !bool_decide_eq_true_2.
  - right. split.
    + intros (? & ? & ? & ? & [= <- <- <- <-] & _ & ?). done.
    + rewrite (bool_decide_eq_false_2 (m2 ∈ _)) by done.
      by rewrite andb_false_r.
  - right. split.
    + intros (? & ? & ? & ? & [= <- <- <- <-] & ? & _). done.
    + by rewrite (bool_decide_eq_false_2 (m1 ∈ _)).
Qed.

(** X2 ([_rewrite_modules]): rewriting a rewritten command line changes
    nothing, since [combo] is not the name of a module. *)
Theorem rewrite_modules_idempotent (argv : list string) :
  Rewrite._rewrite_modules (Rewrite._rewrite_modules argv)
  = Rewrite._rewrite_modules argv.
Proof.
  rewrite (rewrite_modules_cases argv).
  destruct argv as [|prog [|m1 [|m2 rest]]];
    try (by rewrite rewrite_modules_cases).
  destruct (bool_decide (m1 ∈ _) && bool_decide (m2 ∈ _)) eqn:Hm.
  - rewrite rewrite_modules_cases.
    replace (bool_decide ("combo" ∈ Rewrite.MODULES)) with false
      by (by vm_compute).
    done.
  - rewrite rewrite_modules_cases. by rewrite Hm.
Qed.


(** ** Configuration and directory scans *)

(** X3 ([merge_configs]): a command-line value wins over the JSON
    configuration, except that a value of [None] and the keys [command],
    [json] and [func] of the command line are ignored: for these the
    JSON value, if any, stays. *)
Theorem merge_configs_lookup (json_config cli_args : dict) (k : string) :
  Cli.merge_configs json_config cli_args !! k
  = match cli_args !! k with
    | Some v =>
        if Cli.is_none v || bool_decide (k ∈ ["command"; "json"; "func"])
        then json_config !! k
        else Some v
    | None => json_config !! k
    end.
Proof.
  unfold Cli.merge_configs. rewrite lookup_union, map_lookup_filter.
  destruct (cli_args !! k) as [v|] eqn:Hk; cbn [mbind option_bind];
    [|by rewrite (left_id_L None _)].
  cbn [fst snd]. case_guard as Hg; cbn [mbind option_bind].
  - destruct Hg as [-> Hg]. rewrite bool_decide_eq_false_2 by done.
    cbn [orb]. by destruct (json_config !! k).
  - rewrite (left_id_L None _).
    destruct (Cli.is_none v) eqn:Hv; [done|]. cbn [orb].
    rewrite bool_decide_eq_true_2; [done|].
    destruct (decide (k ∈ ["command"; "json"; "func"])); [done|].
    by destruct Hg.
Qed.

Section Scans.
Variable w : world.
Implicit Types (dir f pattern : string) (exts files globbed : list string).

(** One turn of the inner loop of [scan_structure_files]. *)
Local Abbreviation keep :=
  (fun files f =>
     if bool_decide (f ∈ files) then files
     else if Utils.validate_structure_file w f then files ++ [f]
     else files).

Lemma keep_all_spec globbed files :
  NoDup files ->
  NoDup (fold_left keep globbed files)
  /\ forall f,
       f ∈ fold_left keep globbed files
       <-> f ∈ files \/ (f ∈ globbed /\ fs_exists w f = true).
Proof.
  revert files. induction globbed as [|g globbed IH]; intros files Hnd.
  - split; [done|]. intros f. rewrite elem_of_nil. tauto.
  - cbn [fold_left]. case_bool_decide as Hin.
    + destruct (IH files Hnd) as [IH1 IH2]. split; [done|].
      intros f. rewrite IH2, elem_of_cons. intuition (subst; auto).
    + unfold Utils.validate_structure_file.
      destruct (fs_exists w g) eqn:Hg.
      * assert (NoDup (files ++ [g])) as Hnd'.
        { apply NoDup_app. split; [done|]. split; [|apply NoDup_singleton].
          intros x Hx Hxg. apply list_elem_of_singleton in Hxg. by subst. }
        destruct (IH _ Hnd') as [IH1 IH2]. split; [done|].
        intros f. rewrite IH2, elem_of_app, list_elem_of_singleton,
          elem_of_cons. intuition (subst; auto).
      * destruct (IH files Hnd) as [IH1 IH2]. split; [done|].
        intros f. rewrite IH2, elem_of_cons. intuition (subst; auto; congruence).
Qed.

Lemma scan_patterns_spec dir patterns files :
  NoDup files ->
  let scanned :=
    fold_left
      (fun files pattern =>
         fold_left keep
           (fs_glob w dir pattern) files)
      patterns files in
  NoDup scanned
  /\ forall f,
       f ∈ scanned
       <-> f ∈ files
           \/ ((exists pattern,
                  pattern ∈ patterns /\ f ∈ fs_glob w dir pattern)
               /\ fs_exists w f = true).
Proof.
  revert files. induction patterns as [|pattern patterns IH];
    intros files Hnd; cbn [fold_left].
  - split; [done|]. intros f. split; [auto|].
    intros [?|[(? & []%elem_of_nil & _) _]]. done.
  - destruct (keep_all_spec (fs_glob w dir pattern) files Hnd) as [H1 H2].
    destruct (IH _ H1) as [IH1 IH2]. split; [done|].
    intros f. rewrite IH2, H2. split.
    + intros [[?|[? ?]]|[(q & ? & ?) ?]]; auto.
      * right. split; [|done]. exists pattern. split; [left|done].
      * right. split; [|done]. exists q. split; [by right|done].
    + intros [?|[(q & [->|?]%elem_of_cons & ?) ?]]; auto.
      right. split; [|done]. by exists q.
Qed.

End Scans.

(** X4 ([scan_structure_files]): the scan returns, without repetition,
    exactly the paths that some pattern of the requested suffixes
    matches and that exist. *)
Theorem scan_structure_files_spec (w : world) (dir : string)
    (exts : list string) :
  NoDup (Cli.scan_structure_files w dir exts)
  /\ forall f,
       f ∈ Cli.scan_structure_files w dir exts
       <-> (exists pattern,
              pattern ∈ Cli.structure_patterns w (Cli.exts_or_default exts)
              /\ f ∈ fs_glob w dir pattern)
           /\ fs_exists w f = true.
Proof.
  unfold Cli.scan_structure_files, Cli.sorted_paths.
  destruct (scan_patterns_spec w dir
              (Cli.structure_patterns w (Cli.exts_or_default exts)) []
              NoDup_nil_2) as [H1 H2].
  split.
  - by rewrite merge_sort_Permutation.
  - intros f. rewrite merge_sort_Permutation, H2, elem_of_nil. tauto.
Qed.

(** X5 ([detect_batch_mode], [scan_structure_files]): an input directory
    in which the scan finds a structure file is run in batch mode. *)
Theorem scan_found_means_batch (w : world) (dir : string)
    (exts : list string) :
  fs_is_dir w dir = true ->
  Cli.scan_structure_files w dir exts <> [] ->
  Cli.detect_batch_mode w dir exts = true.
Proof.
  intros Hdir Hfound. unfold Cli.detect_batch_mode. rewrite Hdir. cbn [negb].
  destruct (Cli.scan_structure_files w dir exts) as [|f l] eqn:Hscan; [done|].
  assert (f ∈ Cli.scan_structure_files w dir exts) as Hf
    by (rewrite Hscan; left).
  unfold Cli.scan_structure_files, Cli.sorted_paths in Hf.
  rewrite merge_sort_Permutation in Hf.
  apply (scan_patterns_spec w dir _ [] NoDup_nil_2) in Hf
    as [[]%elem_of_nil|[(pattern & Hp & Hg) _]].
  apply existsb_exists. exists pattern. split; [by apply list_elem_of_In|].
  apply Nat.leb_le. destruct (fs_glob w dir pattern); [by inversion Hg|].
  cbn [length]. lia.
Qed.


(** ** Keyword arguments given twice *)

Section RepeatedKeyword.
Variable w : world.
Implicit Types (cls : pipeline_class) (kw : dict) (k s wd : string)
               (p : float).

(** A call that spreads a dictionary holding one of the keywords it
    also gives by name raises before the class is entered. *)
Lemma call_cls_repeated cls explicit kw k :
  k ∈ explicit.*1 -> is_Some (kw !! k) ->
  exists e, Call.call_cls cls explicit kw = raise e.
Proof.
  intros Hk Hkw. unfold Call.call_cls.
  destruct (find _ explicit) as [kv|] eqn:Hfind; [by eexists|].
  exfalso. apply list_elem_of_fmap in Hk as ([k' v] & -> & Hin).
  apply list_elem_of_In in Hin.
  apply (find_none _ _ Hfind) in Hin. cbn [fst] in Hin.
  by rewrite bool_decide_eq_true_2 in Hin.
Qed.

Lemma single_try_repeated cls s wd kw p k :
  k ∈ ["structure_file"; "work_dir"; "pressure"] -> is_Some (kw !! k) ->
  trace (Cli.single_try w cls s wd kw p) = [EvMkdir wd]
  /\ exists e, result (Cli.single_try w cls s wd kw p) = Raised e.
Proof.
  intros Hk Hkw. unfold Cli.single_try.
  destruct (call_cls_repeated cls
              [("structure_file", VPath s); ("work_dir", VPath wd);
               ("pressure", VFloat p)] kw k Hk Hkw) as [e ->].
  unfold Call.mkdir. destruct (fs_mkdir w wd) as [[]|e']; cbn; eauto.
Qed.

End RepeatedKeyword.

(** X6 ([_run_single_pipeline]): when the keyword arguments of the
    pipeline already hold [structure_file], [work_dir] or [pressure],
    which the worker also passes by name, the worker makes the
    directory and nothing else: the class is never entered, and the
    unit is recorded as failed. *)
Theorem single_pipeline_rejects_repeated_keyword (w : world)
    (cls : pipeline_class) (s wd : string) (kw : dict) (p : float)
    (k : string) :
  k ∈ ["structure_file"; "work_dir"; "pressure"] ->
  is_Some (kw !! k) ->
  trace (Cli._run_single_pipeline w cls s wd kw p) = [EvMkdir wd]
  /\ exists e,
       result (Cli._run_single_pipeline w cls s wd kw p)
       = Returned (Cli.failure_record s p e).
Proof.
  intros Hk Hkw.
  destruct (single_try_repeated w cls s wd kw p k Hk Hkw) as [Htr [e He]].
  unfold Cli._run_single_pipeline. split.
  - rewrite trace_try_except, Htr, He. reflexivity.
  - exists e. by erewrite result_try_raised by eassumption.
Qed.


(** ** The result and the calls of a command, step by step *)

Section FlowSteps.

Lemma trace_bindF {A B} (m : M (Cli.flow A)) (f : A -> M (Cli.flow B)) :
  trace (Cli.bindF m f)
  = trace m ++ match result m with
               | Returned (Cli.Go a) => trace (f a)
               | _ => []
               end.
Proof. unfold Cli.bindF. rewrite trace_bind. by destruct (result m) as [[]|]. Qed.

Lemma result_bindF {A B} (m : M (Cli.flow A)) (f : A -> M (Cli.flow B)) :
  result (Cli.bindF m f)
  = match result m with
    | Returned (Cli.Go a) => result (f a)
    | Returned (Cli.SysExit c) => Returned (Cli.SysExit c)
    | Raised e => Raised e
    end.
Proof. unfold Cli.bindF. by destruct m as [t [[]|]]. Qed.

Lemma trace_liftF {A} (m : M A) : trace (Cli.liftF m) = trace m.
Proof. unfold Cli.liftF. rewrite trace_bind. destruct (result m); apply app_nil_r. Qed.

Lemma result_liftF {A} (m : M A) :
  result (Cli.liftF m)
  = match result m with
    | Returned a => Returned (Cli.Go a)
    | Raised e => Raised e
    end.
Proof. unfold Cli.liftF. by destruct m as [t []]. Qed.

Lemma result_try_except {A} (m : M A) (h : Py.exn -> M A) :
  result (try_except m h)
  = match result m with
    | Returned a => Returned a
    | Raised e => result (h e)
    end.
Proof. by destruct m as [t []]. Qed.

End FlowSteps.

(** ** What every call of a computation satisfies *)

Section TraceFacts.
Variable P : event -> Prop.

Lemma all_bind {A B} (m : M A) (f : A -> M B) :
  Forall P (trace m) ->
  (forall a, result m = Returned a -> Forall P (trace (f a))) ->
  Forall P (trace (bind m f)).
Proof.
  intros Hm Hf. rewrite trace_bind. apply Forall_app. split; [done|].
  destruct (result m); [by apply Hf | constructor].
Qed.

Lemma all_try_except {A} (m : M A) (h : Py.exn -> M A) :
  Forall P (trace m) ->
  (forall e, result m = Raised e -> Forall P (trace (h e))) ->
  Forall P (trace (try_except m h)).
Proof.
  intros Hm Hh. rewrite trace_try_except. apply Forall_app. split; [done|].
  destruct (result m); [constructor | by apply Hh].
Qed.

Lemma all_lift {A} (o : outcome A) : Forall P (trace (lift o)).
Proof. constructor. Qed.

Lemma all_bindF {A B} (m : M (Cli.flow A)) (f : A -> M (Cli.flow B)) :
  Forall P (trace m) ->
  (forall a, result m = Returned (Cli.Go a) -> Forall P (trace (f a))) ->
  Forall P (trace (Cli.bindF m f)).
Proof.
  intros Hm Hf. unfold Cli.bindF. apply all_bind; [done|].
  intros [a|c] Ha; [by apply Hf | constructor].
Qed.

Lemma all_liftF {A} (m : M A) :
  Forall P (trace m) -> Forall P (trace (Cli.liftF m)).
Proof.
  intros Hm. unfold Cli.liftF. apply all_bind; [done|]. constructor.
Qed.

Lemma all_for_each {X} (body : X -> M (Cli.flow unit)) (l : list X) :
  (forall x, x ∈ l -> Forall P (trace (body x))) ->
  Forall P (trace (Cli.for_each body l)).
Proof.
  induction l as [|x l IH]; intros Hbody; cbn [Cli.for_each];
    [constructor|].
  apply all_bindF; [apply Hbody; left|].
  intros _ _. apply IH. intros y Hy. apply Hbody. by right.
Qed.

Lemma all_submit_all {X Y} (f : X -> M Y) (l : list X) :
  (forall x, x ∈ l -> Forall P (trace (f x))) ->
  Forall P (trace (Call.submit_all f l)).
Proof.
  induction l as [|x l IH]; intros Hf; cbn [Call.submit_all];
    [constructor|].
  apply all_bind; [apply Hf; left|]. intros y _.
  apply all_bind; [apply IH; intros z Hz; apply Hf; by right|].
  constructor.
Qed.

Lemma all_optional_path (d : dict) (k : string) :
  Forall P (trace (Cli.optional_path d k)).
Proof.
  unfold Cli.optional_path. destruct (Py.truthy _); [|constructor].
  apply all_bind; [|constructor]. unfold Call.Path.
  destruct (Py.get d k); constructor.
Qed.

Lemma all_py_float (w : world) (v : value) :
  Forall P (trace (Cli.py_float w v)).
Proof.
  destruct v; cbn [Cli.py_float]; try constructor.
  - unfold Cli.float_of_int. destruct (PrimFloat.is_infinity _); constructor.
  - destruct (float_of_str w s); constructor.
Qed.

(** Reading the arguments of a command makes no call. *)
Lemma all_read_setup (w : world) (args : dict) :
  Forall P (trace (Cli.read_setup w args)).
Proof.
  unfold Cli.read_setup.
  apply all_bindF.
  { unfold Cli.load_final_config. apply all_bindF; [|constructor].
    destruct (Py.truthy _); [|constructor].
    apply all_bindF.
    - apply all_liftF. unfold Call.Path. destruct (Py.get args "json");
        constructor.
    - intros json_file _. unfold Cli.load_json_config.
      destruct (json_load w json_file); constructor. }
  intros final_config _.
  apply all_bindF; [apply all_liftF, all_lift|]. intros input_v _.
  apply all_bindF.
  { apply all_liftF. unfold Call.Path. destruct input_v; constructor. }
  intros input_path _. apply all_bindF.
  { apply all_liftF. unfold Cli.parse_structure_exts.
    destruct (negb _); [constructor|].
    destruct (Py.get final_config "structure_ext"); constructor. }
  intros exts _. apply all_bindF; [|constructor].
  apply all_liftF. unfold Cli.parse_pressures.
  destruct (Py.get final_config "pressure");
    try (apply all_bind; [apply all_py_float | constructor]);
    try (apply all_submit_all; intros; apply all_py_float);
    constructor.
Qed.

Lemma all_tasks_gt_one (v : value) : Forall P (trace (Cli.tasks_gt_one v)).
Proof. destruct v; constructor. Qed.

Lemma all_as_int (v : value) : Forall P (trace (Cli.as_int v)).
Proof.
  destruct v; try constructor. cbn [Cli.as_int]. unfold Utils.math_ceil.
  destruct (Prim2SF x); constructor.
Qed.

Lemma all_collect_results completed acc :
  Forall P (trace (Cli.collect_results completed acc)).
Proof.
  revert acc. induction completed as [|fut rest IH]; intros acc;
    cbn [Cli.collect_results]; [constructor|].
  apply all_bind; [apply all_lift|]. intros res _.
  apply all_bind; [|intros; apply IH].
  unfold Cli.log_done. destruct (Py.get res "structure"); constructor.
Qed.

(** The calls of a run of the task matrix are the calls of its
    workers. *)
Lemma all_run_matrix_tasks (w : world) structures pressures work_root cls
    kw tasks_limit pressure_first :
  (forall s p,
     Forall P (trace (Cli._run_single_pipeline w cls s
                        (Matrix.work_dir_of w work_root (s, p)) kw p))) ->
  Forall P (trace (Cli._run_matrix_tasks w structures pressures work_root
                     (Some cls) kw tasks_limit pressure_first false)).
Proof.
  intros Hworker. unfold Cli._run_matrix_tasks.
  apply all_bind.
  { apply all_submit_all. intros. constructor. }
  intros workers Hworkers. unfold Pool.with_executor.
  destruct (_ =? _)%nat; [constructor|].
  apply all_bind; [|intros; apply all_collect_results].
  cbn [trace fst Pool.run_all].
  apply Forall_concat, Forall_fmap, Forall_forall. intros worker Hin.
  cbn [compose].
  assert (forall tasks workers,
            result (Call.submit_all
                      (Cli.submit_task w work_root (Some cls) kw false)
                      tasks) = Returned workers ->
            workers
            = (fun t => Cli._run_single_pipeline w cls t.1
                          (Matrix.work_dir_of w work_root t) kw t.2)
                <$> tasks) as Hsub.
  { clear. induction tasks as [|t tasks IH]; intros workers H.
    - by injection H as <-.
    - cbn [Call.submit_all] in H. inv_bind H. inv_bind H.
      injection H as <-. injection Ha as <-. rewrite (IH _ Ha0).
      reflexivity. }
  rewrite (Hsub _ _ Hworkers) in Hin.
  apply list_elem_of_fmap in Hin as ([s p] & -> & _). apply Hworker.
Qed.

End TraceFacts.


(** ** Batch runs whose keyword arguments repeat the pressure *)

Section FruitlessBatch.
Variable w : world.
Implicit Types (s : Cli.setup) (kw : dict) (p : float).

(** A call that does not enter a pipeline class and, if it logs a
    batch summary, logs no success. *)
Local Abbreviation fruitless :=
  (fun ev => Observe.enters_class ev = false
             /\ forall ok total, ev = EvBatchSummary ok total -> ok = 0).

Lemma fruitless_split (tr : list event) :
  Forall fruitless tr ->
  Forall (fun ev => Observe.enters_class ev = false) tr
  /\ Forall (fun x => x.1 = 0) (Observe.summaries tr).
Proof.
  induction 1 as [|ev tr [Hev1 Hev2] _ [IH1 IH2]]; [by split|].
  split; [by constructor|]. unfold Observe.summaries. cbn [omap].
  destruct ev; cbn; try done.
  constructor; [|done]. cbn [fst]. by eapply Hev2.
Qed.

Lemma fruitless_worker cls kw st wd p :
  is_Some (kw !! "pressure") ->
  Forall fruitless (trace (Cli._run_single_pipeline w cls st wd kw p)).
Proof.
  intros Hkw.
  destruct (single_try_repeated w cls st wd kw p "pressure") as [Htr [e He]];
    [by repeat constructor | done |].
  unfold Cli._run_single_pipeline. rewrite trace_try_except, Htr, He.
  by repeat constructor.
Qed.

Lemma unit_record_repeated work_root cls kw task :
  is_Some (kw !! "pressure") ->
  Py.truthy
    (Py.get (Matrix.unit_record w work_root (Some cls) kw false task)
       "success") = false.
Proof.
  intros Hkw. unfold Matrix.unit_record, Matrix.unit_try.
  destruct (single_try_repeated w cls task.1
              (Matrix.work_dir_of w work_root task) kw task.2 "pressure")
    as [_ [e ->]]; [by repeat constructor | done |].
  reflexivity.
Qed.

Lemma success_count_none (results : list dict) :
  Forall (fun r => Py.truthy (Py.get r "success") = false) results ->
  Cli.success_count results = 0.
Proof.
  unfold Cli.success_count. induction 1 as [|r results Hr _ IH]; [done|].
  rewrite filter_cons_False; [done|].
  cbv beta. rewrite Hr. intros [].
Qed.

(** A run of the task matrix whose keyword arguments hold the
    pressure: no class is entered and no unit succeeds. *)
Lemma fruitless_matrix structures pressures work_root cls kw tasks_limit :
  is_Some (kw !! "pressure") ->
  Forall fruitless
    (trace (Cli._run_matrix_tasks w structures pressures work_root
              (Some cls) kw tasks_limit false false))
  /\ forall results,
       result (Cli._run_matrix_tasks w structures pressures work_root
                 (Some cls) kw tasks_limit false false) = Returned results ->
       Cli.success_count results = 0.
Proof.
  intros Hkw. split.
  - apply all_run_matrix_tasks. intros. by apply fruitless_worker.
  - intros results.
    rewrite (_run_matrix_tasks_results w work_root (Some cls) kw false)
      by (by eexists).
    intros [= <-]. apply success_count_none, Forall_fmap, Forall_forall.
    intros task _. by apply unit_record_repeated.
Qed.

Lemma relax_kwargs_pressure final_config p kw :
  result (Cli.relax_kwargs final_config p) = Returned kw ->
  is_Some (kw !! "pressure").
Proof.
  unfold Cli.relax_kwargs. intros H. inv_bind H. injection H as <-.
  by eexists.
Qed.

Lemma fruitless_relax_turn final_config input exts ps root max_workers p :
  Forall fruitless
    (trace (Cli.relax_turn w final_config input exts ps root true
              max_workers p)).
Proof.
  unfold Cli.relax_turn. apply all_bindF.
  { apply all_liftF. unfold Cli.relax_kwargs.
    apply all_bind; [apply all_optional_path | constructor]. }
  intros kw Hkw. apply liftF_go_inv, relax_kwargs_pressure in Hkw.
  destruct (Cli.scan_structure_files _ _ _) as [|f files]; [constructor|].
  apply all_bindF; [apply all_liftF, all_as_int|]. intros mw _.
  destruct (fruitless_matrix (f :: files) ps root (RelaxPipeline w) kw
              (if (0 <? mw)%Z then mw else 1%Z) Hkw) as [Htr Hres].
  apply all_bindF; [by apply all_liftF|]. intros results Hresults.
  apply liftF_go_inv, Hres in Hresults. rewrite Hresults.
  apply all_liftF. constructor; [|constructor].
  split; [done|]. by intros ok total [= <- _].
Qed.

End FruitlessBatch.

(** X7 ([command_relax]): a batch [relax] never enters the pipeline
    class.  The keyword arguments the command builds hold the pressure,
    which the worker of every unit passes by name as well, so every unit
    of every matrix is recorded as failed, and each batch summary
    reports no success. *)
Theorem batch_relax_enters_no_pipeline (w : world) (args : dict)
    (s : Cli.setup) :
  result (Cli.read_setup w args) = Returned (Cli.Go s) ->
  Cli.is_batch s = true ->
  Forall (fun ev => Observe.enters_class ev = false)
    (trace (Cli.command_relax w args))
  /\ Forall (fun x => x.1 = 0)
       (Observe.summaries (trace (Cli.command_relax w args))).
Proof.
  intros Hs Hbatch. apply fruitless_split. unfold Cli.command_relax.
  apply all_bindF; [apply all_read_setup|].
  intros s' Hs'. rewrite Hs in Hs'. injection Hs' as <-.
  apply all_bindF; [apply all_liftF, all_tasks_gt_one|]. intros _ _.
  apply all_try_except; [|constructor].
  apply all_for_each. intros p _. rewrite Hbatch.
  apply fruitless_relax_turn.
Qed.


(** ** The property commands on a directory *)

Section PropertiesBatch.
Variable w : world.
Implicit Types (s : Cli.setup) (kw : dict) (p : float).

Local Abbreviation makes_directory := (fun ev => exists d, ev = EvMkdir d).

Lemma summaries_app (tr1 tr2 : list event) :
  Observe.summaries (tr1 ++ tr2)
  = Observe.summaries tr1 ++ Observe.summaries tr2.
Proof. apply omap_app. Qed.



Lemma trace_quiet {A} (m : M A) :
  Forall (fun _ => False) (trace m) -> trace m = [].
Proof. destruct (trace m); [done|]. by inversion 1. Qed.


Lemma matrix_length structures pressures work_root cls kw tasks_limit
    results :
  result (Cli._run_matrix_tasks w structures pressures work_root
            (Some cls) kw tasks_limit false false) = Returned results ->
  length results = length structures * length pressures.
Proof.
  rewrite (_run_matrix_tasks_results w work_root (Some cls) kw false)
    by (by eexists).
  intros [= <-]. rewrite length_fmap.
  rewrite (Permutation_length
             (completion_order_Permutation w structures pressures
                tasks_limit)).
  apply length_prod.
Qed.



End PropertiesBatch.



(** ** The records of a batch *)

(** The facts about a record that is known key by key. *)
Ltac record_facts ok :=
  split; [done|]; split; [done|];
  split; [exists ok; split; [done|]; split; [done | try done; by intros [? ?]]|];
  split; [done|]; try done.

Section BatchRecords.
Variable w : world.
Implicit Types (self : Batch.BatchPipeline) (f : string) (r : dict).

(** What the record of a unit holds. *)
Lemma _run_single_structure_spec self f :
  exists r,
    result (Batch._run_single_structure w self f) = Returned r
    /\ r !! "structure_name" = Some (VStr (PathLib.stem f))
    /\ r !! "structure_file" = Some (VStr f)
    /\ (exists ok, r !! "success" = Some (VBool ok)
                   /\ (ok = true -> r !! "error" = None)
                   /\ (is_Some (r !! "energy") -> ok = true))
    /\ r !! "work_dir"
       = (if Units.dir_made w self f
          then Some (VStr (Units.unit_dir self f)) else None)
    /\ (forall v, r !! "energy" = Some v -> exists x, v = VFloat x).
Proof.
  unfold Batch._run_single_structure, Units.dir_made, Units.unit_dir,
    Call.mkdir.
  set (dir := match Md.nonempty _ with Some _ => _ | None => _ end).
  destruct (fs_mkdir w dir) as [[]|e]; cbn [result bind emit lift fst snd].
  - destruct (result (_ <- Call.call_cls _ _ _ ;; _)) as [ok|e].
    + eexists. split; [reflexivity|].
      assert (forall v, Utils.extract_final_energy w (dir </> "01_relax") = v
                        -> v = VNone \/ exists x, v = VFloat x) as Henergy.
      { intros v <-. unfold Utils.extract_final_energy.
        repeat match goal with
               | |- context [if ?c then _ else _] => destruct c
               | |- context [match ?c with _ => _ end] => destruct c
               end; eauto. }
      destruct (Henergy _ eq_refl) as [-> | [x ->]].
      * rewrite andb_false_r. record_facts ok.
      * destruct ok; cbn [andb]; [destruct (Py.truthy (VFloat x))|].
        -- record_facts true. intros v [= <-]. by eexists.
        -- record_facts true.
        -- record_facts false.
    + eexists. split; [reflexivity|]. record_facts false.
  - eexists. split; [reflexivity|]. record_facts false.
Qed.

Lemma _run_single_structure_record self f :
  result (Batch._run_single_structure w self f)
  = Returned (Units.record w self f).
Proof.
  unfold Units.record.
  by destruct (_run_single_structure_spec self f) as (r & -> & _).
Qed.

Lemma _run_serial_from_records self files acc :
  result (Batch._run_serial_from w self files acc)
  = Returned (acc ++ (Units.record w self <$> files)).
Proof.
  revert acc. induction files as [|f files IH]; intros acc.
  - cbn. by rewrite app_nil_r.
  - cbn [Batch._run_serial_from].
    erewrite result_bind_returned by apply _run_single_structure_record.
    rewrite IH, fmap_cons. by rewrite <- (assoc_L (++)).
Qed.

(** The report stops with a [KeyError] at the first record without a
    working directory. *)
Lemma report_entries_records self file i files :
  result (Utils.report_entries w file i (Units.record w self <$> files))
  = if forallb (Units.dir_made w self) files
    then Returned tt else Raised (Py.KeyError "work_dir").
Proof.
  revert i. induction files as [|f files IH]; intros i; [done|].
  rewrite fmap_cons. cbn [Utils.report_entries forallb].
  destruct (_run_single_structure_spec self f)
    as (r & Hr & Hname & _ & _ & Hdir & Henergy).
  unfold Units.record. rewrite Hr.
  destruct (Units.dir_made w self f); cbn [andb].
  - erewrite result_bind_returned; [apply IH|].
    apply report_entry_returns. split; [by eexists|]. split; [by eexists|].
    intros Ht. unfold Py.get in Ht.
    destruct (r !! "energy") as [v|] eqn:Hv; [|discriminate Ht].
    destruct (Henergy v eq_refl) as [x ->]. by eexists.
  - erewrite result_bind_raised; [reflexivity|].
    unfold Utils.report_entry, Py.getitem. rewrite Hname, Hdir.
    reflexivity.
Qed.

End BatchRecords.

(** X9 ([BatchPipeline._run_single_structure]): the worker of one
    structure file never raises, and its record always names the
    structure and says whether the unit succeeded.  The record holds the
    working directory exactly when the directory could be made; a
    successful record holds no error; only a successful record holds an
    energy, and that energy is a float. *)
Theorem run_single_structure_record (w : world) (self : Batch.BatchPipeline)
    (f : string) :
  exists r,
    result (Batch._run_single_structure w self f) = Returned r
    /\ r !! "structure_name" = Some (VStr (PathLib.stem f))
    /\ r !! "structure_file" = Some (VStr f)
    /\ (exists ok, r !! "success" = Some (VBool ok)
                   /\ (ok = true -> r !! "error" = None)
                   /\ (is_Some (r !! "energy") -> ok = true))
    /\ r !! "work_dir"
       = (if Units.dir_made w self f
          then Some (VStr (Units.unit_dir self f)) else None)
    /\ (forall v, r !! "energy" = Some v -> exists x, v = VFloat x).
Proof.
  destruct (_run_single_structure_spec w self f)
    as (r & Hr & Hname & Hfile & Hok & Hdir & Henergy).
  exists r. split; [exact Hr|]. split; [exact Hname|].
  split; [exact Hfile|]. split; [exact Hok|]. split; [exact Hdir|].
  exact Henergy.
Qed.

(** X10 ([BatchPipeline.run], [generate_summary_report]): a serial batch
    whose report file can be opened returns the records of its structure
    files, one per file and in the order of the files, exactly when the
    working directory of every unit can be made, whatever the pipelines
    do.  When some directory cannot be made the report, and the run
    with it, raises [KeyError('work_dir')]. *)
Theorem serial_batch_run (w : world) (self : Batch.BatchPipeline) :
  Batch.parallel self = false ->
  fs_open_write w (Batch.work_root self </> "batch_summary.txt")
  = Returned tt ->
  result (Batch.run w self)
  = if forallb (Units.dir_made w self) (Batch.structure_files self)
    then Returned (Units.record w self <$> Batch.structure_files self)
    else Raised (Py.KeyError "work_dir").
Proof.
  intros Hserial Hopen. unfold Batch.run, Batch._run_serial.
  rewrite Hserial.
  erewrite result_bind_returned by apply _run_serial_from_records.
  cbn [app].
  assert (result (Utils.generate_summary_report w
                    (Units.record w self <$> Batch.structure_files self)
                    (Batch.work_root self </> "batch_summary.txt"))
          = if forallb (Units.dir_made w self) (Batch.structure_files self)
            then Returned tt else Raised (Py.KeyError "work_dir")) as Hreport.
  { unfold Utils.generate_summary_report. rewrite Hopen.
    repeat (erewrite result_bind_returned by reflexivity).
    apply report_entries_records. }
  destruct (forallb _ _).
  - by erewrite result_bind_returned by eassumption.
  - by erewrite result_bind_raised by eassumption.
Qed.


(** X11 ([BatchPipeline._run_parallel]): with at least one worker, the
    parallel batch returns exactly one record per structure file,
    whatever the order in which the worker processes finish: the record
    the worker returned, or, when getting the result of the worker
    raised, the failure record built for that file. *)
Theorem parallel_batch_records (w : world) (self : Batch.BatchPipeline) :
  (0 < Batch.max_workers self)%Z ->
  exists results,
    result (Batch._run_parallel w self) = Returned results
    /\ results
       ≡ₚ Batch.gather
            ((fun f => (f, result (Batch.process_task w self f)))
               <$> Batch.structure_files self).
Proof.
  intros Hworkers. unfold Batch._run_parallel.
  replace (Batch.max_workers self <=? 0)%Z with false
    by (symmetry; apply Z.leb_gt; lia).
  eexists. split; [reflexivity|].
  unfold Batch.gather. apply fmap_Permutation.
  rewrite as_completed_Permutation by lia.
  rewrite <- list_fmap_compose. reflexivity.
Qed.

(** ** The two directory scans *)

Section TwoScans.
Variable w : world.
Implicit Types (dir : string) (exts patterns files : list string).

Local Abbreviation keep :=
  (fun files f =>
     if bool_decide (f ∈ files) then files
     else if Utils.validate_structure_file w f then files ++ [f]
     else files).

Lemma batch_patterns exts :
  Forall (fun ext => str_lower w ext <> "poscar") exts ->
  Cli.structure_patterns w exts
  = mbind (M := list)
      (fun ext =>
         let e := str_lower w ext in
         if bool_decide (e = "vasp") then ["*.vasp"; "*.POSCAR"; "POSCAR*"]
         else if bool_decide (e = "cif") then ["*.cif"]
         else if bool_decide (e = "res") then ["*.res"]
         else if bool_decide (e = "xsf") then ["*.xsf"]
         else ["*." +:+ e])
      exts.
Proof.
  induction 1 as [|ext exts Hext _ IH]; [done|].
  cbn [Cli.structure_patterns]. rewrite IH. cbn. f_equal.
  destruct (decide (str_lower w ext = "vasp")) as [->|Hv].
  - reflexivity.
  - rewrite (bool_decide_eq_false_2 (_ = "vasp")) by done.
    rewrite bool_decide_eq_false_2; [done|].
    intros [?|[?|[]%elem_of_nil]%elem_of_cons]%elem_of_cons; done.
Qed.

Lemma keep_concat dir patterns files :
  fold_left keep (mbind (M := list) (fs_glob w dir) patterns) files
  = fold_left
      (fun files pattern => fold_left keep (fs_glob w dir pattern) files)
      patterns files.
Proof.
  revert files. induction patterns as [|pattern patterns IH]; intros files;
    [done|].
  cbn [mbind list_bind fold_left]. by rewrite fold_left_app, IH.
Qed.

End TwoScans.

(** X12 ([BatchPipeline._scan_structure_files],
    [scan_structure_files]): on a directory that exists, the scan of a
    batch and the scan of the commands find the same files in the same
    order, for every non-empty list of suffixes that does not name
    [poscar] (which only the scan of the commands reads as the POSCAR
    patterns). *)
Theorem batch_scan_agrees_with_command_scan (w : world) (dir : string)
    (exts : list string) :
  fs_exists w dir = true ->
  exts <> [] ->
  Forall (fun ext => str_lower w ext <> "poscar") exts ->
  Batch._scan_structure_files w dir exts
  = ret (Cli.scan_structure_files w dir exts).
Proof.
  intros Hdir Hexts Hposcar.
  unfold Batch._scan_structure_files, Cli.scan_structure_files,
    Cli.sorted_paths.
  rewrite Hdir. cbn [negb]. f_equal. f_equal.
  replace (Cli.exts_or_default exts) with exts by (by destruct exts).
  rewrite (batch_patterns w exts Hposcar). apply keep_concat.
Qed.


(** ** The MD pipeline *)

Section MdFacts.
Variables (w : world) (b : backend).
Implicit Types (self : Md.MdPipeline) (steps : list string).

(** Normalizing keeps nothing but one [md]. *)
Lemma _normalize_steps_md (custom_steps : option (list string)) :
  Md._normalize_steps w custom_steps = None
  \/ Md._normalize_steps w custom_steps = Some ["md"].
Proof.
  unfold Md._normalize_steps.
  destruct custom_steps as [[|step steps]|]; [by left| |by left].
  set (add := fun normalized step => _).
  assert (forall l acc, (acc = [] \/ acc = ["md"]) ->
                        fold_left add l acc = []
                        \/ fold_left add l acc = ["md"]) as Hfold.
  { induction l as [|x l IH]; intros acc Hacc; [done|].
    cbn [fold_left]. apply IH. subst add. cbv beta.
    case_bool_decide as Hallowed; [|done].
    apply list_elem_of_singleton in Hallowed. rewrite Hallowed.
    destruct Hacc as [-> | ->]; [by right|].
    right. rewrite bool_decide_eq_true_2; [done | by left]. }
  destruct (Hfold (step :: steps) [] (or_introl eq_refl)) as [-> | ->];
    [by left | by right].
Qed.

Lemma mesh_ge_1 poscar kspacing :
  let mesh := Utils.kspacing_to_mesh w poscar kspacing in
  (1 <= mesh.1.1 /\ 1 <= mesh.1.2 /\ 1 <= mesh.2)%Z.
Proof.
  unfold Utils.kspacing_to_mesh.
  destruct (result (_ <- Utils.read_lattice w poscar ;; _))
    as [mesh|e] eqn:H; [|simpl; lia].
  inv_bind H. by eapply mesh_of_lattice_ge_1.
Qed.

End MdFacts.

(** X13 ([MdPipeline.__init__], [_normalize_steps], [get_steps]): the
    steps of a constructed MD pipeline are always the single step [md],
    whatever custom steps the caller names: unknown names are dropped,
    repetitions of [md] collapse, and an empty result falls back to the
    default. *)
Theorem md_steps_are_md (w : world) (b : backend)
    (structure_file work_dir : string) (kspacing : float)
    (queue_system : option string) (mpi_procs : value)
    (custom_steps : option (list string))
    (potcar_map : option (gmap string string))
    (job_cfg : option (option string)) (config_path : option string)
    (prepare_only : bool) (self : Md.MdPipeline) :
  result (Md.init w b structure_file work_dir kspacing queue_system mpi_procs
            custom_steps potcar_map job_cfg config_path prepare_only)
  = Returned self ->
  Md.get_steps self = ["md"].
Proof.
  unfold Md.init. intros H. inv_bind H.
  destruct (match Md.nonempty queue_system with Some _ => _ | None => _ end);
    [|discriminate H].
  injection H as <-. unfold Md.get_steps. cbn [Md.custom_steps].
  by destruct (_normalize_steps_md w custom_steps) as [-> | ->].
Qed.

(** X14 ([MdPipeline._run_md]): when a run that submits
    ([prepare_only] off) reports success, the job script was written,
    that script was submitted, the job the queue handed back was waited
    for, and the completion check was made last, each of them
    successfully: these are the last four calls of the step, in this
    order. *)
Theorem run_md_success_went_through_the_queue (w : world) (b : backend)
    (self : Md.MdPipeline) :
  Md.prepare_only self = false ->
  result (Md._run_md w b self) = Returned true ->
  exists calls script job_id,
    trace (Md._run_md w b self)
    = calls ++ [EvWriteJobScript (Md.md_dir self) "md";
                EvSubmitJob script (Md.queue_system self);
                EvWaitForJob job_id (Md.md_dir self) (Md.queue_system self);
                EvCheckJobCompleted (Md.md_dir self)]
    /\ do_write_job_script b (Md.md_dir self) "md" (Md.queue_system self)
       = Returned script
    /\ do_submit_job b script (Md.queue_system self) = Returned job_id
    /\ do_wait_for_job b job_id (Md.md_dir self) (Md.queue_system self)
       = Returned true
    /\ do_check_job_completed b (Md.md_dir self) = Returned true.
Proof.
  intros Hsubmit Hres.
  remember (trace (Md._run_md w b self)) as tr eqn:Htr.
  unfold Md._run_md in Hres, Htr.
  do 4 (let H := fresh "H" in
        apply bind_returned_inv in Hres as (? & H & Hres);
        rewrite (trace_bind_returned _ _ _ H) in Htr; clear H).
  destruct (bool_decide _); [discriminate Hres|].
  apply bind_returned_inv in Hres as (potcar_ok & H & Hres).
  rewrite (trace_bind_returned _ _ _ H) in Htr. clear H.
  destruct potcar_ok; cbn [negb] in Hres, Htr; [|discriminate Hres].
  apply bind_returned_inv in Hres as (script & Hscript & Hres).
  rewrite (trace_bind_returned _ _ _ Hscript) in Htr.
  apply bind_returned_inv in Hres as (job_id & Hjob & Hres).
  rewrite (trace_bind_returned _ _ _ Hjob) in Htr.
  rewrite Hsubmit in Hres, Htr.
  apply bind_returned_inv in Hres as (waited & Hwait & Hres).
  rewrite (trace_bind_returned _ _ _ Hwait) in Htr.
  destruct waited; cbn [negb] in Hres, Htr; [|discriminate Hres].
  apply bind_returned_inv in Hres as (completed & Hcheck & Hres).
  rewrite (trace_bind_returned _ _ _ Hcheck) in Htr.
  destruct completed; cbn [negb] in Hres, Htr; [|discriminate Hres].
  unfold Md._write_job_script in Hscript, Htr.
  unfold Md._submit_job in Hjob, Htr. rewrite Hsubmit in Hjob, Htr.
  unfold Md._wait_for_job in Hwait, Htr.
  unfold Md._check_job_completed in Hcheck, Htr.
  cbn [bind emit lift ret result trace fst snd app] in Hscript, Hjob, Hwait,
    Hcheck.
  destruct (do_write_job_script b _ _ _) eqn:Escript; [|discriminate Hscript].
  injection Hscript as ->.
  destruct (do_submit_job b _ _) eqn:Ejob; [|discriminate Hjob].
  injection Hjob as ->.
  destruct (do_wait_for_job b _ _ _) eqn:Ewait; [|discriminate Hwait].
  injection Hwait as ->.
  destruct (do_check_job_completed b _) eqn:Echeck; [|discriminate Hcheck].
  injection Hcheck as ->.
  exists (trace (Call.mkdir w (Md.md_dir self))
          ++ trace (Md.ensure_poscar b (Md.structure_file self)
                      (Md.md_dir self </> "POSCAR"))
          ++ trace (Md._write_md_incar w (Md.md_dir self </> "INCAR"))
          ++ trace (Md._write_kpoints w (Md.md_dir self </> "KPOINTS")
                      (Md.md_dir self </> "POSCAR") (Md.kspacing self))
          ++ trace (Md.prepare_potcar b (Md.md_dir self </> "POSCAR")
                      (Md.md_dir self </> "POTCAR"))), script, job_id.
  split; [|done]. rewrite Htr, <- !(assoc_L (++)). reflexivity.
Qed.

(** X15 ([MdPipeline._write_kpoints]): once the KPOINTS file is open,
    what is written to it is a Gamma-centred automatic mesh whose three
    numbers are integers of at least 1: the numbers of
    [kspacing_to_mesh], which are 1 1 1 when the POSCAR cannot be
    read. *)
Theorem write_kpoints_writes_a_positive_mesh (w : world)
    (kpoints_file poscar_file : string) (kspacing : float) :
  fs_open_write w kpoints_file = Returned tt ->
  exists n1 n2 n3 : Z,
    (1 <= n1 /\ 1 <= n2 /\ 1 <= n3)%Z
    /\ Md._write_kpoints w kpoints_file poscar_file kspacing
       = ([EvFileWrite kpoints_file ("Automatic mesh" +:+ Utils.nl);
           EvFileWrite kpoints_file ("0" +:+ Utils.nl);
           EvFileWrite kpoints_file ("Gamma" +:+ Utils.nl);
           EvFileWrite kpoints_file
             (pretty n1 +:+ " " +:+ pretty n2 +:+ " " +:+ pretty n3
              +:+ Utils.nl);
           EvFileWrite kpoints_file ("0 0 0" +:+ Utils.nl)],
          Returned tt).
Proof.
  intros Hopen. unfold Md._write_kpoints. rewrite Hopen.
  pose proof (mesh_ge_1 w poscar_file kspacing) as Hmesh. cbv zeta in Hmesh.
  destruct (Utils.kspacing_to_mesh w poscar_file kspacing) as [[n1 n2] n3].
  exists n1, n2, n3. split; [exact Hmesh | reflexivity].
Qed.


(** ** Reading an OUTCAR *)

Section Substrings.
Implicit Types (needle s t : string).

Lemma prefix_app needle s t :
  String.prefix needle s = true -> String.prefix needle (s +:+ t) = true.
Proof.
  revert s. induction needle as [|c needle IH]; intros s H.
  - by destruct (s +:+ t).
  - destruct s as [|d s]; [discriminate H|].
    simpl in *. destruct (ascii_dec c d); [by apply IH | discriminate H].
Qed.

Lemma contains_app_l needle s t :
  Utils.contains needle s = true -> Utils.contains needle (s +:+ t) = true.
Proof.
  induction s as [|c s IH]; cbn [Utils.contains String.append].
  - rewrite orb_false_r. intros H.
    destruct needle; [|discriminate H]. by destruct t.
  - intros [H|H]%orb_true_iff; apply orb_true_iff.
    + left. by apply (prefix_app needle (String c s) t).
    + right. by apply IH.
Qed.

Lemma contains_app_r needle s t :
  Utils.contains needle t = true -> Utils.contains needle (s +:+ t) = true.
Proof.
  intros H. induction s as [|c s IH]; [done|].
  cbn [Utils.contains String.append]. apply orb_true_iff. by right.
Qed.

(** A text holds what one of its lines holds. *)
Lemma contains_concat needle (lines : list string) line :
  line ∈ lines -> Utils.contains needle line = true ->
  Utils.contains needle (String.concat "" lines) = true.
Proof.
  intros Hin Hline. induction lines as [|first lines IH];
    [by apply elem_of_nil in Hin|].
  destruct lines as [|next lines].
  - apply list_elem_of_singleton in Hin. by subst.
  - change (String.concat "" (first :: next :: lines))
      with (first +:+ "" +:+ String.concat "" (next :: lines)).
    apply elem_of_cons in Hin as [->|Hin].
    + by apply contains_app_l.
    + apply contains_app_r. apply (contains_app_r _ ""). by apply IH.
Qed.

End Substrings.

(** X16 ([check_convergence], [check_vasp_completion]): a calculation
    that [check_convergence] accepts is accepted by
    [check_vasp_completion] as well, whatever criterion is asked for, as
    long as the OUTCAR reads as the text of its lines. *)
Theorem convergence_implies_completion (w : world)
    (work_dir criterion : string) :
  (forall lines,
     fs_readlines w (work_dir </> "OUTCAR") = Returned lines ->
     fs_read_text w (work_dir </> "OUTCAR")
     = Returned (String.concat "" lines)) ->
  Outcar.check_convergence w work_dir criterion = true ->
  Outcar.check_vasp_completion w work_dir = true.
Proof.
  intros Hread. unfold Outcar.check_convergence, Outcar.check_vasp_completion.
  destruct (negb _); [done|].
  destruct (fs_readlines w _) as [lines|e]; [|done].
  rewrite (Hread lines eq_refl).
  intros (line & Hin & Hline)%existsb_exists.
  rewrite <- list_elem_of_In, elem_of_reverse in Hin.
  by rewrite (contains_concat _ lines line Hin Hline).
Qed.

Section LastEnergy.
Variable w : world.
Implicit Types (lines before after : list string) (line : string).

Lemma find_skips {A} (f : A -> bool) (skipped : list A) (x : A)
    (rest : list A) :
  Forall (fun y => f y = false) skipped -> f x = true ->
  find f (skipped ++ x :: rest) = Some x.
Proof.
  intros Hskip Hx. induction Hskip as [|y skipped Hy _ IH]; cbn [app find].
  - by rewrite Hx.
  - by rewrite Hy.
Qed.

End LastEnergy.

(** X17 ([extract_final_energy]): the energy is read from the last line
    of the OUTCAR that holds the marker, as the number its last word
    spells.  Earlier lines with the marker are never read: when the
    last word of that line is no number, the result is [None]. *)
Theorem extract_final_energy_reads_last_marker (w : world)
    (work_dir : string) (before after : list string) (line : string) :
  fs_exists w (work_dir </> "OUTCAR") = true ->
  fs_readlines w (work_dir </> "OUTCAR")
  = Returned (before ++ line :: after) ->
  Utils.contains "energy  without entropy" line = true ->
  Forall (fun l => Utils.contains "energy  without entropy" l = false)
    after ->
  Utils.extract_final_energy w work_dir
  = match last (str_split w line) with
    | Some word =>
        match float_of_str w word with
        | Some x => VFloat x
        | None => VNone
        end
    | None => VNone
    end.
Proof.
  intros Hexists Hlines Hline Hafter. unfold Utils.extract_final_energy.
  rewrite Hexists, Hlines. cbn [negb].
  rewrite reverse_app, reverse_cons, <- (assoc_L (++)). cbn [app].
  rewrite (find_skips _ (reverse after) line); [done| |done].
  by apply Forall_reverse.
Qed.


(** ** The phonon command on one structure file *)

Section PhononSingle.
Variable w : world.
Implicit Types (s : Cli.setup) (kw : dict) (p : float).

(** A call whose spread dictionary repeats none of the keywords given
    by name constructs the object on all of them. *)
Lemma call_cls_fresh (cls : pipeline_class)
    (explicit : list (string * value)) kw :
  Forall (fun kv => kw !! kv.1 = None) explicit ->
  Call.call_cls cls explicit kw
  = (emit (EvInit (pc_name cls) (Py.dict_of explicit ∪ kw)) ;;;
     inst <- lift (pc_new cls (Py.dict_of explicit ∪ kw)) ;;
     ret {| Call.obj_cls := pc_name cls;
            Call.obj_kwargs := Py.dict_of explicit ∪ kw;
            Call.obj_inst := inst |}).
Proof.
  intros Hfresh. unfold Call.call_cls.
  replace (find _ explicit) with (@None (string * value)); [done|].
  symmetry. induction Hfresh as [|kv l Hkv _ IH]; [done|].
  cbn [find]. rewrite Hkv, bool_decide_eq_false_2; [exact IH|].
  by intros [? ?].
Qed.

Lemma phonon_kwargs_fresh final_config kw k :
  result (Commands.phonon_kwargs final_config) = Returned kw ->
  k ∈ ["structure_file"; "work_dir"; "pressure"] ->
  kw !! k = None.
Proof.
  unfold Commands.phonon_kwargs. intros H Hk. inv_bind H.
  injection H as <-.
  repeat (apply elem_of_cons in Hk as [->|Hk]; [reflexivity|]).
  by apply elem_of_nil in Hk.
Qed.

Lemma phonon_turn_go s kw p :
  result (Commands.phonon_kwargs (Cli.final_config s)) = Returned kw ->
  result (Commands.phonon_turn w s kw p) = Returned (Cli.Go tt)
  <-> Single.succeeds w (PhononPropertiesPipeline w)
        (Cli.base_root s </> Cli.format_pressure_dir w p)
        (Single.phonon_call w s kw p).
Proof.
  intros Hkw. unfold Commands.phonon_turn, Single.succeeds,
    Single.phonon_call.
  rewrite call_cls_fresh.
  2:{ repeat constructor; cbn [fst];
        eapply phonon_kwargs_fresh; try eassumption;
        repeat first [left | right]. }
  set (kwargs := Py.dict_of _ ∪ kw).
  rewrite !result_bindF, !result_liftF. unfold Call.mkdir.
  destruct (fs_mkdir w _) as [[]|e]; cbn [bind emit lift result fst snd].
  2:{ split; [intros H; discriminate H | intros [? _]; discriminate]. }
  destruct (pc_new _ kwargs) as [inst|e];
    cbn [bind emit lift ret result fst snd].
  2:{ split; [intros H; discriminate H | intros [_ (? & ? & _)]; discriminate]. }
  rewrite !result_bindF, !result_liftF. unfold Call.run.
  cbn [bind emit lift ret result fst snd Call.obj_inst].
  destruct (inst_run inst) as [[]|e] eqn:Hrun; cbn.
  - split; [|done]. intros _. split; [done|]. by exists inst.
  - split; [intros H; discriminate H|].
    intros [_ (? & [= <-] & H)]. rewrite Hrun in H. discriminate H.
  - split; [intros H; discriminate H|].
    intros [_ (? & [= <-] & H)]. rewrite Hrun in H. discriminate H.
Qed.

Lemma phonon_turn_exit s kw p c :
  result (Commands.phonon_turn w s kw p) = Returned (Cli.SysExit c) ->
  c = 1%Z.
Proof.
  unfold Commands.phonon_turn. intros H.
  apply bindF_exit_inv in H as [H | ([] & _ & H)];
    [by apply liftF_exit_inv in H|].
  apply bindF_exit_inv in H as [H | (pipeline & _ & H)];
    [by apply liftF_exit_inv in H|].
  apply bindF_exit_inv in H as [H | (ok & _ & H)];
    [by apply liftF_exit_inv in H|].
  destruct ok; [discriminate H | by injection H as <-].
Qed.

End PhononSingle.

(** X18 ([command_phonon]): on one structure file, the phonon command
    exits with 0 exactly when, for every pressure, the directory of the
    pressure can be made, the pipeline is constructed (on the structure,
    that directory, the pressure and the shared keyword arguments) and
    its [run()] returns [True]; in every other case it exits with 1. *)
Theorem phonon_single_file_exit_code (w : world) (args : dict)
    (s : Cli.setup) (kw : dict) :
  result (Cli.read_setup w args) = Returned (Cli.Go s) ->
  Cli.is_batch s = false ->
  Exit.well_typed s ->
  result (Commands.phonon_kwargs (Cli.final_config s)) = Returned kw ->
  (Cli.exit_code (Commands.command_phonon w args) = 0%Z
   <-> forall p, p ∈ Cli.pressures s ->
         Single.succeeds w (PhononPropertiesPipeline w)
           (Cli.base_root s </> Cli.format_pressure_dir w p)
           (Single.phonon_call w s kw p))
  /\ (Cli.exit_code (Commands.command_phonon w args) = 0%Z
      \/ Cli.exit_code (Commands.command_phonon w args) = 1%Z).
Proof.
  intros Hs Hsingle Htyped Hkw.
  assert (Cli.exit_code (Commands.command_phonon w args)
          = match result (Cli.for_each (Commands.phonon_turn w s kw)
                            (Cli.pressures s)) with
            | Returned (Cli.Go _) => 0
            | Returned (Cli.SysExit c) => c
            | Raised _ => 1
            end%Z) as ->.
  { destruct (tasks_gt_one_typed s Htyped) as [flag Hflag].
    rewrite <- exit_code_guarded. apply exit_code_of_result.
    unfold Commands.command_phonon.
    rewrite result_bindF, Hs, result_bindF, result_liftF, Hflag.
    cbn [result ret snd]. rewrite !result_try_except.
    by rewrite result_bindF, result_liftF, Hkw, Hsingle. }
  destruct (result (Cli.for_each _ _)) as [[[]|c]|e] eqn:Hloop.
  - split; [|by left]. split; [|done]. intros _ p Hp.
    apply phonon_turn_go; [done|]. by eapply for_each_go.
  - assert (c = 1%Z) as ->.
    { eapply for_each_exit; [|exact Hloop]. intros q c'.
      apply phonon_turn_exit. }
    split; [|by right]. split; [done|]. intros Hall. exfalso.
    assert (result (Cli.for_each (Commands.phonon_turn w s kw)
                      (Cli.pressures s)) = Returned (Cli.Go tt)) as Hgo.
    { apply for_each_go. intros p Hp. apply phonon_turn_go; auto. }
    congruence.
  - split; [|by right]. split; [done|]. intros Hall. exfalso.
    assert (result (Cli.for_each (Commands.phonon_turn w s kw)
                      (Cli.pressures s)) = Returned (Cli.Go tt)) as Hgo.
    { apply for_each_go. intros p Hp. apply phonon_turn_go; auto. }
    congruence.
Qed.

(** X19 ([_run_single_pipeline]): when the keyword arguments of the
    pipeline repeat none of [structure_file], [work_dir] and [pressure],
    the worker records its unit as a success exactly when the directory
    of the unit can be made, the class constructs an object on the three
    named arguments and the keyword arguments, and [run()] on that
    object returns [True]. *)
Theorem single_pipeline_success (w : world) (cls : pipeline_class)
    (s wd : string) (kw : dict) (p : float) :
  Forall (fun k => kw !! k = None) ["structure_file"; "work_dir"; "pressure"] ->
  exists r,
    result (Cli._run_single_pipeline w cls s wd kw p) = Returned r
    /\ (r !! "success" = Some (VBool true)
        <-> Single.succeeds w cls wd
              (Py.dict_of [("structure_file", VPath s);
                           ("work_dir", VPath wd);
                           ("pressure", VFloat p)] ∪ kw)).
Proof.
  intros Hfresh. unfold Cli._run_single_pipeline, Cli.single_try,
    Single.succeeds.
  rewrite call_cls_fresh.
  2:{ inversion_clear Hfresh as [|? ? ? Hrest].
      inversion_clear Hrest as [|? ? ? Hrest'].
      inversion_clear Hrest' as [|? ? ? _]. by repeat constructor. }
  set (kwargs := Py.dict_of _ ∪ kw).
  rewrite result_try_except. unfold Call.mkdir, Call.run.
  destruct (fs_mkdir w wd) as [[]|e]; cbn [bind emit lift result fst snd].
  2:{ eexists. split; [reflexivity|].
      split; [intros H; discriminate H | intros [H _]; discriminate H]. }
  destruct (pc_new cls kwargs) as [inst|e] eqn:Hnew;
    cbn [bind emit lift ret result fst snd Call.obj_inst].
  2:{ eexists. split; [reflexivity|].
      split; [intros H; discriminate H|].
      intros [_ (? & H & _)]. discriminate H. }
  destruct (inst_run inst) as [ok|e] eqn:Hrun;
    cbn [bind emit lift ret result fst snd].
  - eexists. split; [reflexivity|].
    assert (Py.dict_of [("structure", VPath s); ("pressure", VFloat p);
                        ("success", VBool ok)] !! "success"
            = Some (VBool ok)) as -> by reflexivity.
    split.
    + intros [= ->]. split; [done|]. by exists inst.
    + intros [_ (? & [= <-] & H)]. rewrite Hrun in H. by injection H as ->.
  - eexists. split; [reflexivity|].
    split; [intros H; discriminate H|].
    intros [_ (? & [= <-] & H)]. rewrite Hrun in H. discriminate H.
Qed.


(** ** The MD command on a directory *)

Section MdBatch.
Variable w : world.
Implicit Types (s : Cli.setup) (kw : dict) (p : float).

Lemma md_kwargs_typed s p :
  Exit.well_typed s ->
  exists kw, Commands.md_kwargs (Cli.final_config s) p = ret kw.
Proof.
  intros [_ [pd Hpd]]. unfold Commands.md_kwargs. rewrite Hpd, bind_ret_l.
  by eexists.
Qed.

(** The constructor of a batch on a directory that exists. *)
Lemma batch_init_returns cls dir root (kwargs : option dict) parallel mw
    exts label :
  fs_mkdir w root = Returned tt ->
  fs_exists w dir = true ->
  exists self,
    result (Batch.init w cls dir root kwargs parallel mw exts label)
    = Returned self
    /\ Batch.parallel self = parallel
    /\ Batch.work_root self = root.
Proof.
  intros Hroot Hdir. unfold Batch.init, Call.mkdir, Batch._scan_structure_files.
  rewrite Hroot, Hdir. cbn [negb].
  eexists. split; [reflexivity|]. by split.
Qed.

(** One turn of the loop of [command_md] on a directory, in a serial
    batch: the turn goes on, whatever the pipelines do. *)
Lemma md_turn_batch s p :
  Cli.is_batch s = true ->
  Exit.well_typed s ->
  fs_exists w (Cli.input_path s) = true ->
  fs_open_write w (Cli.base_root s </> "batch_summary.txt") = Returned tt ->
  (forall dir, fs_mkdir w dir = Returned tt) ->
  result (Commands.md_turn w s false (Py.or_ (Cli.tasks s) (VInt 1)) p)
  = Returned (Cli.Go tt).
Proof.
  intros Hbatch Htyped Hdir Hopen Hmk.
  destruct (md_kwargs_typed s p Htyped) as [kw Hkw].
  unfold Commands.md_turn. rewrite Hbatch, Hkw.
  rewrite result_bindF, result_liftF. cbn [result ret snd].
  destruct (batch_init_returns (MdPipeline w) (Cli.input_path s)
              (Cli.base_root s) (Some kw) false
              (Commands.pool_size (Py.or_ (Cli.tasks s) (VInt 1)))
              (Some (Cli.structure_exts s))
              (Some (Cli.format_pressure_dir w p)) (Hmk _) Hdir)
    as (self & Hself & Hserial & Hroot).
  rewrite result_bindF, result_liftF, Hself.
  rewrite result_bindF, result_liftF. cbn [Commands.pool_check result ret snd].
  destruct (batch_run_serial_returns w self Hserial Hmk) as [results Hres];
    [by rewrite Hroot|].
  rewrite result_bindF, result_liftF, Hres. reflexivity.
Qed.

End MdBatch.

(** X20 ([command_md], [BatchPipeline]): a serial batch [md] on a
    directory exits with 0 whenever the directories and the summary
    report can be written, whatever the pipelines of the units do:
    units that fail, or whose pipeline raises, do not change the exit
    code. *)
Theorem batch_md_exit_code_ignores_unit_failures (w : world) (args : dict)
    (s : Cli.setup) :
  result (Cli.read_setup w args) = Returned (Cli.Go s) ->
  Cli.is_batch s = true ->
  Exit.well_typed s ->
  Cli.tasks_gt_one (Cli.tasks s) = ret false ->
  fs_exists w (Cli.input_path s) = true ->
  fs_open_write w (Cli.base_root s </> "batch_summary.txt") = Returned tt ->
  (forall dir, fs_mkdir w dir = Returned tt) ->
  Cli.exit_code (Commands.command_md w args) = 0%Z.
Proof.
  intros Hs Hbatch Htyped Hserial Hdir Hopen Hmk.
  unfold Cli.exit_code, Commands.command_md.
  rewrite result_bindF, Hs, result_bindF, result_liftF, Hserial.
  cbn [result ret snd]. rewrite result_try_except.
  replace (result (Cli.for_each _ _)) with (Returned (Cli.Go tt)); [done|].
  symmetry. apply for_each_go. intros p _. by apply md_turn_batch.
Qed.


(** ** Preparing a POTCAR *)

Section PotcarFacts.
Context {T : Type}.
Variables (w : world) (sh : Potcar.shell T).
Implicit Types (t : T) (element : string) (candidates : list string)
               (elements content : list string).

Lemma first_candidate candidates c :
  result (c0 <- Utils.index candidates 0 ;; ret (Some c0))
  = Returned (Some c) ->
  c ∈ candidates.
Proof.
  destruct candidates as [|c0 rest]; [discriminate 1|].
  intros [= <-]. left.
Qed.

Lemma search_roots_spec t element roots acc c :
  Potcar.search_roots w sh t element roots acc = Returned c ->
  forall x, x ∈ c ->
    x ∈ acc
    \/ exists child,
         x = child </> "POTCAR"
         /\ Potcar.sh_is_dir sh t child = true
         /\ Potcar.sh_exists sh t x = true
         /\ String.prefix (str_lower w element)
              (str_lower w (PathLib.name child)) = true.
Proof.
  revert acc. induction roots as [|root roots IH]; intros acc;
    cbn [Potcar.search_roots].
  - intros [= <-] x Hx. by left.
  - destruct (negb _); [apply IH|].
    destruct (Potcar.sh_iterdir sh t root) as [children|e]; [|discriminate 1].
    intros H x Hx. destruct (IH _ H x Hx) as [Hacc|Hnew]; [|by right].
    apply elem_of_app in Hacc as [Hacc|Hunder]; [by left|]. right.
    unfold Potcar.candidates_under in Hunder.
    apply list_elem_of_bind in Hunder as (child & Hunder & _).
    destruct (Potcar.sh_is_dir sh t child) eqn:Hdir;
      [|by apply elem_of_nil in Hunder].
    destruct (String.prefix _ _) eqn:Hprefix;
      [|by apply elem_of_nil in Hunder].
    cbn [andb] in Hunder.
    destruct (Potcar.sh_exists sh t (child </> "POTCAR")) eqn:Hexists;
      [|by apply elem_of_nil in Hunder].
    apply list_elem_of_singleton in Hunder as ->. by exists child.
Qed.

(** A dictionary in the place of the directory of pseudopotentials is
    never read: the loop over the elements ends as without a
    directory, with an exception where that one returns. *)
Lemma collect_dict lib ty (d : dict) elements content t :
  (Potcar.collect w sh lib (VDict d) ty elements content t).1
  = (Potcar.collect w sh lib VNone ty elements content t).1
  /\ match (Potcar.collect w sh lib (VDict d) ty elements content t).2 with
     | Returned (Some c) =>
         (Potcar.collect w sh lib VNone ty elements content t).2
         = Returned (Some c)
     | Returned None =>
         (Potcar.collect w sh lib VNone ty elements content t).2
         = Returned None
     | Raised e =>
         (Potcar.collect w sh lib VNone ty elements content t).2 = Raised e
         \/ (Potcar.collect w sh lib VNone ty elements content t).2
            = Returned None
     end.
Proof.
  revert content t. induction elements as [|element rest IH];
    intros content t; [done|].
  remember (Potcar.collect w sh lib (VDict d) ty (element :: rest) content t)
    as rd eqn:Hd.
  remember (Potcar.collect w sh lib VNone ty (element :: rest) content t)
    as rn eqn:Hn.
  cbn [Potcar.collect] in Hd, Hn.
  cbv beta zeta iota
    delta [Potcar.sbind Potcar.sread Potcar.sret Potcar.fetch fst snd
           Py.truthy negb] in Hd, Hn.
  destruct (Potcar._locate_potcar_in_lib sh t lib element) as [existing|].
  - destruct (Potcar.sh_read_text sh t existing) as [text|e].
    + subst rd rn. apply IH.
    + subst rd rn. split; [done | by left].
  - destruct (Nat.eqb (size d) 0).
    + subst rd rn. by split.
    + subst rd rn. split; [done | by right].
Qed.

End PotcarFacts.

(** X21 ([_prompt_choose_potcar]): on a list of candidates that is not
    empty, whatever line is typed, the prompt returns one of the
    candidates or none at all; whenever it returns a choice, that is one
    of the candidates; a single candidate is chosen without asking (the
    state is left as it was), and an empty answer chooses the first
    candidate.  On an empty list an empty answer raises [IndexError],
    and an exception of [input] is not caught. *)
Theorem prompt_chooses_a_candidate {T : Type} (w : world)
    (sh : Potcar.shell T) (element : string) (candidates : list string)
    (t : T) :
  (forall line,
     candidates <> [] ->
     (Potcar.sh_input sh t).2 = Returned line ->
     exists choice,
       (Potcar._prompt_choose_potcar w sh element candidates t).2
       = Returned choice
       /\ forall c, choice = Some c -> c ∈ candidates)
  /\ (forall c,
        (Potcar._prompt_choose_potcar w sh element candidates t).2
        = Returned (Some c) ->
        c ∈ candidates)
  /\ (forall c,
        candidates = [c] ->
        Potcar._prompt_choose_potcar w sh element candidates t
        = (t, Returned (Some c)))
  /\ (forall line c rest,
        (Potcar.sh_input sh t).2 = Returned line ->
        str_strip w line = "" ->
        candidates = c :: rest ->
        (Potcar._prompt_choose_potcar w sh element candidates t).2
        = Returned (Some c))
  /\ (forall line,
        (Potcar.sh_input sh t).2 = Returned line ->
        str_strip w line = "" ->
        candidates = [] ->
        (Potcar._prompt_choose_potcar w sh element candidates t).2
        = Raised Utils.IndexError)
  /\ (forall exc,
        (Potcar.sh_input sh t).2 = Raised exc ->
        length candidates <> 1 ->
        (Potcar._prompt_choose_potcar w sh element candidates t).2
        = Raised exc).
Proof.
  unfold Potcar._prompt_choose_potcar. repeat apply conj.
  - intros line Hsome Hline.
    destruct candidates as [|c0 rest]; [done|].
    destruct (_ =? _)%nat.
    { exists (Some c0). split; [done|]. intros c [= <-]. left. }
    unfold Potcar.sbind. rewrite Hline.
    destruct (String.eqb _ _).
    { exists (Some c0). split; [done|]. intros c [= <-]. left. }
    destruct (Potcar.sh_int sh _) as [num|]; [|by exists None].
    destruct (_ && _); [|by exists None].
    eexists. split; [reflexivity|].
    intros c Hc. by eapply list_elem_of_lookup_2.
  - intros c. destruct (_ =? _)%nat; [apply first_candidate|].
    unfold Potcar.sbind.
    destruct (Potcar.sh_input sh t) as [t' [line|e]]; cbn [fst snd];
      [|discriminate 1].
    destruct (String.eqb _ _); [apply first_candidate|].
    destruct (Potcar.sh_int sh _) as [num|]; [|discriminate 1].
    destruct (_ && _); [|discriminate 1].
    intros [= H]. by eapply list_elem_of_lookup_2.
  - by intros c ->.
  - intros line c rest Hline Hempty ->.
    destruct (_ =? _)%nat eqn:Hone.
    + reflexivity.
    + unfold Potcar.sbind. rewrite Hline, Hempty. reflexivity.
  - intros line Hline Hempty ->. cbn [length Nat.eqb].
    unfold Potcar.sbind. rewrite Hline, Hempty. reflexivity.
  - intros exc Hexc Hlen.
    destruct (_ =? _)%nat eqn:Hone; [by apply Nat.eqb_eq in Hone|].
    unfold Potcar.sbind. by rewrite Hexc.
Qed.

(** X22 ([_search_potcar_candidates]): every candidate the search
    returns is the [POTCAR] that exists in a directory whose name
    starts, letter case apart, with the element symbol: the search
    for [C] also returns the pseudopotentials of [Ca], [Cu] and
    the like. *)
Theorem search_returns_prefix_matches {T : Type} (w : world)
    (sh : Potcar.shell T) (t : T) (potcar_dir : value)
    (element potcar_type : string) (candidates : list string) (c : string) :
  Potcar._search_potcar_candidates w sh t potcar_dir element potcar_type
  = Returned candidates ->
  c ∈ candidates ->
  exists child,
    c = child </> "POTCAR"
    /\ Potcar.sh_is_dir sh t child = true
    /\ Potcar.sh_exists sh t c = true
    /\ String.prefix (str_lower w element) (str_lower w (PathLib.name child))
       = true.
Proof.
  unfold Potcar._search_potcar_candidates.
  destruct (result (Call.Path potcar_dir)) as [base_dir|e]; [|discriminate 1].
  intros H Hc.
  destruct (search_roots_spec w sh t element _ [] candidates H c Hc)
    as [[]%elem_of_nil|Hchild].
  exact Hchild.
Qed.

(** X23 ([prepare_potcar], called by [MdPipeline._run_md] with its
    [potcar_map]): a dictionary given in the place of the directory of
    pseudopotentials is never read.  The call ends in the same state
    and with the same result as a call without a directory: it returns
    [True] only when every element already has its pseudopotential in
    [potcar_lib]. *)
Theorem prepare_potcar_ignores_a_dictionary {T : Type} (w : world)
    (sh : Potcar.shell T) (poscar_file : string) (d : dict)
    (output_file potcar_type : string) (potcar_lib_root : option string)
    (t : T) :
  Potcar.prepare_potcar w sh poscar_file (VDict d) output_file potcar_type
    potcar_lib_root t
  = Potcar.prepare_potcar w sh poscar_file VNone output_file potcar_type
      potcar_lib_root t.
Proof.
  unfold Potcar.prepare_potcar, Potcar.stry, Potcar.sbind, Potcar.sread,
    Potcar.sret.
  cbv zeta. cbn [fst snd].
  destruct (Potcar._parse_poscar_elements w sh t poscar_file)
    as [|element elements]; [done|].
  destruct (Potcar.sh_mkdir sh t _) as [t1 [[]|e]]; cbn [fst snd]; [|done].
  destruct (collect_dict w sh (default (fs_cwd w </> "potcar_lib")
                                 potcar_lib_root)
              potcar_type d (element :: elements) [] t1) as [Hstate Hresult].
  destruct (Potcar.collect w sh _ (VDict d) _ _ _ t1) as [t2 r2].
  destruct (Potcar.collect w sh _ VNone _ _ _ t1) as [t3 r3].
  cbn [fst snd] in *. subst t3.
  destruct r2 as [[c|]|e].
  - by rewrite Hresult.
  - by rewrite Hresult.
  - destruct Hresult as [-> | ->]; reflexivity.
Qed.

(** X24 ([prepare_potcar], [_parse_poscar_elements]): when no element
    symbol can be read from the POSCAR (the file cannot be read, has
    fewer than six lines, or its sixth line holds numbers only), the
    call returns [False] and touches nothing: no directory is made and
    no question is asked. *)
Theorem prepare_potcar_without_elements {T : Type} (w : world)
    (sh : Potcar.shell T) (poscar_file : string) (potcar_dir : value)
    (output_file potcar_type : string) (potcar_lib_root : option string)
    (t : T) :
  (match Potcar.sh_read_text sh t poscar_file with
   | Raised _ => True
   | Returned text =>
       length (str_splitlines w text) < 6
       \/ exists line,
            str_splitlines w text !! 5 = Some line
            /\ Forall (fun item =>
                         Potcar.sh_isdigit sh (Potcar.remove_first_dot item)
                         = true)
                 (str_split w line)
   end) ->
  Potcar.prepare_potcar w sh poscar_file potcar_dir output_file potcar_type
    potcar_lib_root t
  = (t, Returned false).
Proof.
  intros Hnone. unfold Potcar.prepare_potcar, Potcar.stry, Potcar.sbind,
    Potcar.sread, Potcar.sret.
  cbv zeta. cbn [fst snd].
  replace (Potcar._parse_poscar_elements w sh t poscar_file)
    with (@nil string); [done|].
  symmetry. unfold Potcar._parse_poscar_elements.
  destruct (Potcar.sh_read_text sh t poscar_file) as [text|e]; [|done].
  destruct Hnone as [Hshort | (line & Hline & Hdigits)].
  - by rewrite (proj2 (Nat.ltb_lt _ _) Hshort).
  - destruct (_ <? _)%nat; [done|]. rewrite Hline.
    replace (forallb _ _) with true; [done|].
    symmetry. induction Hdigits as [|item items Hitem _ IH]; [done|].
    cbn [forallb]. by rewrite Hitem.
Qed.


(** ** The phonon command on a directory *)

Section PhononBatch.
Variable w : world.
Implicit Types (s : Cli.setup) (kw : dict) (p : float).

Local Abbreviation no_summary := (fun ev => Observe.summaries [ev] = []).

Lemma summaries_none (tr : list event) :
  Forall no_summary tr -> Observe.summaries tr = [].
Proof.
  induction 1 as [|ev tr Hev _ IH]; [done|].
  change (ev :: tr) with ([ev] ++ tr). by rewrite summaries_app, Hev, IH.
Qed.

(** The worker of a unit logs no summary. *)
Lemma worker_no_summary cls st wd kw p :
  Forall no_summary (trace (Cli._run_single_pipeline w cls st wd kw p)).
Proof.
  unfold Cli._run_single_pipeline. apply all_try_except; [|constructor].
  unfold Cli.single_try, Call.mkdir.
  apply all_bind; [by repeat constructor|]. intros _ _.
  apply all_bind.
  { unfold Call.call_cls. destruct (find _ _); [constructor|].
    apply all_bind; [by repeat constructor|]. intros _ _.
    apply all_bind; constructor. }
  intros pipeline _. apply all_bind; [|constructor].
  unfold Call.run. by repeat constructor.
Qed.

Lemma success_count_Permutation (l l' : list dict) :
  l ≡ₚ l' -> Cli.success_count l = Cli.success_count l'.
Proof. unfold Cli.success_count. by intros ->. Qed.

End PhononBatch.

(** X25 ([command_phonon], [_run_matrix_tasks]): on a directory in which
    structure files are found, the phonon command schedules one task
    matrix over all structures and pressures, logs a single summary and
    exits with 0.  The summary counts the units whose record is a
    success, out of structures x pressures results; the count does not
    depend on the order in which the units complete. *)
Theorem batch_phonon_one_summary (w : world) (args : dict) (s : Cli.setup)
    (kw : dict) :
  result (Cli.read_setup w args) = Returned (Cli.Go s) ->
  Cli.is_batch s = true ->
  Exit.well_typed s ->
  Exit.found w s <> [] ->
  result (Commands.phonon_kwargs (Cli.final_config s)) = Returned kw ->
  Observe.summaries (trace (Commands.command_phonon w args))
  = [(Cli.success_count
        (Matrix.unit_record w (Cli.base_root s)
           (Some (PhononPropertiesPipeline w)) kw false
           <$> list_prod (Exit.found w s) (Cli.pressures s)),
      length (Exit.found w s) * length (Cli.pressures s))]
  /\ Cli.exit_code (Commands.command_phonon w args) = 0%Z.
Proof.
  intros Hs Hbatch Htyped Hfound Hkw.
  destruct (tasks_gt_one_typed s Htyped) as [flag Hflag].
  destruct (as_int_typed s Htyped) as [mw Hmw].
  unfold Exit.found in *.
  set (limit := if (0 <? mw)%Z then mw else 1%Z).
  pose proof (_run_matrix_tasks_results w (Cli.base_root s)
                (Some (PhononPropertiesPipeline w)) kw false
                ltac:(by eexists)
                (Cli.scan_structure_files w (Cli.input_path s)
                   (Cli.structure_exts s))
                (Cli.pressures s) limit false) as Hres.
  split.
  - unfold Commands.command_phonon.
    rewrite trace_bindF, (trace_quiet (Cli.read_setup w args)), Hs
      by apply all_read_setup.
    rewrite trace_bindF, trace_liftF, result_liftF, Hflag.
    cbn [trace ret fst result snd app].
    rewrite trace_try_except, trace_bindF, trace_liftF, !result_bindF,
      !result_liftF, Hkw, Hbatch.
    rewrite (trace_quiet (Commands.phonon_kwargs _)).
    2:{ unfold Commands.phonon_kwargs.
        apply all_bind; [apply all_optional_path | constructor]. }
    destruct (Cli.scan_structure_files _ _ _) as [|f files] eqn:Hscan;
      [done|].
    rewrite trace_bindF, trace_liftF, !result_bindF, !result_liftF, Hmw.
    cbn [trace ret fst result snd app].
    rewrite trace_bindF, trace_liftF, !result_bindF, !result_liftF.
    fold limit. rewrite Hres.
    cbn [trace ret emit bind lift fst result snd app Cli.liftF].
    rewrite app_nil_r, summaries_app.
    rewrite (summaries_none (trace (Cli._run_matrix_tasks _ _ _ _ _ _ _ _ _))).
    2:{ apply all_run_matrix_tasks. intros. apply worker_no_summary. }
    cbn [app]. change (Observe.summaries [EvBatchSummary ?a ?b])
      with [(a, b)]. rewrite length_fmap.
    rewrite (Permutation_length
               (completion_order_Permutation w (f :: files) (Cli.pressures s)
                  limit)), length_prod.
    do 2 f_equal. apply success_count_Permutation, fmap_Permutation,
      completion_order_Permutation.
  - unfold Cli.exit_code, Commands.command_phonon.
    rewrite result_bindF, Hs, result_bindF, result_liftF, Hflag.
    cbn [result ret snd].
    rewrite result_try_except, result_bindF, result_liftF, Hkw, Hbatch.
    destruct (Cli.scan_structure_files _ _ _) as [|f files] eqn:Hscan;
      [done|].
    rewrite result_bindF, result_liftF, Hmw. cbn [result ret snd].
    rewrite result_bindF, result_liftF. fold limit. rewrite Hres.
    reflexivity.
Qed.


(** ** The relax command on a directory *)

Section RelaxBatch.
Variable w : world.
Implicit Types (s : Cli.setup) (kw : dict) (p : float).

(** One turn of the loop of [command_relax] on a directory in which
    structure files are found: one matrix over all the pressures, and
    one summary without a success. *)
Lemma relax_turn_batch_summary s p :
  Exit.well_typed s ->
  Exit.found w s <> [] ->
  Observe.summaries
    (trace (Cli.relax_turn w (Cli.final_config s) (Cli.input_path s)
              (Cli.structure_exts s) (Cli.pressures s) (Cli.base_root s)
              true (Py.or_ (Cli.tasks s) (VInt 1)) p))
  = [(0, length (Exit.found w s) * length (Cli.pressures s))].
Proof.
  intros Htyped Hfound. unfold Exit.found in *.
  destruct (relax_kwargs_typed s p Htyped) as [kw Hkw].
  destruct (as_int_typed s Htyped) as [mw Hmw].
  assert (is_Some (kw !! "pressure")) as Hpressure.
  { apply (relax_kwargs_pressure (Cli.final_config s) p). by rewrite Hkw. }
  unfold Cli.relax_turn.
  rewrite trace_bindF, trace_liftF, result_liftF, Hkw.
  cbn [trace ret fst result snd app].
  destruct (Cli.scan_structure_files _ _ _) as [|f files] eqn:Hscan;
    [done|].
  rewrite trace_bindF, trace_liftF, result_liftF, Hmw.
  cbn [trace ret fst result snd app].
  set (limit := if (0 <? mw)%Z then mw else 1%Z).
  destruct (fruitless_matrix w (f :: files) (Cli.pressures s)
              (Cli.base_root s) (RelaxPipeline w) kw limit Hpressure)
    as [_ Hnone].
  pose proof (_run_matrix_tasks_results w (Cli.base_root s)
                (Some (RelaxPipeline w)) kw false ltac:(by eexists)
                (f :: files) (Cli.pressures s) limit false) as Hres.
  rewrite trace_bindF, trace_liftF, result_liftF, Hres.
  rewrite (Hnone _ Hres), (matrix_length w _ _ _ _ _ _ _ Hres).
  cbn [trace ret emit bind lift fst result snd app Cli.liftF].
  rewrite ?app_nil_r, summaries_app.
  rewrite (summaries_none (trace (Cli._run_matrix_tasks _ _ _ _ _ _ _ _ _))).
  2:{ apply all_run_matrix_tasks. intros. apply worker_no_summary. }
  reflexivity.
Qed.

(** The summaries of a loop whose turns all go on. *)
Lemma summaries_for_each {X} (body : X -> M (Cli.flow unit)) (l : list X)
    (x : nat * nat) :
  (forall a, a ∈ l ->
     result (body a) = Returned (Cli.Go tt)
     /\ Observe.summaries (trace (body a)) = [x]) ->
  Observe.summaries (trace (Cli.for_each body l)) = replicate (length l) x.
Proof.
  induction l as [|a l IH]; intros Hbody; [done|].
  cbn [Cli.for_each length replicate].
  destruct (Hbody a ltac:(left)) as [Hgo Hsum].
  rewrite trace_bindF, Hgo, summaries_app, Hsum.
  cbn [app]. f_equal. apply IH. intros b Hb. apply Hbody. by right.
Qed.

End RelaxBatch.

(** X26 ([command_relax]): on a directory in which structure files are
    found, the relax command schedules the whole task matrix, over all
    structures and all pressures, once for every pressure: the loop
    over the pressures does not break after the matrix.  It logs as
    many summaries as there are pressures, each over structures x
    pressures results and, the pressure being passed twice, without a
    success. *)
Theorem batch_relax_repeats_the_matrix (w : world) (args : dict)
    (s : Cli.setup) :
  result (Cli.read_setup w args) = Returned (Cli.Go s) ->
  Cli.is_batch s = true ->
  Exit.well_typed s ->
  Exit.found w s <> [] ->
  Observe.summaries (trace (Cli.command_relax w args))
  = replicate (length (Cli.pressures s))
      (0, length (Exit.found w s) * length (Cli.pressures s)).
Proof.
  intros Hs Hbatch Htyped Hfound.
  destruct (tasks_gt_one_typed s Htyped) as [flag Hflag].
  unfold Cli.command_relax.
  rewrite trace_bindF, (trace_quiet (Cli.read_setup w args)), Hs
    by apply all_read_setup.
  rewrite trace_bindF, trace_liftF, result_liftF, Hflag.
  cbn [trace ret fst result snd app].
  rewrite trace_try_except, Hbatch.
  assert (forall p, p ∈ Cli.pressures s ->
            result (Cli.relax_turn w (Cli.final_config s) (Cli.input_path s)
                      (Cli.structure_exts s) (Cli.pressures s)
                      (Cli.base_root s) true (Py.or_ (Cli.tasks s) (VInt 1))
                      p) = Returned (Cli.Go tt)
            /\ Observe.summaries
                 (trace (Cli.relax_turn w (Cli.final_config s)
                           (Cli.input_path s) (Cli.structure_exts s)
                           (Cli.pressures s) (Cli.base_root s) true
                           (Py.or_ (Cli.tasks s) (VInt 1)) p))
               = [(0, length (Exit.found w s) * length (Cli.pressures s))])
    as Hturn.
  { intros p _. split; [by apply relax_turn_batch|].
    by apply relax_turn_batch_summary. }
  rewrite (proj2 (for_each_go _ _) (fun p Hp => proj1 (Hturn p Hp))).
  rewrite app_nil_r. by apply summaries_for_each.
Qed.


(** ** The properties above on sample inputs *)

(** The sample directory, in which the scan finds a file, is run in
    batch mode. *)
Lemma scan_found_means_batch_witness :
  Cli.detect_batch_mode Runs.plain_world "structs" [] = true.
Proof.
  apply scan_found_means_batch; [reflexivity | by vm_compute].
Defined.

(** Keyword arguments that hold the pressure: the worker makes the
    directory and records a failure. *)
Lemma single_pipeline_rejects_repeated_keyword_witness :
  trace (Cli._run_single_pipeline Runs.plain_world Runs.picky
           "structs/a.vasp" "/work/a/0_GPa" Cases.pressure_kwargs 0%float)
  = [EvMkdir "/work/a/0_GPa"]
  /\ exists e,
       result (Cli._run_single_pipeline Runs.plain_world Runs.picky
                 "structs/a.vasp" "/work/a/0_GPa" Cases.pressure_kwargs
                 0%float)
       = Returned (Cli.failure_record "structs/a.vasp" 0%float e).
Proof.
  apply (single_pipeline_rejects_repeated_keyword _ _ _ _ _ _ "pressure").
  - by repeat constructor.
  - by eexists.
Defined.

(** [vasp relax -i structs --submit] on the sample directory enters
    no pipeline class. *)
Lemma batch_relax_enters_no_pipeline_witness :
  Forall (fun ev => Observe.enters_class ev = false)
    (trace (Cli.command_relax Runs.plain_world Runs.relax_batch_args))
  /\ Forall (fun x => x.1 = 0)
       (Observe.summaries
          (trace (Cli.command_relax Runs.plain_world Runs.relax_batch_args))).
Proof.
  apply (batch_relax_enters_no_pipeline Runs.plain_world Runs.relax_batch_args
           (Single.setup_of Runs.plain_world Runs.relax_batch_args));
    vm_compute; reflexivity.
Defined.


(** The serial sample batch, whose directories can all be made. *)
Lemma serial_batch_run_witness :
  result (Batch.run Runs.plain_world (Runs.md_batch false))
  = if forallb (Units.dir_made Runs.plain_world (Runs.md_batch false))
         (Batch.structure_files (Runs.md_batch false))
    then Returned (Units.record Runs.plain_world (Runs.md_batch false)
                     <$> Batch.structure_files (Runs.md_batch false))
    else Raised (Py.KeyError "work_dir").
Proof. apply serial_batch_run; reflexivity. Defined.

(** The parallel sample batch, with two workers. *)
Lemma parallel_batch_records_witness :
  exists results,
    result (Batch._run_parallel Runs.plain_world (Runs.md_batch true))
    = Returned results
    /\ results
       ≡ₚ Batch.gather
            ((fun f => (f, result (Batch.process_task Runs.plain_world
                                     (Runs.md_batch true) f)))
               <$> Batch.structure_files (Runs.md_batch true)).
Proof. apply parallel_batch_records. reflexivity. Defined.

(** The two scans on the sample directory, for the suffixes [vasp]
    and [CIF]. *)
Lemma batch_scan_agrees_with_command_scan_witness :
  Batch._scan_structure_files Runs.plain_world "structs" ["vasp"; "CIF"]
  = ret (Cli.scan_structure_files Runs.plain_world "structs" ["vasp"; "CIF"]).
Proof.
  apply batch_scan_agrees_with_command_scan; [reflexivity | done |].
  repeat constructor; by vm_compute.
Defined.

(** Custom steps with a repetition, an unknown name and stray letter
    case. *)
Lemma md_steps_are_md_witness : Md.get_steps Cases.md_built = ["md"].
Proof.
  apply (md_steps_are_md (Sample.ok_world []) Sample.quiet_backend
           "structs/a.vasp" "/work/a/0_GPa" 0.2%float None VNone
           (Some ["MD "; "relax"; "md"]) None None None true).
  vm_compute. reflexivity.
Defined.

(** A submitting MD step on the sample backend, which accepts and
    completes every job. *)
Lemma run_md_success_went_through_the_queue_witness :
  exists calls script job_id,
    trace (Md._run_md Runs.plain_world Sample.quiet_backend
             (Sample.md_pipeline false {["C" := "PBE"]}))
    = calls ++ [EvWriteJobScript "/work/a/0_GPa/01_md" "md";
                EvSubmitJob script "bash";
                EvWaitForJob job_id "/work/a/0_GPa/01_md" "bash";
                EvCheckJobCompleted "/work/a/0_GPa/01_md"]
    /\ do_write_job_script Sample.quiet_backend "/work/a/0_GPa/01_md" "md"
         "bash" = Returned script
    /\ do_submit_job Sample.quiet_backend script "bash" = Returned job_id
    /\ do_wait_for_job Sample.quiet_backend job_id "/work/a/0_GPa/01_md"
         "bash" = Returned true
    /\ do_check_job_completed Sample.quiet_backend "/work/a/0_GPa/01_md"
       = Returned true.
Proof.
  apply (run_md_success_went_through_the_queue Runs.plain_world
           Sample.quiet_backend (Sample.md_pipeline false {["C" := "PBE"]}));
    vm_compute; reflexivity.
Defined.

(** The KPOINTS file of a structure whose POSCAR cannot be read. *)
Lemma write_kpoints_writes_a_positive_mesh_witness :
  exists n1 n2 n3 : Z,
    (1 <= n1 /\ 1 <= n2 /\ 1 <= n3)%Z
    /\ Md._write_kpoints Runs.plain_world "KPOINTS" "POSCAR" 0.2%float
       = ([EvFileWrite "KPOINTS" ("Automatic mesh" +:+ Utils.nl);
           EvFileWrite "KPOINTS" ("0" +:+ Utils.nl);
           EvFileWrite "KPOINTS" ("Gamma" +:+ Utils.nl);
           EvFileWrite "KPOINTS"
             (pretty n1 +:+ " " +:+ pretty n2 +:+ " " +:+ pretty n3
              +:+ Utils.nl);
           EvFileWrite "KPOINTS" ("0 0 0" +:+ Utils.nl)],
          Returned tt).
Proof. apply write_kpoints_writes_a_positive_mesh. reflexivity. Defined.

(** The sample OUTCAR, which holds the accuracy line. *)
Lemma convergence_implies_completion_witness :
  Outcar.check_vasp_completion Cases.finished_world "/work/a/01_relax" = true.
Proof.
  apply (convergence_implies_completion Cases.finished_world
           "/work/a/01_relax" "energy").
  - intros lines [= <-]. reflexivity.
  - vm_compute. reflexivity.
Defined.

(** The sample OUTCAR: the energy of its second ionic step is the
    one read. *)
Lemma extract_final_energy_reads_last_marker_witness :
  Utils.extract_final_energy Cases.finished_world "/work/a/01_relax"
  = VFloat (-42.5)%float.
Proof.
  refine (eq_trans
            (extract_final_energy_reads_last_marker Cases.finished_world
               "/work/a/01_relax" (take 2 Cases.outcar_lines)
               (drop 3 Cases.outcar_lines)
               ("  energy  without entropy=  -42.4  energy(sigma->0) =  -42.5"
                +:+ Utils.nl) _ _ _ _) _).
  - reflexivity.
  - reflexivity.
  - vm_compute. reflexivity.
  - repeat constructor.
  - vm_compute. reflexivity.
Defined.

(** [vasp phonon -i a.vasp --submit] in the sample world. *)
Lemma phonon_single_file_exit_code_witness :
  (Cli.exit_code (Commands.command_phonon Runs.plain_world
                    Runs.relax_single_args) = 0%Z
   <-> forall p,
         p ∈ Cli.pressures (Single.setup_of Runs.plain_world
                              Runs.relax_single_args) ->
         Single.succeeds Runs.plain_world
           (PhononPropertiesPipeline Runs.plain_world)
           (Cli.base_root (Single.setup_of Runs.plain_world
                             Runs.relax_single_args)
            </> Cli.format_pressure_dir Runs.plain_world p)
           (Single.phonon_call Runs.plain_world
              (Single.setup_of Runs.plain_world Runs.relax_single_args)
              Cases.phonon_kw p))
  /\ (Cli.exit_code (Commands.command_phonon Runs.plain_world
                       Runs.relax_single_args) = 0%Z
      \/ Cli.exit_code (Commands.command_phonon Runs.plain_world
                          Runs.relax_single_args) = 1%Z).
Proof.
  apply (phonon_single_file_exit_code Runs.plain_world Runs.relax_single_args
           (Single.setup_of Runs.plain_world Runs.relax_single_args)
           Cases.phonon_kw).
  - vm_compute. reflexivity.
  - vm_compute. reflexivity.
  - split; [left; vm_compute; reflexivity|].
    exists VNone. vm_compute. reflexivity.
  - vm_compute. reflexivity.
Defined.

(** [vasp md -i structs --submit] in a world whose MD pipelines all
    fail. *)
Lemma batch_md_exit_code_ignores_unit_failures_witness :
  Cli.exit_code (Commands.command_md Cases.failing_md_world
                   Runs.relax_batch_args) = 0%Z.
Proof.
  apply (batch_md_exit_code_ignores_unit_failures Cases.failing_md_world
           Runs.relax_batch_args
           (Single.setup_of Cases.failing_md_world Runs.relax_batch_args)).
  - vm_compute. reflexivity.
  - vm_compute. reflexivity.
  - split; [left; vm_compute; reflexivity|].
    exists VNone. vm_compute. reflexivity.
  - vm_compute. reflexivity.
  - reflexivity.
  - reflexivity.
  - intros dir. reflexivity.
Defined.

(** Two candidates for carbon and an empty answer: the prompt returns
    a choice among the candidates. *)
Lemma prompt_chooses_a_candidate_witness :
  exists choice,
    (Potcar._prompt_choose_potcar Runs.plain_world Cases.potcar_shell "C"
       ["/pot/Ca/POTCAR"; "/pot/C_h/POTCAR"] tt).2
    = Returned choice
    /\ forall c, choice = Some c -> c ∈ ["/pot/Ca/POTCAR"; "/pot/C_h/POTCAR"].
Proof.
  apply (proj1 (prompt_chooses_a_candidate Runs.plain_world
                  Cases.potcar_shell "C"
                  ["/pot/Ca/POTCAR"; "/pot/C_h/POTCAR"] tt) "").
  - discriminate.
  - reflexivity.
Defined.

(** The search for carbon in the sample library returns the
    pseudopotential of calcium. *)
Lemma search_returns_prefix_matches_witness :
  exists child,
    "/pot/Ca/POTCAR" = child </> "POTCAR"
    /\ Potcar.sh_is_dir Cases.potcar_shell tt child = true
    /\ Potcar.sh_exists Cases.potcar_shell tt "/pot/Ca/POTCAR" = true
    /\ String.prefix (str_lower Runs.plain_world "C")
         (str_lower Runs.plain_world (PathLib.name child))
       = true.
Proof.
  apply (search_returns_prefix_matches Runs.plain_world Cases.potcar_shell tt
           (VStr "/pot") "C" ""
           ["/pot/Ca/POTCAR"; "/pot/C_h/POTCAR"]).
  - vm_compute. reflexivity.
  - left.
Defined.

(** A POSCAR that cannot be read. *)
Lemma prepare_potcar_without_elements_witness :
  Potcar.prepare_potcar Runs.plain_world Cases.potcar_shell "POSCAR"
    (VStr "/pot") "POTCAR" "PBE" None tt
  = (tt, Returned false).
Proof.
  apply prepare_potcar_without_elements. exact I.
Defined.

(** A unit of the sample class with no further keyword arguments. *)
Lemma single_pipeline_success_witness :
  exists r,
    result (Cli._run_single_pipeline Runs.plain_world Runs.picky
              "structs/b.vasp" "/work/b/0_GPa" ∅ 0%float) = Returned r
    /\ (r !! "success" = Some (VBool true)
        <-> Single.succeeds Runs.plain_world Runs.picky "/work/b/0_GPa"
              (Py.dict_of [("structure_file", VPath "structs/b.vasp");
                           ("work_dir", VPath "/work/b/0_GPa");
                           ("pressure", VFloat 0)] ∪ ∅)).
Proof. apply single_pipeline_success. by repeat constructor. Defined.

(** [vasp phonon -i structs --submit] on the sample directory. *)
Lemma batch_phonon_one_summary_witness :
  Observe.summaries (trace (Commands.command_phonon Runs.plain_world
                              Runs.relax_batch_args))
  = [(Cli.success_count
        (Matrix.unit_record Runs.plain_world
           (Cli.base_root (Single.setup_of Runs.plain_world
                             Runs.relax_batch_args))
           (Some (PhononPropertiesPipeline Runs.plain_world))
           Cases.phonon_kw false
           <$> list_prod
                 (Exit.found Runs.plain_world
                    (Single.setup_of Runs.plain_world Runs.relax_batch_args))
                 (Cli.pressures (Single.setup_of Runs.plain_world
                                   Runs.relax_batch_args))),
      length (Exit.found Runs.plain_world
                (Single.setup_of Runs.plain_world Runs.relax_batch_args))
      * length (Cli.pressures (Single.setup_of Runs.plain_world
                                 Runs.relax_batch_args)))]
  /\ Cli.exit_code (Commands.command_phonon Runs.plain_world
                      Runs.relax_batch_args) = 0%Z.
Proof.
  apply (batch_phonon_one_summary Runs.plain_world Runs.relax_batch_args
           (Single.setup_of Runs.plain_world Runs.relax_batch_args)
           Cases.phonon_kw).
  - vm_compute. reflexivity.
  - vm_compute. reflexivity.
  - split; [left; vm_compute; reflexivity|].
    exists VNone. vm_compute. reflexivity.
  - by vm_compute.
  - vm_compute. reflexivity.
Defined.

(** [vasp relax -i structs --submit] on the sample directory, at the one
    default pressure. *)
Lemma batch_relax_repeats_the_matrix_witness :
  Observe.summaries (trace (Cli.command_relax Runs.plain_world
                              Runs.relax_batch_args))
  = replicate
      (length (Cli.pressures (Single.setup_of Runs.plain_world
                                Runs.relax_batch_args)))
      (0, length (Exit.found Runs.plain_world
                    (Single.setup_of Runs.plain_world Runs.relax_batch_args))
          * length (Cli.pressures (Single.setup_of Runs.plain_world
                                     Runs.relax_batch_args))).
Proof.
  apply (batch_relax_repeats_the_matrix Runs.plain_world Runs.relax_batch_args
           (Single.setup_of Runs.plain_world Runs.relax_batch_args)).
  - vm_compute. reflexivity.
  - vm_compute. reflexivity.
  - split; [left; vm_compute; reflexivity|].
    exists VNone. vm_compute. reflexivity.
  - by vm_compute.
Defined.
